(** * WindFarmsNZ: period detection, distributions and multi-site aggregation

    A shallow embedding of the analysis services of the repository
    (services/wind-analysis-service.js, the strong-wind-periods service, the
    multi-location service and the wind-data service) together with the
    properties stated for them.

    Conventions of the embedding.
    - A JavaScript number that carries a measurement (speed, direction,
      average) is an exact rational [Q]; numeric results are compared with
      [==].  Counters are integers [Z].
    - A timestamp is the instant denoted by the ISO-8601 string the services
      pass around, in epoch milliseconds ([Z]).  [moment(a).diff(moment(b))]
      is the difference of the two instants.
    - A duration in hours is compared with a minimum that the caller sets,
      so it is the number the language computes: the quotient rounded to the
      nearest binary64 number ([roundDouble]).
    - A property that may be absent on an object is an [option]; [x || 0]
      is [orZero].
    - A JavaScript exception is the [None] of an [option] result. *)

From Stdlib Require Import ZArith QArith Qround Qminmax Qpower Lia Lqa.
From stdpp Require Import gmap strings list fin_maps sorting.

Local Open Scope Z_scope.

(** ** Readings *)

(** The object built by [formattedData] in the wind-data service.  The
    current-conditions object of [formatCurrentData] has no
    [windSpeed100mKmh] and no [windGustsKmh], hence the options. *)
Record Reading := mkReading {
  timestamp : Z;
  windSpeedKmh : Q;
  windSpeed100mKmh : option Q;
  windDirection : Q;
  windGustsKmh : option Q;
  temperature : Q;
  humidity : Q;
  pressure : Q
}.

(** [v || 0] on a number that may be undefined. *)
Definition orZero (v : option Q) : Q :=
  match v with
  | Some q => q
  | None => 0%Q
  end.

(** [a >= b] on numbers. *)
Definition geq (a b : Q) : bool := Qle_bool b a.

(** Binary64 arithmetic.  [binade n d] is the exponent [e] with
    [2^e <= n/d < 2^(e+1)], for positive [n] and [d]. *)
Definition binade (n d : Z) : Z :=
  let e0 := Z.log2 n - Z.log2 d in
  if n * 2 ^ Z.max 0 (- e0) <? d * 2 ^ Z.max 0 e0 then e0 - 1 else e0.

(** The integer nearest to [num / den], a tie going to the even one. *)
Definition nearestEven (num den : Z) : Z :=
  let fl := num / den in
  let r := num mod den in
  if 2 * r <? den then fl
  else if den <? 2 * r then fl + 1
  else if Z.even fl then fl else fl + 1.

(** The binary64 number nearest to [q], ties to even: a significand of 53
    bits at the binade of [q], and the spacing 2^-1074 below the normal
    range.  No number that the services round here is large enough to
    overflow. *)
Definition roundDouble (q : Q) : Q :=
  let n := Z.abs (Qnum q) in
  let d := Z.pos (Qden q) in
  if n =? 0 then 0%Q
  else
    let s := Z.max (binade n d - 52) (-1074) in
    (inject_Z (Z.sgn (Qnum q)
               * nearestEven (n * 2 ^ Z.max 0 (- s)) (d * 2 ^ Z.max 0 s))
     * 2 ^ s)%Q.

(** [moment(a).diff(moment(b), "hours", true)], which is
    [(a - b) / 36e5] on the two instants, not truncated: a subtraction and a
    division of the language, each rounded. *)
Definition diffHours (a b : Z) : Q :=
  roundDouble (roundDouble (inject_Z (a - b)) / inject_Z 3600000).

(** [moment(a).diff(moment(b))]: milliseconds. *)
Definition diffMillis (a b : Z) : Z := a - b.

(** [xs.reduce((sum, x) => sum + x, 0)]. *)
Definition sumQ (xs : list Q) : Q := fold_left Qplus xs 0%Q.

(** Numbers that may be infinite: [Math.max()] of no argument is
    -Infinity, and the daily minimum starts at Infinity. *)
Inductive Num :=
| NegInfinity
| Fin (q : Q)
| Infinity.

Definition mathMax (a b : Num) : Num :=
  match a, b with
  | Infinity, _ | _, Infinity => Infinity
  | NegInfinity, x | x, NegInfinity => x
  | Fin x, Fin y => Fin (Qmax x y)
  end.

Definition mathMin (a b : Num) : Num :=
  match a, b with
  | NegInfinity, _ | _, NegInfinity => NegInfinity
  | Infinity, x | x, Infinity => x
  | Fin x, Fin y => Fin (Qmin x y)
  end.

(** [Math.max(...xs)]. *)
Definition maxOf (xs : list Q) : Num :=
  fold_left (fun acc x => mathMax acc (Fin x)) xs NegInfinity.

(** [Math.round]: the nearest integer, a tie going up. *)
Definition mathRound (x : Q) : Z := Qfloor (x + (1 # 2))%Q.

(** [a % b] on integers: the sign of the result is that of [a]. *)
Definition jsRem (a b : Z) : Z := Z.rem a b.

(** [xs[i]] for an integer [i]: undefined outside the array. *)
Definition index {A} (xs : list A) (i : Z) : option A :=
  if i <? 0 then None else xs !! Z.to_nat i.

(** The calendar date of a day counted from 1970-01-01, in the proleptic
    Gregorian calendar. *)
Definition civilFromDays (days : Z) : Z * Z * Z :=
  let z := days + 719468 in
  let era := z / 146097 in
  let doe := z - era * 146097 in
  let yoe := (doe - doe / 1460 + doe / 36524 - doe / 146096) / 365 in
  let doy := doe - (365 * yoe + yoe / 4 - yoe / 100) in
  let mp := (5 * doy + 2) / 153 in
  let d := doy - (153 * mp + 2) / 5 + 1 in
  let m := if mp <? 10 then mp + 3 else mp - 9 in
  let y := yoe + era * 400 + (if m <=? 2 then 1 else 0) in
  (y, m, d).

Definition digit (n : Z) : string :=
  String (Ascii.ascii_of_nat (48 + Z.to_nat (n mod 10))) EmptyString.

Definition pad2 (n : Z) : string := (digit (n / 10) ++ digit n)%string.

Definition pad4 (n : Z) : string := (pad2 (n / 100) ++ pad2 n)%string.

(** moment.js reads the calendar fields of an instant in the time zone of
    the process: the local time is the instant moved by the offset that the
    zone has at that instant (milliseconds). *)
Record LocalTime := mkLocalTime {
  utcOffset : Z -> Z
}.

(** [moment(t).hour()]. *)
Definition hour (lt : LocalTime) (t : Z) : Z :=
  ((t + utcOffset lt t) / 3600000) mod 24.

(** [moment(t).format("YYYY-MM-DD")], for the years 0000 to 9999. *)
Definition formatDay (lt : LocalTime) (t : Z) : string :=
  let '(y, m, d) := civilFromDays ((t + utcOffset lt t) / 86400000) in
  (pad4 y ++ "-" ++ pad2 m ++ "-" ++ pad2 d)%string.

(** [xs.sort(cmp)] with a consistent comparator: the stable sort. *)
Fixpoint insertSorted {A} (cmp : A -> A -> Z) (x : A) (l : list A) : list A :=
  match l with
  | [] => [x]
  | y :: l' =>
      if cmp x y <=? 0 then x :: y :: l' else y :: insertSorted cmp x l'
  end.

Definition sortBy {A} (cmp : A -> A -> Z) (l : list A) : list A :=
  foldr (insertSorted cmp) [] l.

(** [Array.from(new Set(xs))]: the distinct values in the order of their
    first occurrence. *)
Definition setFrom {A} `{EqDecision A} (xs : list A) : list A :=
  fold_left (fun s x => if decide (x ∈ s) then s else s ++ [x]) xs [].

(** A [forEach] whose body may throw. *)
Definition forEachM {S A} (body : S -> A -> option S) (xs : list A) (s : S)
  : option S :=
  fold_left (fun acc x => acc ≫= (fun st => body st x)) xs (Some s).

(** A number that may also be NaN. *)
Inductive Float :=
| NaN
| Real (n : Num).

Definition fin (q : Q) : Float := Real (Fin q).

(** [a > b] on numbers. *)
Definition gt (a b : Q) : bool := negb (Qle_bool a b).

(** [a / b].  A zero is +0 here: the sums and the counts that the services
    divide by are never -0. *)
Definition fdiv (a b : Float) : Float :=
  match a, b with
  | NaN, _ | _, NaN => NaN
  | Real (Fin x), Real (Fin y) =>
      if Qeq_bool y 0 then
        match (x ?= 0)%Q with
        | Eq => NaN
        | Gt => Real Infinity
        | Lt => Real NegInfinity
        end
      else Real (Fin (x / y))
  | Real (Fin _), Real _ => Real (Fin 0)
  | Real Infinity, Real (Fin y) =>
      if Qle_bool 0 y then Real Infinity else Real NegInfinity
  | Real NegInfinity, Real (Fin y) =>
      if Qle_bool 0 y then Real NegInfinity else Real Infinity
  | Real _, Real _ => NaN
  end.

(** [a * k] for a finite [k]. *)
Definition ftimes (a : Float) (k : Q) : Float :=
  match a with
  | NaN => NaN
  | Real (Fin x) => Real (Fin (x * k))
  | Real Infinity =>
      match (k ?= 0)%Q with
      | Eq => NaN
      | Gt => Real Infinity
      | Lt => Real NegInfinity
      end
  | Real NegInfinity =>
      match (k ?= 0)%Q with
      | Eq => NaN
      | Gt => Real NegInfinity
      | Lt => Real Infinity
      end
  end.

(** [a > k] and [a < k] for a finite [k]: false when [a] is NaN. *)
Definition fgt (a : Float) (k : Q) : bool :=
  match a with
  | NaN => false
  | Real NegInfinity => false
  | Real Infinity => true
  | Real (Fin x) => gt x k
  end.

Definition flt (a : Float) (k : Q) : bool :=
  match a with
  | NaN => false
  | Real NegInfinity => true
  | Real Infinity => false
  | Real (Fin x) => gt k x
  end.

(** [a > b] on numbers that may be infinite. *)
Definition numGt (a b : Num) : bool :=
  match a, b with
  | NegInfinity, _ | _, Infinity => false
  | _, NegInfinity | Infinity, _ => true
  | Fin x, Fin y => gt x y
  end.

(** [a < b] on numbers that may be infinite or NaN: false when one of
    them is NaN. *)
Definition fless (a b : Float) : bool :=
  match a, b with
  | Real x, Real y => numGt y x
  | _, _ => false
  end.

(** The sign of a rational, and what a comparator [(a, b) => a - b] tells
    the sort: the sign of the difference, 0 when the difference is NaN. *)
Definition qsign (q : Q) : Z := Z.sgn (Qnum q).

Definition numDiffSign (a b : Num) : Z :=
  match a, b with
  | Fin x, Fin y => qsign (x - y)
  | Infinity, Infinity | NegInfinity, NegInfinity => 0
  | Infinity, _ | _, NegInfinity => 1
  | NegInfinity, _ | _, Infinity => -1
  end.

(** Whether a text that may be undefined is truthy: it is there and is not
    empty. *)
Definition truthy (text : option string) : bool :=
  match text with
  | Some s => negb (String.eqb s "")
  | None => false
  end.

(** [xs.filter(f).length]. *)
Definition countIf {A} (f : A -> bool) (xs : list A) : Z :=
  Z.of_nat (length (List.filter f xs)).

(** [total / count] where [count] is a length or a counter. *)
Definition perCount (total : Q) (count : Z) : Float :=
  fdiv (fin total) (fin (inject_Z count)).

(** The array index that a property name is, if it is one: the decimal
    numeral, without a leading zero, of an integer from 0 to 2^32 - 2. *)
Definition digitOf (c : Ascii.ascii) : option Z :=
  let n := Z.of_nat (Ascii.nat_of_ascii c) in
  if (48 <=? n) && (n <=? 57) then Some (n - 48) else None.

Fixpoint decimal (acc : Z) (s : string) : option Z :=
  match s with
  | EmptyString => Some acc
  | String c rest =>
      match digitOf c with
      | Some d => decimal (10 * acc + d) rest
      | None => None
      end
  end.

Definition arrayIndex (key : string) : option Z :=
  match key with
  | EmptyString => None
  | String c rest =>
      if (Ascii.nat_of_ascii c =? 48)%nat && negb (String.eqb rest "") then None
      else
        match decimal 0 key with
        | Some v => if v <=? 4294967294 then Some v else None
        | None => None
        end
  end.

(** The order in which [Object.keys] lists the properties of an object
    that were added in the order of [entries]: those whose name is an array
    index first, by index, then the others as they were added. *)
Definition ownKeysOrder {V} (entries : list (string * V))
  : list (string * V) :=
  map snd
    (sortBy (fun a b => fst a - fst b)
       (omap (fun entry => (fun i => (i, entry)) <$> arrayIndex (fst entry))
             entries))
  ++ List.filter (fun entry => match arrayIndex (fst entry) with
                               | Some _ => false
                               | None => true
                               end)
                 entries.

(** A site of data/nz-wind-farms.json as [loadWindFarms] copies it. *)
Record WindFarm := mkWindFarm {
  name : string;
  lat : Q;
  lon : Q;
  region : string;
  capacity : Q;
  operator : string
}.

(** The two kinds of value a [windFarm] property holds in the
    strong-wind-periods service: the farm object, or a farm's name. *)
Inductive FarmRef :=
| FarmObject (f : WindFarm)
| FarmName (s : string).

(** [v.name].  A farm object has the property; a string has none, and the
    read gives undefined, which is [None] here. *)
Definition dotName (v : FarmRef) : option string :=
  match v with
  | FarmObject f => Some (name f)
  | FarmName _ => None
  end.

(** ** The strong-wind-periods service (hub height, minimum duration) *)

Module StrongWindPeriodsService.

Record t := mkService {
  strongWindThreshold : Q;
  minimumDurationHours : Q;
  windFarms : list WindFarm
}.

(** The constructor: 60 km/h at 100 m, 6 hours. *)
Definition constructor (farms : list WindFarm) : t :=
  {| strongWindThreshold := 60; minimumDurationHours := 6; windFarms := farms |}.

(** [currentPeriod] while the run is open. *)
Record OpenPeriod := mkOpen {
  o_startTime : Z;
  o_startWindSpeed : Q;
  o_maxWindSpeed : Q;
  o_readings : list Reading;
  o_windFarm : FarmRef
}.

(** [currentPeriod] once [endTime], [durationHours] and [avgWindSpeed] are
    set. *)
Record Period := mkPeriod {
  startTime : Z;
  startWindSpeed : Q;
  maxWindSpeed : Q;
  readings : list Reading;
  windFarm : FarmRef;
  endTime : Z;
  durationHours : Q;
  avgWindSpeed : Q
}.

Definition speed100 (r : Reading) : Q := orZero (windSpeed100mKmh r).

Definition isStrongWind (this : t) (r : Reading) : bool :=
  geq (speed100 r) (strongWindThreshold this).

(** The three assignments that end a period at the instant [e]. *)
Definition close (cp : OpenPeriod) (e : Z) : Period :=
  {| startTime := o_startTime cp;
     startWindSpeed := o_startWindSpeed cp;
     maxWindSpeed := o_maxWindSpeed cp;
     readings := o_readings cp;
     windFarm := o_windFarm cp;
     endTime := e;
     durationHours := diffHours e (o_startTime cp);
     avgWindSpeed :=
       (sumQ (map speed100 (o_readings cp))
        / inject_Z (Z.of_nat (length (o_readings cp))))%Q |}.

(** [if (durationHours >= minimumDurationHours) periods.push(p)]. *)
Definition pushIfLongEnough (this : t) (periods : list Period) (p : Period)
  : list Period :=
  if geq (durationHours p) (minimumDurationHours this)
  then periods ++ [p] else periods.

(** One iteration of the [for] loop over [data]. *)
Definition step (this : t) (farm : WindFarm)
    (st : list Period * option OpenPeriod) (reading : Reading)
  : list Period * option OpenPeriod :=
  let '(periods, currentPeriod) := st in
  let windSpeed100m := speed100 reading in
  match isStrongWind this reading, currentPeriod with
  | true, None =>
      (periods,
       Some {| o_startTime := timestamp reading;
               o_startWindSpeed := windSpeed100m;
               o_maxWindSpeed := windSpeed100m;
               o_readings := [reading];
               o_windFarm := FarmName (name farm) |})
  | true, Some cp =>
      (periods,
       Some {| o_startTime := o_startTime cp;
               o_startWindSpeed := o_startWindSpeed cp;
               o_maxWindSpeed := Qmax (o_maxWindSpeed cp) windSpeed100m;
               o_readings := o_readings cp ++ [reading];
               o_windFarm := o_windFarm cp |})
  | false, Some cp =>
      (pushIfLongEnough this periods (close cp (timestamp reading)), None)
  | false, None => (periods, None)
  end.

(** The block after the loop: a period still open is ended at
    [data[data.length - 1].timestamp]. *)
Definition atEndOfData (this : t) (data : list Reading)
    (st : list Period * option OpenPeriod) : option (list Period) :=
  match st with
  | (periods, None) => Some periods
  | (periods, Some cp) =>
      match last data with
      | Some r => Some (pushIfLongEnough this periods (close cp (timestamp r)))
      | None => None
      end
  end.

Definition findStrongWindPeriods (this : t) (data : list Reading)
    (farm : WindFarm) : option (list Period) :=
  atEndOfData this data (fold_left (step this farm) data ([], None)).

(** *** Aggregation over the sites *)

Definition setWindFarm (v : FarmRef) (p : Period) : Period :=
  {| startTime := startTime p;
     startWindSpeed := startWindSpeed p;
     maxWindSpeed := maxWindSpeed p;
     readings := readings p;
     windFarm := v;
     endTime := endTime p;
     durationHours := durationHours p;
     avgWindSpeed := avgWindSpeed p |}.

(** The object literal [{ windFarm: windFarm, ...period }].  Its properties
    are written from left to right: first [windFarm] with the farm object,
    then every own property of [period].  [windFarm] is an own property of
    every period (set when the period is opened), so the spread writes it
    again. *)
Definition withWindFarm (farm : WindFarm) (period : Period) : Period :=
  let literal := setWindFarm (FarmObject farm) period in
  setWindFarm (windFarm period) literal.

Record FarmAnalysis := mkFarmAnalysis {
  fa_windFarm : WindFarm;
  fa_periods : list Period;
  fa_totalPeriods : Z;
  fa_totalDuration : Q;
  fa_maxWindSpeed : Num
}.

(** The body of the loop over [this.windFarms].  [getWindData farm] is the
    [historical] part of what the wind-data service returns for the farm and
    the date range, [None] when the call throws; the [catch] of the loop
    body logs and goes on to the next farm. *)
Definition analyzeFarm (this : t) (getWindData : WindFarm -> option (list Reading))
    (acc : list FarmAnalysis * list Period) (farm : WindFarm)
  : list FarmAnalysis * list Period :=
  let '(windFarmAnalysis, nzStrongWindPeriods) := acc in
  match getWindData farm ≫= (fun hist => findStrongWindPeriods this hist farm) with
  | Some periods =>
      if 0 <? Z.of_nat (length periods) then
        (windFarmAnalysis ++
           [{| fa_windFarm := farm;
               fa_periods := periods;
               fa_totalPeriods := Z.of_nat (length periods);
               fa_totalDuration := sumQ (map durationHours periods);
               fa_maxWindSpeed := maxOf (map maxWindSpeed periods) |}],
         nzStrongWindPeriods ++ map (withWindFarm farm) periods)
      else acc
  | None => acc
  end.

(** [grouped[date]] as an insertion-ordered property list: the keys are
    date strings, which [Object.entries] lists in the order they were
    added. *)
Fixpoint pushUnder (date : string) (p : Period)
    (grouped : list (string * list Period)) : list (string * list Period) :=
  match grouped with
  | [] => [(date, [p])]
  | (d, ps) :: rest =>
      if decide (d = date) then (d, ps ++ [p]) :: rest
      else (d, ps) :: pushUnder date p rest
  end.

Definition groupPeriodsByDate (lt : LocalTime) (periods : list Period)
  : list (string * list Period) :=
  fold_left (fun grouped period =>
               pushUnder (formatDay lt (startTime period)) period grouped)
            periods [].

Record StrongWindDay := mkDay {
  date : string;
  day_windFarms : list (option string);
  windFarmCount : Z;
  day_periods : list Period;
  day_totalDuration : Q;
  day_maxWindSpeed : Num
}.

Definition dayOf (entry : string * list Period) : list StrongWindDay :=
  let '(date, periods) := entry in
  let uniqueWindFarms := setFrom (map (fun p => dotName (windFarm p)) periods) in
  if 1 <=? Z.of_nat (length uniqueWindFarms) then
    [{| date := date;
        day_windFarms := uniqueWindFarms;
        windFarmCount := Z.of_nat (length uniqueWindFarms);
        day_periods := periods;
        day_totalDuration := sumQ (map durationHours periods);
        day_maxWindSpeed := maxOf (map maxWindSpeed periods) |}]
  else [].

Definition findNZStrongWindDays (periodsByDate : list (string * list Period))
  : list StrongWindDay :=
  sortBy (fun a b => windFarmCount b - windFarmCount a)
         (concat (map dayOf periodsByDate)).

Record Summary := mkSummary {
  totalWindFarms : Z;
  windFarmsWithStrongWinds : Z;
  totalStrongWindPeriods : Z;
  totalDuration : Q
}.

Record Analysis := mkAnalysis {
  summary : Summary;
  windFarmAnalysis : list FarmAnalysis;
  nzStrongWindPeriods : list Period;
  periodsByDate : list (string * list Period);
  nzStrongWindDays : list StrongWindDay
}.

(** [analyzeStrongWindPeriods(startDate, endDate)]; the two dates only reach
    the wind-data service, that is [getWindData] here. *)
Definition analyzeStrongWindPeriods (lt : LocalTime) (this : t)
    (getWindData : WindFarm -> option (list Reading)) : Analysis :=
  let '(analysis, collected) :=
    fold_left (analyzeFarm this getWindData) (windFarms this) ([], []) in
  let sorted :=
    sortBy (fun a b => diffMillis (startTime a) (startTime b)) collected in
  let byDate := groupPeriodsByDate lt sorted in
  {| summary :=
       {| totalWindFarms := Z.of_nat (length (windFarms this));
          windFarmsWithStrongWinds := Z.of_nat (length analysis);
          totalStrongWindPeriods := Z.of_nat (length sorted);
          totalDuration := sumQ (map durationHours sorted) |};
     windFarmAnalysis := analysis;
     nzStrongWindPeriods := sorted;
     periodsByDate := byDate;
     nzStrongWindDays := findNZStrongWindDays byDate |}.

End StrongWindPeriodsService.

(** ** The single-location analysis service (reference height) *)

Module WindAnalysisService.

Record t := mkService {
  strongWindThreshold : Q;
  extremeWindThreshold : Q
}.

Definition constructor : t :=
  {| strongWindThreshold := 60; extremeWindThreshold := 100 |}.

(** The [duration] object, from [moment.duration(end - start)]: the
    duration in hours and in minutes, floored. *)
Record Duration := mkDuration {
  hours : Z;
  minutes : Z;
  totalMinutes : Z;
  totalMilliseconds : Z
}.

Definition durationBetween (e s : Z) : Duration :=
  let ms := diffMillis e s in
  {| hours := ms / 3600000;
     minutes := jsRem (ms / 60000) 60;
     totalMinutes := ms / 60000;
     totalMilliseconds := ms |}.

Record OpenPeriod := mkOpen {
  o_start : Z;
  o_startWindSpeed : Q;
  o_startWindSpeed100m : Q;
  o_startWindGusts : Q;
  o_readings : list Reading
}.

(** [end] is [end_] here; [endWindSpeed] is set only when a reading below
    the threshold ends the period. *)
Record Period := mkPeriod {
  start : Z;
  startWindSpeed : Q;
  startWindSpeed100m : Q;
  startWindGusts : Q;
  readings : list Reading;
  end_ : Z;
  endWindSpeed : option Q;
  duration : Duration;
  maxWindSpeed : Num;
  maxWindSpeed100m : Num;
  maxWindGusts : Num;
  avgWindSpeed : Q
}.

Definition isStrongWind (this : t) (r : Reading) : bool :=
  geq (windSpeedKmh r) (strongWindThreshold this).

Definition close (cp : OpenPeriod) (e : Z) (endSpeed : option Q) : Period :=
  {| start := o_start cp;
     startWindSpeed := o_startWindSpeed cp;
     startWindSpeed100m := o_startWindSpeed100m cp;
     startWindGusts := o_startWindGusts cp;
     readings := o_readings cp;
     end_ := e;
     endWindSpeed := endSpeed;
     duration := durationBetween e (o_start cp);
     maxWindSpeed := maxOf (map windSpeedKmh (o_readings cp));
     maxWindSpeed100m :=
       maxOf (map (fun r => orZero (windSpeed100mKmh r)) (o_readings cp));
     maxWindGusts :=
       maxOf (map (fun r => orZero (windGustsKmh r)) (o_readings cp));
     avgWindSpeed :=
       (sumQ (map windSpeedKmh (o_readings cp))
        / inject_Z (Z.of_nat (length (o_readings cp))))%Q |}.

Definition step (this : t) (st : list Period * option OpenPeriod)
    (reading : Reading) : list Period * option OpenPeriod :=
  let '(periods, currentPeriod) := st in
  match isStrongWind this reading, currentPeriod with
  | true, None =>
      (periods,
       Some {| o_start := timestamp reading;
               o_startWindSpeed := windSpeedKmh reading;
               o_startWindSpeed100m := orZero (windSpeed100mKmh reading);
               o_startWindGusts := orZero (windGustsKmh reading);
               o_readings := [reading] |})
  | true, Some cp =>
      (periods,
       Some {| o_start := o_start cp;
               o_startWindSpeed := o_startWindSpeed cp;
               o_startWindSpeed100m := o_startWindSpeed100m cp;
               o_startWindGusts := o_startWindGusts cp;
               o_readings := o_readings cp ++ [reading] |})
  | false, Some cp =>
      (periods ++ [close cp (timestamp reading) (Some (windSpeedKmh reading))],
       None)
  | false, None => (periods, None)
  end.

Definition atEndOfData (data : list Reading)
    (st : list Period * option OpenPeriod) : option (list Period) :=
  match st with
  | (periods, None) => Some periods
  | (periods, Some cp) =>
      match last data with
      | Some r => Some (periods ++ [close cp (timestamp r) None])
      | None => None
      end
  end.

Definition findStrongWindPeriods (this : t) (data : list Reading)
  : option (list Period) :=
  atEndOfData data (fold_left (step this) data ([], None)).

(** *** Wind rose *)

Definition directionNames : list string :=
  ["N"; "NNE"; "NE"; "ENE"; "E"; "ESE"; "SE"; "SSE";
   "S"; "SSW"; "SW"; "WSW"; "W"; "WNW"; "NW"; "NNW"]%string.

(** [directions[Math.round(degrees / 22.5) % 16]]. *)
Definition getWindDirection (degrees : Q) : option string :=
  index directionNames (jsRem (mathRound (degrees / (45 # 2))%Q) 16).

Definition bump (c : bool) (n : Z) : Z := if c then n + 1 else n.

(** [count > 0 ? total / count : 0]. *)
Definition average (total : Q) (count : Z) : Q :=
  if 0 <? count then (total / inject_Z count)%Q else 0%Q.

(** [count > 0 ? (part / count) * 100 : 0]. *)
Definition percentage (part count : Z) : Q :=
  if 0 <? count then (inject_Z part / inject_Z count * 100)%Q else 0%Q.

Record RoseStats := mkRose {
  r_count : Z;
  r_totalSpeed : Q;
  r_totalSpeed100m : Q;
  r_strongWindCount : Z;
  r_extremeWindCount : Z
}.

Record RoseSector := mkSector {
  r_stats : RoseStats;
  r_avgSpeed : Q;
  r_avgSpeed100m : Q;
  r_strongWindPercentage : Q;
  r_extremeWindPercentage : Q
}.

Definition roseZero : RoseStats :=
  {| r_count := 0; r_totalSpeed := 0; r_totalSpeed100m := 0;
     r_strongWindCount := 0; r_extremeWindCount := 0 |}.

Definition roseAdd (this : t) (b : RoseStats) (reading : Reading) : RoseStats :=
  {| r_count := r_count b + 1;
     r_totalSpeed := (r_totalSpeed b + windSpeedKmh reading)%Q;
     r_totalSpeed100m :=
       (r_totalSpeed100m b + orZero (windSpeed100mKmh reading))%Q;
     r_strongWindCount :=
       bump (geq (windSpeedKmh reading) (strongWindThreshold this))
            (r_strongWindCount b);
     r_extremeWindCount :=
       bump (geq (windSpeedKmh reading) (extremeWindThreshold this))
            (r_extremeWindCount b) |}.

(** The body of [data.forEach] in [calculateWindRose].  When
    [getWindDirection] gives undefined, or names no bucket, the update of
    [directions[direction].count] throws. *)
Definition roseStep (this : t) (directions : gmap string RoseStats)
    (reading : Reading) : option (gmap string RoseStats) :=
  direction ← getWindDirection (windDirection reading);
  b ← directions !! direction;
  Some (<[direction := roseAdd this b reading]> directions).

Definition roseFinish (b : RoseStats) : RoseSector :=
  {| r_stats := b;
     r_avgSpeed := average (r_totalSpeed b) (r_count b);
     r_avgSpeed100m := average (r_totalSpeed100m b) (r_count b);
     r_strongWindPercentage := percentage (r_strongWindCount b) (r_count b);
     r_extremeWindPercentage := percentage (r_extremeWindCount b) (r_count b) |}.

Definition calculateWindRose (this : t) (data : list Reading)
  : option (gmap string RoseSector) :=
  let directions :=
    fold_left (fun m dir => <[dir := roseZero]> m) directionNames ∅ in
  (fun m : gmap string RoseStats => roseFinish <$> m)
    <$> forEachM (roseStep this) data directions.

(** *** Hourly distribution *)

Record HourStats := mkHour {
  h_count : Z;
  h_strongWindCount : Z;
  h_extremeWindCount : Z;
  h_totalWindSpeed : Q;
  h_totalWindSpeed100m : Q;
  h_totalWindGusts : Q;
  h_maxWindSpeed : Q;
  h_maxWindSpeed100m : Q;
  h_maxWindGusts : Q
}.

Record HourBucket := mkHourBucket {
  h_stats : HourStats;
  h_avgWindSpeed : Q;
  h_avgWindSpeed100m : Q;
  h_avgWindGusts : Q;
  h_strongWindPercentage : Q;
  h_extremeWindPercentage : Q
}.

Definition hourZero : HourStats :=
  {| h_count := 0; h_strongWindCount := 0; h_extremeWindCount := 0;
     h_totalWindSpeed := 0; h_totalWindSpeed100m := 0; h_totalWindGusts := 0;
     h_maxWindSpeed := 0; h_maxWindSpeed100m := 0; h_maxWindGusts := 0 |}.

Definition hourAdd (this : t) (b : HourStats) (reading : Reading) : HourStats :=
  {| h_count := h_count b + 1;
     h_strongWindCount :=
       bump (geq (windSpeedKmh reading) (strongWindThreshold this))
            (h_strongWindCount b);
     h_extremeWindCount :=
       bump (geq (windSpeedKmh reading) (extremeWindThreshold this))
            (h_extremeWindCount b);
     h_totalWindSpeed := (h_totalWindSpeed b + windSpeedKmh reading)%Q;
     h_totalWindSpeed100m :=
       (h_totalWindSpeed100m b + orZero (windSpeed100mKmh reading))%Q;
     h_totalWindGusts := (h_totalWindGusts b + orZero (windGustsKmh reading))%Q;
     h_maxWindSpeed := Qmax (h_maxWindSpeed b) (windSpeedKmh reading);
     h_maxWindSpeed100m :=
       Qmax (h_maxWindSpeed100m b) (orZero (windSpeed100mKmh reading));
     h_maxWindGusts := Qmax (h_maxWindGusts b) (orZero (windGustsKmh reading)) |}.

(** The body of [data.forEach] in [calculateHourlyDistribution]; an hour
    that names no bucket makes the first update throw. *)
Definition hourStep (lt : LocalTime) (this : t) (hourlyStats : gmap Z HourStats)
    (reading : Reading) : option (gmap Z HourStats) :=
  let hour := hour lt (timestamp reading) in
  b ← hourlyStats !! hour;
  Some (<[hour := hourAdd this b reading]> hourlyStats).

Definition hourFinish (b : HourStats) : HourBucket :=
  {| h_stats := b;
     h_avgWindSpeed := average (h_totalWindSpeed b) (h_count b);
     h_avgWindSpeed100m := average (h_totalWindSpeed100m b) (h_count b);
     h_avgWindGusts := average (h_totalWindGusts b) (h_count b);
     h_strongWindPercentage := percentage (h_strongWindCount b) (h_count b);
     h_extremeWindPercentage := percentage (h_extremeWindCount b) (h_count b) |}.

Definition calculateHourlyDistribution (lt : LocalTime) (this : t)
    (data : list Reading) : option (gmap Z HourBucket) :=
  let hourlyStats :=
    fold_left (fun m hour => <[hour := hourZero]> m)
              (map Z.of_nat (seq 0 24)) ∅ in
  (fun m : gmap Z HourStats => hourFinish <$> m)
    <$> forEachM (hourStep lt this) data hourlyStats.

(** *** Daily distribution *)

Record DayStats := mkDayStats {
  d_count : Z;
  d_strongWindCount : Z;
  d_extremeWindCount : Z;
  d_totalWindSpeed : Q;
  d_totalWindSpeed100m : Q;
  d_totalWindGusts : Q;
  d_maxWindSpeed : Q;
  d_maxWindSpeed100m : Q;
  d_maxWindGusts : Q;
  d_minWindSpeed : Num
}.

Record DayBucket := mkDayBucket {
  d_stats : DayStats;
  d_avgWindSpeed : Q;
  d_avgWindSpeed100m : Q;
  d_avgWindGusts : Q;
  d_strongWindPercentage : Q;
  d_extremeWindPercentage : Q;
  d_minWindSpeedOut : Num
}.

Definition dayZero : DayStats :=
  {| d_count := 0; d_strongWindCount := 0; d_extremeWindCount := 0;
     d_totalWindSpeed := 0; d_totalWindSpeed100m := 0; d_totalWindGusts := 0;
     d_maxWindSpeed := 0; d_maxWindSpeed100m := 0; d_maxWindGusts := 0;
     d_minWindSpeed := Infinity |}.

Definition dayAdd (this : t) (b : DayStats) (reading : Reading) : DayStats :=
  {| d_count := d_count b + 1;
     d_strongWindCount :=
       bump (geq (windSpeedKmh reading) (strongWindThreshold this))
            (d_strongWindCount b);
     d_extremeWindCount :=
       bump (geq (windSpeedKmh reading) (extremeWindThreshold this))
            (d_extremeWindCount b);
     d_totalWindSpeed := (d_totalWindSpeed b + windSpeedKmh reading)%Q;
     d_totalWindSpeed100m :=
       (d_totalWindSpeed100m b + orZero (windSpeed100mKmh reading))%Q;
     d_totalWindGusts := (d_totalWindGusts b + orZero (windGustsKmh reading))%Q;
     d_maxWindSpeed := Qmax (d_maxWindSpeed b) (windSpeedKmh reading);
     d_maxWindSpeed100m :=
       Qmax (d_maxWindSpeed100m b) (orZero (windSpeed100mKmh reading));
     d_maxWindGusts := Qmax (d_maxWindGusts b) (orZero (windGustsKmh reading));
     d_minWindSpeed := mathMin (d_minWindSpeed b) (Fin (windSpeedKmh reading)) |}.

(** The body of [data.forEach] in [calculateDailyDistribution]: the bucket
    of the day is created on its first reading. *)
Definition dayStep (lt : LocalTime) (this : t) (dailyStats : gmap string DayStats)
    (reading : Reading) : gmap string DayStats :=
  let day := formatDay lt (timestamp reading) in
  let stats :=
    match dailyStats !! day with
    | Some b => b
    | None => dayZero
    end in
  <[day := dayAdd this stats reading]> dailyStats.

Definition dayFinish (b : DayStats) : DayBucket :=
  {| d_stats := b;
     d_avgWindSpeed := (d_totalWindSpeed b / inject_Z (d_count b))%Q;
     d_avgWindSpeed100m := (d_totalWindSpeed100m b / inject_Z (d_count b))%Q;
     d_avgWindGusts := (d_totalWindGusts b / inject_Z (d_count b))%Q;
     d_strongWindPercentage :=
       (inject_Z (d_strongWindCount b) / inject_Z (d_count b) * 100)%Q;
     d_extremeWindPercentage :=
       (inject_Z (d_extremeWindCount b) / inject_Z (d_count b) * 100)%Q;
     d_minWindSpeedOut :=
       match d_minWindSpeed b with
       | Infinity => Fin 0
       | m => m
       end |}.

Definition calculateDailyDistribution (lt : LocalTime) (this : t)
    (data : list Reading) : gmap string DayBucket :=
  dayFinish <$> fold_left (dayStep lt this) data ∅.


(** *** Summary, gusts, heights and recommendations *)

Record Summary := mkSummary {
  totalReadings : Z;
  strongWindReadings : Z;
  strongWindPercentage : Float;
  extremeWindReadings : Z;
  extremeWindPercentage : Float;
  s_maxWindSpeed : Num;
  s_maxWindSpeed100m : Num;
  s_maxWindGusts : Num;
  averageWindSpeed : Float;
  averageWindSpeed100m : Float;
  spanStart : option Z;
  spanEnd : option Z
}.

Definition isExtremeWind (this : t) (r : Reading) : bool :=
  geq (windSpeedKmh r) (extremeWindThreshold this).

(** [data[0]?.timestamp] and [data[data.length - 1]?.timestamp] are
    undefined, [None], for no data. *)
Definition calculateSummary (this : t) (data : list Reading) : Summary :=
  let totalReadings := Z.of_nat (length data) in
  let strongWindReadings := countIf (isStrongWind this) data in
  let extremeWindReadings := countIf (isExtremeWind this) data in
  {| totalReadings := totalReadings;
     strongWindReadings := strongWindReadings;
     strongWindPercentage :=
       ftimes (perCount (inject_Z strongWindReadings) totalReadings) 100;
     extremeWindReadings := extremeWindReadings;
     extremeWindPercentage :=
       ftimes (perCount (inject_Z extremeWindReadings) totalReadings) 100;
     s_maxWindSpeed := maxOf (map windSpeedKmh data);
     s_maxWindSpeed100m :=
       maxOf (map (fun d => orZero (windSpeed100mKmh d)) data);
     s_maxWindGusts := maxOf (map (fun d => orZero (windGustsKmh d)) data);
     averageWindSpeed := perCount (sumQ (map windSpeedKmh data)) totalReadings;
     averageWindSpeed100m :=
       perCount (sumQ (map (fun d => orZero (windSpeed100mKmh d)) data))
                totalReadings;
     spanStart := timestamp <$> head data;
     spanEnd := timestamp <$> last data |}.

Record GustAnalysis := mkGusts {
  g_totalReadings : Z;
  gustReadings : Z;
  maxGust : Num;
  avgGust : Float;
  strongGustReadings : Z;
  extremeGustReadings : Z;
  gustPercentage : Float;
  strongGustPercentage : Float;
  extremeGustPercentage : Float
}.

Definition gustOf (d : Reading) : Q := orZero (windGustsKmh d).

Definition analyzeWindGusts (this : t) (data : list Reading) : GustAnalysis :=
  let totalReadings := Z.of_nat (length data) in
  let gustReadings := countIf (fun d => gt (gustOf d) 0) data in
  let strongGustReadings :=
    countIf (fun d => geq (gustOf d) (strongWindThreshold this)) data in
  let extremeGustReadings :=
    countIf (fun d => geq (gustOf d) (extremeWindThreshold this)) data in
  {| g_totalReadings := totalReadings;
     gustReadings := gustReadings;
     maxGust := maxOf (map gustOf data);
     avgGust := perCount (sumQ (map gustOf data)) totalReadings;
     strongGustReadings := strongGustReadings;
     extremeGustReadings := extremeGustReadings;
     gustPercentage :=
       ftimes (perCount (inject_Z gustReadings) totalReadings) 100;
     strongGustPercentage :=
       ftimes (perCount (inject_Z strongGustReadings) totalReadings) 100;
     extremeGustPercentage :=
       ftimes (perCount (inject_Z extremeGustReadings) totalReadings) 100 |}.

Record HeightComparison := mkHeights {
  hc_totalReadings : Z;
  avgSpeed10m : Float;
  avgSpeed100m : Float;
  maxSpeed10m : Num;
  maxSpeed100m : Num;
  speedRatio : Float
}.

Definition compareWindHeights (data : list Reading) : HeightComparison :=
  let totalReadings := Z.of_nat (length data) in
  let avgSpeed10m := perCount (sumQ (map windSpeedKmh data)) totalReadings in
  let avgSpeed100m :=
    perCount (sumQ (map (fun d => orZero (windSpeed100mKmh d)) data))
             totalReadings in
  {| hc_totalReadings := totalReadings;
     avgSpeed10m := avgSpeed10m;
     avgSpeed100m := avgSpeed100m;
     maxSpeed10m := maxOf (map windSpeedKmh data);
     maxSpeed100m := maxOf (map (fun d => orZero (windSpeed100mKmh d)) data);
     speedRatio := fdiv avgSpeed100m avgSpeed10m |}.

(** The value a recommendation carries beside its type and message. *)
Inductive Detail :=
| Percentage (x : Float)
| MaxSpeed (n : Num)
| Ratio (text : string)
| AvgSpeed (x : Float).

Record Recommendation := mkRecommendation {
  rec_type : string;
  rec_message : string;
  rec_detail : Detail
}.

(** [if (cond) recommendations.push(r)]. *)
Definition pushWhen {A} (cond : bool) (r : A) (l : list A) : list A :=
  if cond then l ++ [r] else l.

(** [toFixed2] is [x => x.toFixed(2)] of the language. *)
Definition generateRecommendations (toFixed2 : Float -> string) (this : t)
    (data : list Reading) : list Recommendation :=
  let summary := calculateSummary this data in
  let gustAnalysis := analyzeWindGusts this data in
  let heightComparison := compareWindHeights data in
  let r1 :=
    pushWhen (fgt (strongWindPercentage summary) 20)
      {| rec_type := "warning";
         rec_message := "High frequency of strong winds detected. Consider wind farm shutdown protocols.";
         rec_detail := Percentage (strongWindPercentage summary) |} [] in
  let r2 :=
    pushWhen (fgt (extremeWindPercentage summary) 5)
      {| rec_type := "danger";
         rec_message := "Significant extreme wind events detected. Review safety protocols.";
         rec_detail := Percentage (extremeWindPercentage summary) |} r1 in
  let r3 :=
    pushWhen (fgt (Real (s_maxWindSpeed summary)) 100)
      {| rec_type := "danger";
         rec_message := "Extreme wind speeds recorded. Immediate safety protocols recommended.";
         rec_detail := MaxSpeed (s_maxWindSpeed summary) |} r2 in
  let r4 :=
    pushWhen (fgt (strongGustPercentage gustAnalysis) 15)
      {| rec_type := "warning";
         rec_message := "Frequent strong wind gusts detected. Monitor turbine stress levels.";
         rec_detail := Percentage (strongGustPercentage gustAnalysis) |} r3 in
  let r5 :=
    pushWhen (fgt (speedRatio heightComparison) (3 # 2))
      {| rec_type := "info";
         rec_message := "Significant wind speed increase with height. Consider taller turbines for better efficiency.";
         rec_detail := Ratio (toFixed2 (speedRatio heightComparison)) |} r4 in
  pushWhen (flt (averageWindSpeed summary) 20)
    {| rec_type := "info";
       rec_message := "Low average wind speeds. May impact energy production efficiency.";
       rec_detail := AvgSpeed (averageWindSpeed summary) |} r5.

End WindAnalysisService.

(** The multi-location service has its own copy of [getWindDirection]. *)
Module MultiLocationAnalysisService.

Definition directionNames : list string :=
  ["N"; "NNE"; "NE"; "ENE"; "E"; "ESE"; "SE"; "SSE";
   "S"; "SSW"; "SW"; "WSW"; "W"; "WNW"; "NW"; "NNW"]%string.

Definition getWindDirection (degrees : Q) : option string :=
  index directionNames (jsRem (mathRound (degrees / (45 # 2))%Q) 16).

End MultiLocationAnalysisService.

(** ** The wind-data service: from a provider response to readings *)

Module WindDataService.

(** What the services read of an Open-Meteo response: the bounds and the
    step of the time axis (seconds), the offset of the requested time zone,
    and one array of values per requested variable.  A value the provider
    has not got is NaN, [None] here. *)
Record Response := mkResponse {
  time : Z;
  timeEnd : Z;
  interval : Z;
  utcOffsetSeconds : Z;
  variables : list (list (option Q))
}.

(** [Array((timeEnd - time) / interval)]: a length that is not an integer
    of 0 .. 2^32 - 1 (NaN and the infinities included) is a RangeError. *)
Definition arrayLength (r : Response) : option nat :=
  let span := timeEnd r - time r in
  if interval r =? 0 then None
  else if negb (Z.rem span (interval r) =? 0) then None
  else
    let n := Z.quot span (interval r) in
    if (n <? 0) || (4294967296 <=? n) then None else Some (Z.to_nat n).

(** [new Date(ms).toISOString()]: a RangeError outside the range of Date. *)
Definition toISOString (ms : Z) : option Z :=
  if Z.abs ms <=? 8640000000000000 then Some ms else None.

(** [hourly.variables(k).valuesArray()]; a variable that is not there is
    null, and the call on it throws. *)
Definition valuesArray (r : Response) (k : nat) : option (list (option Q)) :=
  variables r !! k.

(** [values[index] || 0]: 0 for NaN and beyond the end of the array. *)
Definition valueAt (values : list (option Q)) (i : nat) : Q :=
  orZero (mjoin (values !! i)).

(** The [try] block of [getHistoricalData] after the fetch.  The reading
    keeps one copy of the fields the code writes twice ([windSpeed] and
    [windSpeedKmh], and so on); [windDirection100m] is read by no service. *)
Definition formattedData (r : Response) : option (list Reading) :=
  n ← arrayLength r;
  windSpeed10m ← valuesArray r 0;
  windSpeed100m ← valuesArray r 1;
  windDirection10m ← valuesArray r 2;
  _ ← valuesArray r 3;
  windGusts10m ← valuesArray r 4;
  temperature2m ← valuesArray r 5;
  relativeHumidity2m ← valuesArray r 6;
  pressureMsl ← valuesArray r 7;
  mapM (fun i =>
          ts ← toISOString
                 ((time r + Z.of_nat i * interval r + utcOffsetSeconds r) * 1000);
          Some {| timestamp := ts;
                  windSpeedKmh := valueAt windSpeed10m i;
                  windSpeed100mKmh := Some (valueAt windSpeed100m i);
                  windDirection := valueAt windDirection10m i;
                  windGustsKmh := Some (valueAt windGusts10m i);
                  temperature := valueAt temperature2m i;
                  humidity := valueAt relativeHumidity2m i;
                  pressure := valueAt pressureMsl i |})
       (seq 0 n).

(** How a call ends for its caller. *)
Inductive Completion (A : Type) :=
| Returns (a : A)
| Throws (error : string).
Arguments Returns {A} a.
Arguments Throws {A} error.

(** [getHistoricalData]: [fetched] is the first response of
    [fetchWeatherApi], [None] when the fetch throws.  Whatever is thrown in
    the [try] block is logged by the [catch], which returns []. *)
Definition getHistoricalData (fetched : option Response)
  : Completion (list Reading) :=
  match fetched ≫= formattedData with
  | Some readings => Returns readings
  | None => Returns []
  end.


(** *** Current conditions, forecast and the location name *)

(** The [current] of the result: a reading, and the [description] that
    only [formatCurrentData] sets. *)
Record Current := mkCurrent {
  c_reading : Reading;
  description : option string
}.

(** The argument of [formatCurrentData]; a field may be absent. *)
Record CurrentData := mkCurrentData {
  cd_windSpeed : option Q;
  cd_windSpeedKmh : option Q;
  cd_windDirection : option Q;
  cd_temperature : option Q;
  cd_humidity : option Q;
  cd_pressure : option Q
}.

(** [formatCurrentData(data)]; [now] is the instant of [new Date()]. *)
Definition formatCurrentData (now : Z) (data : CurrentData) : Current :=
  {| c_reading :=
       {| timestamp := now;
          windSpeedKmh := orZero (cd_windSpeedKmh data);
          windSpeed100mKmh := None;
          windDirection := orZero (cd_windDirection data);
          windGustsKmh := None;
          temperature := orZero (cd_temperature data);
          humidity := orZero (cd_humidity data);
          pressure := orZero (cd_pressure data) |};
     description := Some "Current conditions from Open-Meteo"%string |}.

Definition noConditions : CurrentData :=
  {| cd_windSpeed := Some 0%Q; cd_windSpeedKmh := Some 0%Q;
     cd_windDirection := Some 0%Q; cd_temperature := Some 0%Q;
     cd_humidity := Some 0%Q; cd_pressure := Some 0%Q |}.

(** [getCurrentForecastData]: the first formatted entry is the current
    reading, the others are the forecast; the [catch] gives the default
    conditions and no forecast. *)
Definition getCurrentForecastData (now : Z) (fetched : option Response)
  : Current * list Reading :=
  match fetched ≫= formattedData with
  | Some formatted =>
      (match head formatted with
       | Some first => {| c_reading := first; description := None |}
       | None => formatCurrentData now noConditions
       end,
       drop 1 formatted)
  | None => (formatCurrentData now noConditions, [])
  end.

Record City := mkCity {
  city_lat : Q;
  city_lon : Q;
  city_name : string
}.

Definition locations : list City :=
  [ mkCity (-409006 # 10000) (174886 # 1000) "Wellington";
    mkCity (-43532 # 1000) (1726306 # 10000) "Christchurch";
    mkCity (-368485 # 10000) (1747633 # 10000) "Auckland";
    mkCity (-458788 # 10000) (1705028 # 10000) "Dunedin" ]%string.

Section Location.
(** The coordinates reach the service as the route has them, as text
    ([lat] and [lon] of "/api/wind-data/:lat/:lon"), or as numbers, which
    behave as the text they print as.  The conversions and the arithmetic
    of the language on them: the number a text stands for ([toNumber], NaN
    when it stands for none), [parseFloat], the difference and the sum of
    two numbers, [Math.pow(x, 2)] and [Math.sqrt]. *)
Variable toNumber : string -> Float.
Variable parseFloat : string -> Float.
Variable numSub : Float -> Float -> Float.
Variable numAdd : Float -> Float -> Float.
Variable mathPow2 : Float -> Float.
Variable mathSqrt : Float -> Float.

(** [Math.sqrt(Math.pow(lat - l.lat, 2) + Math.pow(lon - l.lon, 2))]. *)
Definition distance (lat lon : string) (location : City) : Float :=
  mathSqrt
    (numAdd (mathPow2 (numSub (toNumber lat) (fin (city_lat location))))
            (mathPow2 (numSub (toNumber lon) (fin (city_lon location))))).

(** The body of the [forEach] of [getLocationName]: [minDistance] starts at
    Infinity and [closest] at null. *)
Definition nearer (lat lon : string) (st : Float * option City)
    (location : City) : Float * option City :=
  let '(minDistance, closest) := st in
  let d := distance lat lon location in
  if fless d minDistance then (d, Some location) else st.

(** [getLocationName]: the name of the closest city, or the text made of
    the coordinates when no city is closest. *)
Definition getLocationName (lat lon : string) : string :=
  match snd (fold_left (nearer lat lon) locations (Real Infinity, None)) with
  | Some closest => city_name closest
  | None => ("Lat: " ++ lat ++ ", Lon: " ++ lon)%string
  end.

Record Location := mkLocation {
  loc_lat : Float;
  loc_lon : Float;
  loc_name : string
}.

Record WindData := mkWindData {
  current : Current;
  forecast : list Reading;
  historical : list Reading;
  location : Location
}.

(** [getWindData]: [fetchedHistory] and [fetchedForecast] are what the two
    fetches give; an error of the first call would be thrown again. *)
Definition getWindData (now : Z) (lat lon : string)
    (fetchedHistory fetchedForecast : option Response)
  : Completion WindData :=
  match getHistoricalData fetchedHistory with
  | Returns historicalData =>
      let currentForecastData := getCurrentForecastData now fetchedForecast in
      Returns {| current := fst currentForecastData;
                 forecast := snd currentForecastData;
                 historical := historicalData;
                 location := {| loc_lat := parseFloat lat;
                                loc_lon := parseFloat lon;
                                loc_name := getLocationName lat lon |} |}
  | Throws error => Throws error
  end.
End Location.

End WindDataService.

(** ** [analyzeWindPatterns] of the single-location service *)

Module WindPatterns.

Record Analysis := mkAnalysis {
  a_location : WindDataService.Location;
  threshold : Q;
  extremeThreshold : Q;
  summary : WindAnalysisService.Summary;
  strongWindPeriods : list WindAnalysisService.Period;
  hourlyDistribution : gmap Z WindAnalysisService.HourBucket;
  dailyDistribution : gmap string WindAnalysisService.DayBucket;
  windRose : gmap string WindAnalysisService.RoseSector;
  windGustAnalysis : WindAnalysisService.GustAnalysis;
  heightComparison : WindAnalysisService.HeightComparison;
  recommendations : list WindAnalysisService.Recommendation
}.

(** [[...historical, ...forecast].sort(...)]: by timestamp. *)
Definition allData (windData : WindDataService.WindData) : list Reading :=
  sortBy (fun a b => diffMillis (timestamp a) (timestamp b))
         (WindDataService.historical windData
          ++ WindDataService.forecast windData).

(** [analyzeWindPatterns]: [windData] is what [getWindData] gives; whatever
    is thrown is thrown again. *)
Definition analyzeWindPatterns (lt : LocalTime) (toFixed2 : Float -> string)
    (this : WindAnalysisService.t)
    (windData : WindDataService.Completion WindDataService.WindData)
  : option Analysis :=
  match windData with
  | WindDataService.Throws _ => None
  | WindDataService.Returns windData =>
      let allData := allData windData in
      periods ← WindAnalysisService.findStrongWindPeriods this allData;
      hourly ← WindAnalysisService.calculateHourlyDistribution lt this allData;
      rose ← WindAnalysisService.calculateWindRose this allData;
      Some {| a_location := WindDataService.location windData;
              threshold := WindAnalysisService.strongWindThreshold this;
              extremeThreshold := WindAnalysisService.extremeWindThreshold this;
              summary := WindAnalysisService.calculateSummary this allData;
              strongWindPeriods := periods;
              hourlyDistribution := hourly;
              dailyDistribution :=
                WindAnalysisService.calculateDailyDistribution lt this allData;
              windRose := rose;
              windGustAnalysis :=
                WindAnalysisService.analyzeWindGusts this allData;
              heightComparison :=
                WindAnalysisService.compareWindHeights allData;
              recommendations :=
                WindAnalysisService.generateRecommendations toFixed2 this
                  allData |}
  end.

End WindPatterns.

(** ** The time-periods service *)

Module TimePeriodsAnalysisService.

(** A window given by the caller; [moment(start)] and [moment(end)] are the
    two instants. *)
Record TimePeriod := mkTimePeriod {
  tp_start : Z;
  tp_end : Z
}.

(** [m.isBetween(from, to, null, "[]")]. *)
Definition isBetween (m from to : Z) : bool := (from <=? m) && (m <=? to).

(** [getWindDataForPeriod]: the readings of the response, formatted as in
    the wind-data service, that lie in the window; [] when anything
    throws. *)
Definition getWindDataForPeriod (fetched : option WindDataService.Response)
    (startTime endTime : Z) : list Reading :=
  match fetched ≫= WindDataService.formattedData with
  | Some allData =>
      List.filter (fun reading => isBetween (timestamp reading) startTime endTime)
                  allData
  | None => []
  end.

Record FarmResult := mkFarmResult {
  fr_name : string;
  averageSpeeds : list (option Q)
}.

(** One turn of the loop over [timePeriods]; [null] is [None]. *)
Definition averageFor (windData : list Reading) : option Q :=
  if (length windData =? 0)%nat then None
  else
    let totalSpeed := sumQ (map windSpeedKmh windData) in
    Some (totalSpeed / inject_Z (Z.of_nat (length windData)))%Q.

(** [fetch farm period] is the first response of [fetchWeatherApi] for the
    coordinates of the farm and the dates of the window. *)
Definition analyzeWindFarmForTimePeriods
    (fetch : WindFarm -> TimePeriod -> option WindDataService.Response)
    (farm : WindFarm) (timePeriods : list TimePeriod) : FarmResult :=
  {| fr_name := name farm;
     averageSpeeds :=
       fold_left (fun averageSpeeds period =>
                    averageSpeeds ++
                      [averageFor (getWindDataForPeriod (fetch farm period)
                                     (tp_start period) (tp_end period))])
                 timePeriods [] |}.


(** *** All farms, and the summary *)

(** A row of [farmResults]: the result of a farm, with the [error] that
    the [catch] of the loop adds. *)
Record Row := mkRow {
  row_result : FarmResult;
  row_error : option string
}.

(** [xs.filter(x => x !== null)]. *)
Definition nonNull (xs : list (option Q)) : list Q := omap id xs.

(** [Math.min(...xs)]. *)
Definition minOf (xs : list Q) : Num :=
  fold_left (fun acc x => mathMin acc (Fin x)) xs Infinity.

Record TimeSummary := mkTimeSummary {
  totalFarms : Z;
  farmsWithData : Z;
  totalTimePeriods : Z;
  overallAverageWindSpeed : Q;
  maxAverageWindSpeed : Num;
  minAverageWindSpeed : Num
}.

Definition generateSummary (farmResults : list Row)
    (timePeriods : list TimePeriod) : TimeSummary :=
  let validResults :=
    List.filter (fun result => negb (truthy (row_error result))) farmResults in
  let allAverageSpeeds :=
    concat (map (fun result => nonNull (averageSpeeds (row_result result)))
                validResults) in
  let some := 0 <? Z.of_nat (length allAverageSpeeds) in
  {| totalFarms := Z.of_nat (length farmResults);
     farmsWithData := Z.of_nat (length validResults);
     totalTimePeriods := Z.of_nat (length timePeriods);
     overallAverageWindSpeed :=
       if some
       then (sumQ allAverageSpeeds
             / inject_Z (Z.of_nat (length allAverageSpeeds)))%Q
       else 0%Q;
     maxAverageWindSpeed := if some then maxOf allAverageSpeeds else Fin 0;
     minAverageWindSpeed := if some then minOf allAverageSpeeds else Fin 0 |}.

Record TimeAnalysis := mkTimeAnalysis {
  farms : list Row;
  ta_timePeriods : list TimePeriod;
  ta_summary : TimeSummary
}.

(** [analyzeTimePeriods].  [cached] is [this.windFarms], [onDisk] what
    [loadWindFarms] reads, [None] when reading throws; the result comes with
    the new [this.windFarms].  [analyzeWindFarmForTimePeriods] catches what
    its body throws, so the [catch] of the loop over the farms has nothing
    to catch. *)
Definition analyzeTimePeriods
    (fetch : WindFarm -> TimePeriod -> option WindDataService.Response)
    (cached onDisk : option (list WindFarm)) (timePeriods : list TimePeriod)
  : option (list WindFarm * TimeAnalysis) :=
  windFarms ← (match cached with
               | Some farms => Some farms
               | None => onDisk
               end);
  let farmResults :=
    fold_left (fun farmResults farm =>
                 farmResults ++
                   [{| row_result :=
                         analyzeWindFarmForTimePeriods fetch farm timePeriods;
                       row_error := None |}])
              windFarms [] in
  Some (windFarms,
        {| farms := farmResults;
           ta_timePeriods := timePeriods;
           ta_summary := generateSummary farmResults timePeriods |}).

End TimePeriodsAnalysisService.

(** ** The multi-location service: the analysis of a wind event *)

Module MultiLocationEvent.

(** [getWindDataForPeriod]: the formatted readings of the response, [] when
    anything throws. *)
Definition getWindDataForPeriod (fetched : option WindDataService.Response)
  : list Reading :=
  match fetched ≫= WindDataService.formattedData with
  | Some readings => readings
  | None => []
  end.

(** *** The detector with the threshold as an argument *)

Record OpenPeriod := mkOpen {
  o_start : Z;
  o_startWindSpeed : Q;
  o_readings : list Reading
}.

Record Period := mkPeriod {
  start : Z;
  startWindSpeed : Q;
  readings : list Reading;
  end_ : Z;
  duration : WindAnalysisService.Duration;
  maxWindSpeed : Num;
  avgWindSpeed : Q
}.

Definition close (cp : OpenPeriod) (e : Z) : Period :=
  {| start := o_start cp;
     startWindSpeed := o_startWindSpeed cp;
     readings := o_readings cp;
     end_ := e;
     duration := WindAnalysisService.durationBetween e (o_start cp);
     maxWindSpeed := maxOf (map windSpeedKmh (o_readings cp));
     avgWindSpeed :=
       (sumQ (map windSpeedKmh (o_readings cp))
        / inject_Z (Z.of_nat (length (o_readings cp))))%Q |}.

Definition step (threshold : Q) (st : list Period * option OpenPeriod)
    (reading : Reading) : list Period * option OpenPeriod :=
  let '(periods, currentPeriod) := st in
  match geq (windSpeedKmh reading) threshold, currentPeriod with
  | true, None =>
      (periods,
       Some {| o_start := timestamp reading;
               o_startWindSpeed := windSpeedKmh reading;
               o_readings := [reading] |})
  | true, Some cp =>
      (periods,
       Some {| o_start := o_start cp;
               o_startWindSpeed := o_startWindSpeed cp;
               o_readings := o_readings cp ++ [reading] |})
  | false, Some cp => (periods ++ [close cp (timestamp reading)], None)
  | false, None => (periods, None)
  end.

Definition atEndOfData (data : list Reading)
    (st : list Period * option OpenPeriod) : option (list Period) :=
  match st with
  | (periods, None) => Some periods
  | (periods, Some cp) =>
      match last data with
      | Some r => Some (periods ++ [close cp (timestamp r)])
      | None => None
      end
  end.

Definition findStrongWindPeriods (data : list Reading) (threshold : Q)
  : option (list Period) :=
  atEndOfData data (fold_left (step threshold) data ([], None)).

(** *** The two distributions of the event *)

Record HourStats := mkHour {
  h_count : Z;
  h_totalWindSpeed : Q;
  h_maxWindSpeed : Q
}.

Record HourBucket := mkHourBucket {
  h_stats : HourStats;
  h_avgWindSpeed : Q
}.

Definition hourStep (lt : LocalTime) (hourlyStats : gmap Z HourStats)
    (reading : Reading) : option (gmap Z HourStats) :=
  let hour := hour lt (timestamp reading) in
  b ← hourlyStats !! hour;
  Some (<[hour :=
            {| h_count := h_count b + 1;
               h_totalWindSpeed := (h_totalWindSpeed b + windSpeedKmh reading)%Q;
               h_maxWindSpeed := Qmax (h_maxWindSpeed b) (windSpeedKmh reading) |}]>
          hourlyStats).

Definition calculateHourlyDistribution (lt : LocalTime) (data : list Reading)
  : option (gmap Z HourBucket) :=
  let hourlyStats :=
    fold_left (fun m hour =>
                 <[hour := {| h_count := 0; h_totalWindSpeed := 0;
                              h_maxWindSpeed := 0 |}]> m)
              (map Z.of_nat (seq 0 24)) ∅ in
  (fun m : gmap Z HourStats =>
     (fun b => {| h_stats := b;
                  h_avgWindSpeed :=
                    WindAnalysisService.average (h_totalWindSpeed b) (h_count b) |})
     <$> m)
    <$> forEachM (hourStep lt) data hourlyStats.

Record RoseStats := mkRose {
  r_count : Z;
  r_totalSpeed : Q
}.

Record RoseSector := mkSector {
  r_stats : RoseStats;
  r_avgSpeed : Q
}.

Definition roseStep (directions : gmap string RoseStats) (reading : Reading)
  : option (gmap string RoseStats) :=
  direction ← MultiLocationAnalysisService.getWindDirection
                (windDirection reading);
  b ← directions !! direction;
  Some (<[direction :=
            {| r_count := r_count b + 1;
               r_totalSpeed := (r_totalSpeed b + windSpeedKmh reading)%Q |}]>
          directions).

Definition calculateWindRose (data : list Reading)
  : option (gmap string RoseSector) :=
  let directions :=
    fold_left (fun m dir => <[dir := {| r_count := 0; r_totalSpeed := 0 |}]> m)
              MultiLocationAnalysisService.directionNames ∅ in
  (fun m : gmap string RoseStats =>
     (fun b => {| r_stats := b;
                  r_avgSpeed :=
                    WindAnalysisService.average (r_totalSpeed b) (r_count b) |})
     <$> m)
    <$> forEachM roseStep data directions.

(** *** Median and standard deviation *)

(** [calculateMedian].  [values.sort] sorts the array of the caller in
    place, so the sorted array is part of the result.  An element that is
    not there would make the median NaN, [None]. *)
Definition calculateMedian (values : list Q) : option Q * list Q :=
  if (length values =? 0)%nat then (Some 0%Q, values)
  else
    let sorted := sortBy (fun a b => qsign (a - b)) values in
    let middle := (length sorted / 2)%nat in
    (if (length sorted mod 2 =? 0)%nat
     then a ← sorted !! (middle - 1)%nat; b ← sorted !! middle;
          Some ((a + b) / 2)%Q
     else sorted !! middle,
     sorted).

(** The mean of the squares of the distances to the mean. *)
Definition avgSquaredDiff (values : list Q) : Q :=
  let mean := (sumQ values / inject_Z (Z.of_nat (length values)))%Q in
  let squaredDiffs := map (fun val => (val - mean) * (val - mean))%Q values in
  (sumQ squaredDiffs / inject_Z (Z.of_nat (length values)))%Q.

(** [calculateStandardDeviation]; [mathSqrt] is [Math.sqrt]. *)
Definition calculateStandardDeviation (mathSqrt : Q -> Q) (values : list Q)
  : Q :=
  if (length values =? 0)%nat then 0%Q else mathSqrt (avgSquaredDiff values).

(** *** One farm during the event *)

Record EventAnalysis := mkEventAnalysis {
  ea_farm : WindFarm;
  ea_startDate : string;
  ea_endDate : string;
  ea_threshold : Q;
  ea_totalReadings : Z;
  ea_maxWindSpeed : Num;
  ea_maxWindSpeed100m : Num;
  ea_maxWindGusts : Num;
  ea_averageWindSpeed : Q;
  ea_averageWindSpeed100m : Q;
  ea_averageWindGusts : Q;
  ea_strongWindReadings : Z;
  ea_strongWindPercentage : Q;
  ea_hasStrongWinds : bool;
  ea_strongWindPeriods : list Period;
  ea_hourlyDistribution : gmap Z HourBucket;
  ea_windRose : gmap string RoseSector
}.

(** A result of the loop over the farms: the analysis, or the object that
    stands for a farm without data or with an error. *)
Inductive FarmResult :=
| Analysed (a : EventAnalysis)
| Marker (farm : WindFarm) (error : string).

Definition farmOf (r : FarmResult) : WindFarm :=
  match r with
  | Analysed a => ea_farm a
  | Marker farm _ => farm
  end.

Definition errorOf (r : FarmResult) : option string :=
  match r with
  | Analysed _ => None
  | Marker _ error => Some error
  end.

Definition hasStrongWinds (r : FarmResult) : bool :=
  match r with
  | Analysed a => ea_hasStrongWinds a
  | Marker _ _ => false
  end.

Definition maxWindSpeedOf (r : FarmResult) : Num :=
  match r with
  | Analysed a => ea_maxWindSpeed a
  | Marker _ _ => Fin 0
  end.

Definition averageWindSpeedOf (r : FarmResult) : Q :=
  match r with
  | Analysed a => ea_averageWindSpeed a
  | Marker _ _ => 0%Q
  end.

(** [analyzeWindFarmDuringEvent]; [None] when the detector or one of the
    distributions throws, which the [catch] throws again.  The averages
    divide by the number of readings, which is not 0 here. *)
Definition analyzeWindFarmDuringEvent (lt : LocalTime)
    (fetch : WindFarm -> option WindDataService.Response) (farm : WindFarm)
    (startDate endDate : string) (threshold : Q) : option FarmResult :=
  let windData := getWindDataForPeriod (fetch farm) in
  if (length windData =? 0)%nat
  then Some (Marker farm "No wind data available for this period")
  else
    let count := inject_Z (Z.of_nat (length windData)) in
    let strongWindReadings :=
      countIf (fun d => geq (windSpeedKmh d) threshold) windData in
    periods ← findStrongWindPeriods windData threshold;
    hourly ← calculateHourlyDistribution lt windData;
    rose ← calculateWindRose windData;
    Some (Analysed
            {| ea_farm := farm;
               ea_startDate := startDate;
               ea_endDate := endDate;
               ea_threshold := threshold;
               ea_totalReadings := Z.of_nat (length windData);
               ea_maxWindSpeed := maxOf (map windSpeedKmh windData);
               ea_maxWindSpeed100m :=
                 maxOf (map (fun d => orZero (windSpeed100mKmh d)) windData);
               ea_maxWindGusts :=
                 maxOf (map (fun d => orZero (windGustsKmh d)) windData);
               ea_averageWindSpeed :=
                 (sumQ (map windSpeedKmh windData) / count)%Q;
               ea_averageWindSpeed100m :=
                 (sumQ (map (fun d => orZero (windSpeed100mKmh d)) windData)
                  / count)%Q;
               ea_averageWindGusts :=
                 (sumQ (map (fun d => orZero (windGustsKmh d)) windData)
                  / count)%Q;
               ea_strongWindReadings := strongWindReadings;
               ea_strongWindPercentage :=
                 (inject_Z strongWindReadings / count * 100)%Q;
               ea_hasStrongWinds := 0 <? strongWindReadings;
               ea_strongWindPeriods := periods;
               ea_hourlyDistribution := hourly;
               ea_windRose := rose |}).


(** *** The regions *)

Record RegionStats := mkRegionStats {
  rg_farms : Z;
  rg_totalWindSpeed : Q;
  rg_maxWindSpeed : Num;
  rg_farmsWithStrongWinds : Z
}.

Record RegionReport := mkRegionReport {
  rg_stats : RegionStats;
  rg_averageWindSpeed : Q;
  rg_percentageAffected : Q
}.

Definition regionZero : RegionStats :=
  {| rg_farms := 0; rg_totalWindSpeed := 0; rg_maxWindSpeed := Fin 0;
     rg_farmsWithStrongWinds := 0 |}.

Definition regionAdd (s : RegionStats) (result : FarmResult) : RegionStats :=
  {| rg_farms := rg_farms s + 1;
     rg_totalWindSpeed := (rg_totalWindSpeed s + averageWindSpeedOf result)%Q;
     rg_maxWindSpeed := mathMax (rg_maxWindSpeed s) (maxWindSpeedOf result);
     rg_farmsWithStrongWinds :=
       if hasStrongWinds result then rg_farmsWithStrongWinds s + 1
       else rg_farmsWithStrongWinds s |}.

(** [regionalStats[region]], created on the first farm of the region; the
    list has the regions in the order in which they were met. *)
Fixpoint tally (region : string) (result : FarmResult)
    (stats : list (string * RegionStats)) : list (string * RegionStats) :=
  match stats with
  | [] => [(region, regionAdd regionZero result)]
  | (r, s) :: rest =>
      if decide (r = region) then (r, regionAdd s result) :: rest
      else (r, s) :: tally region result rest
  end.

Definition regionFinish (s : RegionStats) : RegionReport :=
  {| rg_stats := s;
     rg_averageWindSpeed := (rg_totalWindSpeed s / inject_Z (rg_farms s))%Q;
     rg_percentageAffected :=
       (inject_Z (rg_farmsWithStrongWinds s) / inject_Z (rg_farms s) * 100)%Q |}.

(** The property names that every object inherits from [Object.prototype].
    [regionalStats[region]] is truthy for such a name, so no bucket is made
    for it, and the four updates go to the inherited value, not to
    [regionalStats]. *)
Definition objectPrototypeNames : list string :=
  ["constructor"; "__defineGetter__"; "__defineSetter__"; "hasOwnProperty";
   "__lookupGetter__"; "__lookupSetter__"; "isPrototypeOf";
   "propertyIsEnumerable"; "toString"; "valueOf"; "__proto__";
   "toLocaleString"]%string.

(** [analyzeRegionalImpact]; the regions are listed in the order of
    [Object.keys]. *)
Definition analyzeRegionalImpact (farmResults : list FarmResult)
  : list (string * RegionReport) :=
  map (fun entry => (fst entry, regionFinish (snd entry)))
      (ownKeysOrder
         (fold_left (fun stats result =>
                       if truthy (errorOf result) then stats
                       else if bool_decide (region (farmOf result)
                                            ∈ objectPrototypeNames) then stats
                       else tally (region (farmOf result)) result stats)
                    farmResults [])).

(** *** The event *)

Record AverageEntry := mkAverageEntry {
  ae_farmName : string;
  ae_averageSpeed : Q;
  ae_region : string
}.

Record Rank := mkRank {
  rank : Z;
  rk_farmName : string;
  rk_region : string;
  rk_maxWindSpeed : Num;
  rk_averageWindSpeed : Q;
  rk_capacity : Q
}.

Record OverallStats := mkOverallStats {
  averageWindSpeedAcrossAllFarms : Q;
  medianWindSpeed : option Q;
  standardDeviation : Q;
  farmsAboveThreshold : Z;
  percentageFarmsAffected : Float
}.

Record EventSummary := mkEventSummary {
  es_startDate : string;
  es_endDate : string;
  es_threshold : Q;
  es_totalFarms : Z;
  farmsAnalyzed : Z;
  farmsWithStrongWinds : Z;
  es_maxWindSpeed : Num;
  maxWindSpeedLocation : option string;
  averageWindSpeeds : list AverageEntry;
  windSpeedRanking : list Rank;
  overallStats : OverallStats
}.

Record EventRecommendation := mkEventRecommendation {
  er_type : string;
  er_message : string;
  er_impact : string
}.

(** [generateEventRecommendations]; [toFixed1] is [x => x.toFixed(1)] of
    the language. *)
Definition generateEventRecommendations (toFixed1 : Float -> string)
    (eventSummary : EventSummary) (farmResults : list FarmResult)
  : list EventRecommendation :=
  let affected := percentageFarmsAffected (overallStats eventSummary) in
  let r1 :=
    WindAnalysisService.pushWhen (fgt affected 50)
      {| er_type := "warning";
         er_message :=
           ("High-impact wind event: " ++ toFixed1 affected
            ++ "% of wind farms affected by strong winds.")%string;
         er_impact := "Grid-wide" |} [] in
  let r2 :=
    WindAnalysisService.pushWhen (fgt (Real (es_maxWindSpeed eventSummary)) 100)
      {| er_type := "danger";
         er_message :=
           ("Extreme wind speeds recorded at "
            ++ default "null"%string (maxWindSpeedLocation eventSummary)
            ++ " (" ++ toFixed1 (Real (es_maxWindSpeed eventSummary))
            ++ " km/h). Immediate safety protocols recommended.")%string;
         er_impact := "Safety" |} r1 in
  let r3 :=
    fold_left (fun recommendations entry =>
                 WindAnalysisService.pushWhen
                   (gt (rg_averageWindSpeed (snd entry)) 80)
                   {| er_type := "warning";
                      er_message :=
                        ("High wind speeds in " ++ fst entry
                         ++ " region (avg: "
                         ++ toFixed1 (fin (rg_averageWindSpeed (snd entry)))
                         ++ " km/h). Monitor regional grid stability.")%string;
                      er_impact := "Regional" |}
                   recommendations)
              (analyzeRegionalImpact farmResults) r2 in
  let topFarms := take 3 (windSpeedRanking eventSummary) in
  WindAnalysisService.pushWhen (0 <? Z.of_nat (length topFarms))
    {| er_type := "info";
       er_message :=
         ("Top wind farm performers: "
          ++ String.concat ", " (map rk_farmName topFarms)
          ++ ". Consider grid prioritization.")%string;
       er_impact := "Operational" |} r3.

(** What the loop over the farms has gathered. *)
Record Running := mkRunning {
  analysisResults : list FarmResult;
  run_farmsAnalyzed : Z;
  run_farmsWithStrongWinds : Z;
  run_maxWindSpeed : Num;
  run_maxWindSpeedLocation : option string;
  run_averageWindSpeeds : list AverageEntry
}.

(** The body of the loop; [message] is the message of the error that the
    [catch] of the body finds. *)
Definition visit (lt : LocalTime)
    (fetch : WindFarm -> option WindDataService.Response) (message : string)
    (startDate endDate : string) (threshold : Q) (run : Running)
    (farm : WindFarm) : Running :=
  match analyzeWindFarmDuringEvent lt fetch farm startDate endDate threshold with
  | Some farmAnalysis =>
      let higher :=
        numGt (maxWindSpeedOf farmAnalysis) (run_maxWindSpeed run) in
      {| analysisResults := analysisResults run ++ [farmAnalysis];
         run_farmsAnalyzed := run_farmsAnalyzed run + 1;
         run_farmsWithStrongWinds :=
           if hasStrongWinds farmAnalysis
           then run_farmsWithStrongWinds run + 1
           else run_farmsWithStrongWinds run;
         run_maxWindSpeed :=
           if higher then maxWindSpeedOf farmAnalysis else run_maxWindSpeed run;
         run_maxWindSpeedLocation :=
           if higher then Some (name farm) else run_maxWindSpeedLocation run;
         run_averageWindSpeeds :=
           WindAnalysisService.pushWhen (gt (averageWindSpeedOf farmAnalysis) 0)
             {| ae_farmName := name farm;
                ae_averageSpeed := averageWindSpeedOf farmAnalysis;
                ae_region := region farm |}
             (run_averageWindSpeeds run) |}
  | None =>
      {| analysisResults := analysisResults run ++ [Marker farm message];
         run_farmsAnalyzed := run_farmsAnalyzed run;
         run_farmsWithStrongWinds := run_farmsWithStrongWinds run;
         run_maxWindSpeed := run_maxWindSpeed run;
         run_maxWindSpeedLocation := run_maxWindSpeedLocation run;
         run_averageWindSpeeds := run_averageWindSpeeds run |}
  end.

(** [analysisResults.filter(...).sort(...).map(...)]. *)
Definition ranking (analysisResults : list FarmResult) : list Rank :=
  imap (fun index result =>
          {| rank := Z.of_nat index + 1;
             rk_farmName := name (farmOf result);
             rk_region := region (farmOf result);
             rk_maxWindSpeed := maxWindSpeedOf result;
             rk_averageWindSpeed := averageWindSpeedOf result;
             rk_capacity := capacity (farmOf result) |})
       (sortBy (fun a b => numDiffSign (maxWindSpeedOf b) (maxWindSpeedOf a))
          (List.filter (fun result => negb (truthy (errorOf result)))
             analysisResults)).

Record EventResult := mkEventResult {
  eventSummary : EventSummary;
  farmResults : list FarmResult;
  ev_recommendations : list EventRecommendation
}.

(** [analyzeStrongWindEvent].  [cached] is [this.windFarms] and [onDisk]
    what [loadWindFarms] reads, [None] when reading throws; the result
    comes with the new [this.windFarms]. *)
Definition analyzeStrongWindEvent (lt : LocalTime) (mathSqrt : Q -> Q)
    (toFixed1 : Float -> string)
    (fetch : WindFarm -> option WindDataService.Response) (message : string)
    (cached onDisk : option (list WindFarm))
    (startDate endDate : string) (threshold : Q)
  : option (list WindFarm * EventResult) :=
  windFarms ← (match cached with
               | Some farms => Some farms
               | None => onDisk
               end);
  let run :=
    fold_left (visit lt fetch message startDate endDate threshold) windFarms
      {| analysisResults := []; run_farmsAnalyzed := 0;
         run_farmsWithStrongWinds := 0; run_maxWindSpeed := Fin 0;
         run_maxWindSpeedLocation := None; run_averageWindSpeeds := [] |} in
  let validResults :=
    List.filter (fun result => negb (truthy (errorOf result)))
                (analysisResults run) in
  let averageWindSpeeds :=
    List.filter (fun s => gt s 0) (map averageWindSpeedOf validResults) in
  let '(median, sorted) := calculateMedian averageWindSpeeds in
  let summary :=
    {| es_startDate := startDate;
       es_endDate := endDate;
       es_threshold := threshold;
       es_totalFarms := Z.of_nat (length windFarms);
       farmsAnalyzed := run_farmsAnalyzed run;
       farmsWithStrongWinds := run_farmsWithStrongWinds run;
       es_maxWindSpeed := run_maxWindSpeed run;
       maxWindSpeedLocation := run_maxWindSpeedLocation run;
       averageWindSpeeds := run_averageWindSpeeds run;
       windSpeedRanking := ranking (analysisResults run);
       overallStats :=
         {| averageWindSpeedAcrossAllFarms :=
              if 0 <? Z.of_nat (length averageWindSpeeds)
              then (sumQ averageWindSpeeds
                    / inject_Z (Z.of_nat (length averageWindSpeeds)))%Q
              else 0%Q;
            medianWindSpeed := median;
            standardDeviation := calculateStandardDeviation mathSqrt sorted;
            farmsAboveThreshold := run_farmsWithStrongWinds run;
            percentageFarmsAffected :=
              ftimes (perCount (inject_Z (run_farmsWithStrongWinds run))
                               (run_farmsAnalyzed run)) 100 |} |} in
  Some (windFarms,
        {| eventSummary := summary;
           farmResults := analysisResults run;
           ev_recommendations :=
             generateEventRecommendations toFixed1 summary
               (analysisResults run) |}).

End MultiLocationEvent.

(** ** Worked example of the specification, section 8 *)

Module Example8.

(** Hourly readings 00:00 .. 23:00 of the day that starts at [day0]; speed
    at hub height 70 from 02:00 through 07:00 and 50 otherwise.  The other
    fields are left to [other]. *)
Definition hubSpeed (h : Z) : Q :=
  if (2 <=? h) && (h <=? 7) then 70%Q else 50%Q.

Definition reading (day0 : Z) (other : Z -> Reading) (h : Z) : Reading :=
  {| timestamp := day0 + h * 3600000;
     windSpeedKmh := windSpeedKmh (other h);
     windSpeed100mKmh := Some (hubSpeed h);
     windDirection := windDirection (other h);
     windGustsKmh := windGustsKmh (other h);
     temperature := temperature (other h);
     humidity := humidity (other h);
     pressure := pressure (other h) |}.

Definition data (day0 : Z) (other : Z -> Reading) : list Reading :=
  map (reading day0 other) (map Z.of_nat (seq 0 24)).

End Example8.


(** ** A concrete clock and sample inputs *)

Module Utc.

(** moment.js in a process whose time zone is UTC. *)
Definition clock : LocalTime := {| utcOffset := fun _ => 0 |}.

End Utc.

Module Samples.

(** 2024-01-01T00:00:00Z. *)
Definition newYear : Z := 1704067200000.

(** A reading [h] hours into 2024-01-01 with the given speeds at 10 m and
    at 100 m and the given direction. *)
Definition at_ (h : Z) (ref hub dir : Q) : Reading :=
  mkReading (newYear + h * 3600000) ref (Some hub) dir None 0 0 0.

(** Four hours: below the threshold, two hours above it, below again. *)
Definition gust : list Reading :=
  [at_ 0 45 50 0; at_ 1 66 70 90; at_ 2 61 65 180; at_ 3 30 40 270].


Definition calm : list Reading :=
  [at_ 0 20 25 10; at_ 1 22 28 20].

Definition farmA : WindFarm := mkWindFarm "West Wind" 0 0 "Wellington" 143 "Meridian".
Definition farmB : WindFarm := mkWindFarm "Te Apiti" 0 0 "Manawatu" 91 "Meridian".

(** A service over the two farms with a minimum of one hour. *)
Definition service : StrongWindPeriodsService.t :=
  {| StrongWindPeriodsService.strongWindThreshold := 60;
     StrongWindPeriodsService.minimumDurationHours := 1;
     StrongWindPeriodsService.windFarms := [farmA; farmB] |}.

(** Strong wind at the first farm only. *)
Definition oneSite (farm : WindFarm) : option (list Reading) :=
  if String.eqb (name farm) "West Wind" then Some gust else Some calm.

(** Strong wind at both farms. *)
Definition bothSites (farm : WindFarm) : option (list Reading) := Some gust.

(** A response of three hours and two windows over it. *)
Definition response : WindDataService.Response :=
  {| WindDataService.time := 1704067200;
     WindDataService.timeEnd := 1704078000;
     WindDataService.interval := 3600;
     WindDataService.utcOffsetSeconds := 0;
     WindDataService.variables :=
       [ [Some 30%Q; Some 40%Q; Some 50%Q];
         [Some 40%Q; Some 50%Q; Some 60%Q];
         [Some 90%Q; Some 91%Q; Some 92%Q];
         [Some 90%Q; Some 91%Q; Some 92%Q];
         [Some 50%Q; Some 51%Q; Some 52%Q];
         [Some 10%Q; Some 11%Q; Some 12%Q];
         [Some 80%Q; Some 81%Q; Some 82%Q];
         [Some 1000%Q; Some 1001%Q; Some 1002%Q] ] |}.

Definition firstTwoHours : TimePeriodsAnalysisService.TimePeriod :=
  {| TimePeriodsAnalysisService.tp_start := newYear;
     TimePeriodsAnalysisService.tp_end := newYear + 3600000 |}.

Definition fetch (farm : WindFarm) (w : TimePeriodsAnalysisService.TimePeriod)
  : option WindDataService.Response := Some response.

End Samples.

(** * The vocabulary of the properties *)

(** ** Runs of a sequence *)

(** The last element, if any, fails [f]. *)
Definition endsBelow {A} (f : A -> bool) (l : list A) : Prop :=
  l = [] \/ exists l' x, l = l' ++ [x] /\ f x = false.

(** The first element, if any, fails [f]. *)
Definition startsBelow {A} (f : A -> bool) (l : list A) : Prop :=
  match l with
  | [] => True
  | x :: _ => f x = false
  end.

(** [rs] is a stretch of [done] on which [f] holds, followed by [suf]. *)
Definition stretch {A} (f : A -> bool) (done rs suf : list A) : Prop :=
  (exists pre, done = pre ++ rs ++ suf) /\ rs <> []
  /\ Forall (fun r => f r = true) rs.

(** What is asked of an emitted period: its readings are a stretch
    of the data, each at or above the threshold, and the reading that
    follows the stretch, when there is one, is strictly below it. *)
Definition runAtOrAbove (speed : Reading -> Q) (threshold : Q)
    (data rs : list Reading) : Prop :=
  exists pre suf,
    data = pre ++ rs ++ suf
    /\ rs <> []
    /\ Forall (fun r => (threshold <= speed r)%Q) rs
    /\ match suf with
       | [] => True
       | next :: _ => (speed next < threshold)%Q
       end.

(** The readings come in the order of their timestamps. *)
Definition ordered (data : list Reading) : Prop :=
  Sorted Z.le (map timestamp data).

(** [run] is a maximal qualifying run of [pre ++ run ++ suf]: it is not
    empty, every reading of it is at or above the threshold, and the
    readings next to it on either side, if any, are below. *)
Definition maximalRun (speed : Reading -> Q) (threshold : Q)
    (pre run suf : list Reading) : Prop :=
  run <> []
  /\ Forall (fun r => (threshold <= speed r)%Q) run
  /\ (forall x, last pre = Some x -> (speed x < threshold)%Q)
  /\ (forall x, head suf = Some x -> (speed x < threshold)%Q).

(** ** States of the two scans *)

(** The open period of the hub-height detector after the run [r :: run]
    has been read. *)
Definition hub_openRun (farm : WindFarm) (r : Reading) (run : list Reading)
  : StrongWindPeriodsService.OpenPeriod :=
  {| StrongWindPeriodsService.o_startTime := timestamp r;
     StrongWindPeriodsService.o_startWindSpeed :=
       StrongWindPeriodsService.speed100 r;
     StrongWindPeriodsService.o_maxWindSpeed :=
       fold_left Qmax (map StrongWindPeriodsService.speed100 run)
         (StrongWindPeriodsService.speed100 r);
     StrongWindPeriodsService.o_readings := r :: run;
     StrongWindPeriodsService.o_windFarm := FarmName (name farm) |}.

(** What the hub-height scan has established of a pushed period, and of
    its state, after reading [done]. *)
Definition hub_closedOk (this : StrongWindPeriodsService.t)
    (done : list Reading) (p : StrongWindPeriodsService.Period) : Prop :=
  exists suf,
    stretch (StrongWindPeriodsService.isStrongWind this) done
      (StrongWindPeriodsService.readings p) suf
    /\ suf <> []
    /\ startsBelow (StrongWindPeriodsService.isStrongWind this) suf.

Definition hub_scanned (this : StrongWindPeriodsService.t)
    (done : list Reading)
    (st : list StrongWindPeriodsService.Period
          * option StrongWindPeriodsService.OpenPeriod) : Prop :=
  Forall (hub_closedOk this done) (fst st)
  /\ forall cp, snd st = Some cp ->
       stretch (StrongWindPeriodsService.isStrongWind this) done
         (StrongWindPeriodsService.o_readings cp) [].

(** The service with another minimum duration. *)
Definition withMinimum (this : StrongWindPeriodsService.t) (m : Q)
  : StrongWindPeriodsService.t :=
  {| StrongWindPeriodsService.strongWindThreshold :=
       StrongWindPeriodsService.strongWindThreshold this;
     StrongWindPeriodsService.minimumDurationHours := m;
     StrongWindPeriodsService.windFarms :=
       StrongWindPeriodsService.windFarms this |}.

(** The same for the reference-height detector. *)
Definition ref_openRun (r : Reading) (run : list Reading)
  : WindAnalysisService.OpenPeriod :=
  {| WindAnalysisService.o_start := timestamp r;
     WindAnalysisService.o_startWindSpeed := windSpeedKmh r;
     WindAnalysisService.o_startWindSpeed100m := orZero (windSpeed100mKmh r);
     WindAnalysisService.o_startWindGusts := orZero (windGustsKmh r);
     WindAnalysisService.o_readings := r :: run |}.

Definition ref_closedOk (this : WindAnalysisService.t)
    (done : list Reading) (p : WindAnalysisService.Period) : Prop :=
  exists suf,
    stretch (WindAnalysisService.isStrongWind this) done
      (WindAnalysisService.readings p) suf
    /\ suf <> []
    /\ startsBelow (WindAnalysisService.isStrongWind this) suf.

Definition ref_scanned (this : WindAnalysisService.t) (done : list Reading)
    (st : list WindAnalysisService.Period
          * option WindAnalysisService.OpenPeriod) : Prop :=
  Forall (ref_closedOk this done) (fst st)
  /\ forall cp, snd st = Some cp ->
       stretch (WindAnalysisService.isStrongWind this) done
         (WindAnalysisService.o_readings cp) [].

(** ** Buckets *)

(** The direction in the middle of sector [i]. *)
Definition sectorCentre (i : nat) : Q := (inject_Z (Z.of_nat i) * (45 # 2))%Q.

(** The sum of the [count] of every bucket of the map. *)
Definition totalCount `{Countable K} {V : Type} (count : V -> Z)
    (m : gmap K V) : Z :=
  map_fold (fun _ b acc => count b + acc) 0 m.

(** The shape shared by the loop bodies of the hourly distribution and of
    the wind rose: find the key, then the bucket, and update it. *)
Definition bucketStep `{Countable K} {V A : Type} (keyOf : A -> option K)
    (add : V -> A -> V) (st : gmap K V) (x : A) : option (gmap K V) :=
  keyOf x ≫= fun k => st !! k ≫= fun b => Some (<[k := add b x]> st).

(** The keys of the map are those of the list. *)
Definition hasKeys `{Countable K} {V : Type} (keys : list K) (m : gmap K V)
  : Prop :=
  forall k, is_Some (m !! k) <-> k ∈ keys.

Definition hourKeys : list Z := map Z.of_nat (seq 0 24).

(** ** Sites *)

(** The periods of a farm, as the loop body of the aggregation sees them:
    nothing when the fetch or the detection throws. *)
Definition periodsOf (this : StrongWindPeriodsService.t)
    (getWindData : WindFarm -> option (list Reading)) (farm : WindFarm)
  : list StrongWindPeriodsService.Period :=
  match getWindData farm
        ≫= (fun hist =>
              StrongWindPeriodsService.findStrongWindPeriods this hist farm)
  with
  | Some periods => periods
  | None => []
  end.

(** ** Responses of the wrong shape *)

(** Two of the per-variable arrays of the response differ in length. *)
Definition lengthsDisagree (r : WindDataService.Response) : Prop :=
  exists j k a b,
    WindDataService.variables r !! j = Some a
    /\ WindDataService.variables r !! k = Some b
    /\ length a <> length b.

(** The timestamps of the time axis of the response, in seconds. *)
Definition timeAxis (r : WindDataService.Response) : list Z :=
  match WindDataService.arrayLength r with
  | Some n =>
      map (fun i => WindDataService.time r
                    + Z.of_nat i * WindDataService.interval r) (seq 0 n)
  | None => []
  end.

(** The statement that a response of the wrong shape is refused with an
    error that reaches the caller. *)
Definition malformedIsRefused : Prop :=
  forall r : WindDataService.Response,
    lengthsDisagree r \/ ~ Sorted Z.lt (timeAxis r) ->
    exists error,
      WindDataService.getHistoricalData (Some r)
      = WindDataService.Throws error.

(** A response of two hours whose array of 10 m speeds has one value
    only. *)
Definition shortResponse : WindDataService.Response :=
  {| WindDataService.time := 0;
     WindDataService.timeEnd := 7200;
     WindDataService.interval := 3600;
     WindDataService.utcOffsetSeconds := 0;
     WindDataService.variables :=
       [ [Some 30%Q];
         [Some 40%Q; Some 41%Q];
         [Some 90%Q; Some 91%Q];
         [Some 90%Q; Some 91%Q];
         [Some 50%Q; Some 51%Q];
         [Some 10%Q; Some 11%Q];
         [Some 80%Q; Some 81%Q];
         [Some 1000%Q; Some 1001%Q] ] |}.

(** A response whose time axis runs backwards. *)
Definition backwardResponse : WindDataService.Response :=
  {| WindDataService.time := 7200;
     WindDataService.timeEnd := 0;
     WindDataService.interval := -3600;
     WindDataService.utcOffsetSeconds := 0;
     WindDataService.variables :=
       [ [Some 30%Q; Some 31%Q];
         [Some 40%Q; Some 41%Q];
         [Some 90%Q; Some 91%Q];
         [Some 90%Q; Some 91%Q];
         [Some 50%Q; Some 51%Q];
         [Some 10%Q; Some 11%Q];
         [Some 80%Q; Some 81%Q];
         [Some 1000%Q; Some 1001%Q] ] |}.

(** ** Further vocabulary *)

(** A period of the reference-height detector, seen as a period of the
    detector of the multi-location service. *)
Definition forget (p : WindAnalysisService.Period) : MultiLocationEvent.Period :=
  {| MultiLocationEvent.start := WindAnalysisService.start p;
     MultiLocationEvent.startWindSpeed := WindAnalysisService.startWindSpeed p;
     MultiLocationEvent.readings := WindAnalysisService.readings p;
     MultiLocationEvent.end_ := WindAnalysisService.end_ p;
     MultiLocationEvent.duration := WindAnalysisService.duration p;
     MultiLocationEvent.maxWindSpeed := WindAnalysisService.maxWindSpeed p;
     MultiLocationEvent.avgWindSpeed := WindAnalysisService.avgWindSpeed p |}.

Definition forgetOpen (cp : WindAnalysisService.OpenPeriod)
  : MultiLocationEvent.OpenPeriod :=
  {| MultiLocationEvent.o_start := WindAnalysisService.o_start cp;
     MultiLocationEvent.o_startWindSpeed :=
       WindAnalysisService.o_startWindSpeed cp;
     MultiLocationEvent.o_readings := WindAnalysisService.o_readings cp |}.

(** The readings of an open period, if there is one. *)
Definition openReadings {P} (readingsOf : P -> list Reading) (cur : option P)
  : list Reading :=
  match cur with
  | Some cp => readingsOf cp
  | None => []
  end.

(** What every period of the hub-height detector holds. *)
Definition hub_periodOk (this : StrongWindPeriodsService.t) (farm : WindFarm)
    (p : StrongWindPeriodsService.Period) : Prop :=
  (StrongWindPeriodsService.minimumDurationHours this
   <= StrongWindPeriodsService.durationHours p)%Q
  /\ StrongWindPeriodsService.durationHours p
     = diffHours (StrongWindPeriodsService.endTime p)
         (StrongWindPeriodsService.startTime p)
  /\ StrongWindPeriodsService.windFarm p = FarmName (name farm)
  /\ (exists first rest,
        StrongWindPeriodsService.readings p = first :: rest
        /\ StrongWindPeriodsService.startTime p = timestamp first
        /\ StrongWindPeriodsService.startWindSpeed p
           = StrongWindPeriodsService.speed100 first)
  /\ Forall (fun r =>
               (StrongWindPeriodsService.strongWindThreshold this
                <= StrongWindPeriodsService.speed100 r
                <= StrongWindPeriodsService.maxWindSpeed p)%Q)
            (StrongWindPeriodsService.readings p)
  /\ (exists r, r ∈ StrongWindPeriodsService.readings p
                /\ StrongWindPeriodsService.maxWindSpeed p
                   = StrongWindPeriodsService.speed100 r)
  /\ StrongWindPeriodsService.avgWindSpeed p
     = (sumQ (map StrongWindPeriodsService.speed100
                (StrongWindPeriodsService.readings p))
        / inject_Z (Z.of_nat (length (StrongWindPeriodsService.readings p))))%Q.

(** Four historical readings and a forecast of two. *)
Definition sampleWindData : WindDataService.WindData :=
  {| WindDataService.current :=
       WindDataService.formatCurrentData 0 WindDataService.noConditions;
     WindDataService.forecast := Samples.calm;
     WindDataService.historical := Samples.gust;
     WindDataService.location :=
       {| WindDataService.loc_lat := fin 0; WindDataService.loc_lon := fin 0;
          WindDataService.loc_name := "Wellington" |} |}.

(** The sum of a list of integers. *)
Definition sumZ (xs : list Z) : Z := foldr Z.add 0 xs.

(** A result that [analyzeRegionalImpact] counts: it has no error, and its
    region is a name under which a bucket can be made. *)
Definition countedInRegion (result : MultiLocationEvent.FarmResult) : bool :=
  negb (truthy (MultiLocationEvent.errorOf result))
  && negb (bool_decide (region (MultiLocationEvent.farmOf result)
                        ∈ MultiLocationEvent.objectPrototypeNames)).

(** What holds of the statistics of every region. *)
Definition regionOk (s : MultiLocationEvent.RegionStats) : Prop :=
  1 <= MultiLocationEvent.rg_farms s
  /\ 0 <= MultiLocationEvent.rg_farmsWithStrongWinds s
  /\ MultiLocationEvent.rg_farmsWithStrongWinds s
     <= MultiLocationEvent.rg_farms s.

(** Sample arithmetic for the coordinates: exact on numbers, NaN when an
    operand is NaN or infinite; the root is left out, which does not change
    the order of the distances.  Two texts stand for numbers. *)
Definition sampleSub (a b : Float) : Float :=
  match a, b with
  | Real (Fin x), Real (Fin y) => fin (x - y)
  | _, _ => NaN
  end.

Definition sampleAdd (a b : Float) : Float :=
  match a, b with
  | Real (Fin x), Real (Fin y) => fin (x + y)
  | _, _ => NaN
  end.

Definition sampleSquare (a : Float) : Float :=
  match a with
  | Real (Fin x) => fin (x * x)
  | _ => NaN
  end.

Definition sampleNumber (text : string) : Float :=
  if String.eqb text "-36.8485" then fin (-368485 # 10000)
  else if String.eqb text "174.7633" then fin (1747633 # 10000)
  else NaN.

(** What an entry of the ranking carries of the result it stands for. *)
Definition ranks (entry : MultiLocationEvent.Rank)
    (result : MultiLocationEvent.FarmResult) : Prop :=
  MultiLocationEvent.rk_farmName entry
  = name (MultiLocationEvent.farmOf result)
  /\ MultiLocationEvent.rk_region entry
     = region (MultiLocationEvent.farmOf result)
  /\ MultiLocationEvent.rk_maxWindSpeed entry
     = MultiLocationEvent.maxWindSpeedOf result
  /\ MultiLocationEvent.rk_averageWindSpeed entry
     = MultiLocationEvent.averageWindSpeedOf result
  /\ MultiLocationEvent.rk_capacity entry
     = capacity (MultiLocationEvent.farmOf result).

(** * Properties *)

(** ** Numbers *)

Lemma geq_true (a b : Q) : geq a b = true <-> (b <= a)%Q.
Proof. unfold geq. apply Qle_bool_iff. Qed.

Lemma geq_false (a b : Q) : geq a b = false <-> (a < b)%Q.
Proof.
  unfold geq. split; intros H.
  - apply Qnot_le_lt. intros Hle. apply Qle_bool_iff in Hle. congruence.
  - destruct (Qle_bool b a) eqn:E; [|reflexivity].
    apply Qle_bool_iff in E. exfalso. exact (Qlt_not_le _ _ H E).
Qed.

Lemma Qmax_cases (a b : Q) : Qmax a b = a \/ Qmax a b = b.
Proof. unfold Qmax, GenericMinMax.gmax. destruct (a ?= b)%Q; auto. Qed.

Lemma nearestEven_nonneg (num den : Z) :
  0 <= num -> 0 < den -> 0 <= nearestEven num den.
Proof.
  intros Hn Hd. unfold nearestEven.
  pose proof (Z.div_pos num den Hn Hd).
  destruct (_ <? _); [done|]. destruct (_ <? _); [lia|].
  destruct (Z.even _); lia.
Qed.

(** Rounding keeps a number that is not negative so. *)
Lemma roundDouble_nonneg (q : Q) : (0 <= q)%Q -> (0 <= roundDouble q)%Q.
Proof.
  intros Hq. unfold roundDouble.
  destruct (Z.eqb_spec (Z.abs (Qnum q)) 0) as [|Hne]; [apply Qle_refl|].
  assert (0 <= Qnum q) as Hnum.
  { unfold Qle in Hq. simpl in Hq. lia. }
  apply Qmult_le_0_compat; [|apply Qpower_0_le; discriminate].
  change 0%Q with (inject_Z 0). rewrite <- Zle_Qle.
  apply Z.mul_nonneg_nonneg; [lia|].
  apply nearestEven_nonneg.
  - apply Z.mul_nonneg_nonneg; [lia|]. apply Z.pow_nonneg. lia.
  - apply Z.mul_pos_pos; [done|]. apply Z.pow_pos_nonneg; lia.
Qed.












(** The numbers the language has for one tenth and one third, a tie that
    goes to the even significand, and a number below the normal range. *)
Example roundDouble_samples :
  (roundDouble (1 # 10) == 3602879701896397 # 36028797018963968)%Q
  /\ (roundDouble (1 # 3) == 6004799503160661 # 18014398509481984)%Q
  /\ (roundDouble (- (1 # 3)) == - (6004799503160661 # 18014398509481984))%Q
  /\ (roundDouble (inject_Z (2 ^ 53 + 1)) == inject_Z (2 ^ 53))%Q
  /\ (roundDouble (inject_Z (2 ^ 53 + 3)) == inject_Z (2 ^ 53 + 4))%Q
  /\ (roundDouble (3 # 2 ^ 1075) == 1 # 2 ^ 1073)%Q.
Proof. repeat split; by vm_compute. Qed.

Lemma diffHours_shift (d a b : Z) : diffHours (d + a) (d + b) = diffHours a b.
Proof. unfold diffHours. do 4 f_equal. lia. Qed.

Lemma diffHours_nonneg (a b : Z) : b <= a -> (0 <= diffHours a b)%Q.
Proof.
  intros H. unfold diffHours. apply roundDouble_nonneg.
  apply Qle_shift_div_l; [reflexivity|]. rewrite Qmult_0_l.
  apply roundDouble_nonneg. change 0%Q with (inject_Z 0).
  rewrite <- Zle_Qle. lia.
Qed.



(** ** Lists: the qualifying run that ends a sequence *)

Section Runs.
Context {A : Type} (f : A -> bool).

End Runs.

(** ** The hub-height detector *)

Module HubDetector.
Import StrongWindPeriodsService.

Section Scan.
Variable this : t.
Variable farm : WindFarm.

Abbreviation strong := (isStrongWind this).
Abbreviation step := (step this farm).

Lemma hub_step_weak ps cur x :
  strong x = false -> snd (step (ps, cur) x) = None.
Proof. intros H. unfold StrongWindPeriodsService.step. rewrite H. by destruct cur. Qed.

Lemma hub_scan_snoc data st x :
  fold_left step (data ++ [x]) st = step (fold_left step data st) x.
Proof. by rewrite fold_left_app. Qed.

(** After a sequence that ends below the threshold no period is open. *)
Lemma hub_scan_endsBelow pre :
  endsBelow strong pre -> snd (fold_left step pre ([], None)) = None.
Proof.
  intros [-> | (l & x & -> & Hx)]; [done|].
  rewrite hub_scan_snoc. destruct (fold_left step l ([], None)) as [ps cur].
  by apply hub_step_weak.
Qed.

(** Reading a qualifying run with no period open. *)
Lemma hub_scan_run ps r run :
  Forall (fun x => strong x = true) (r :: run) ->
  fold_left step (r :: run) (ps, None) = (ps, Some (hub_openRun farm r run)).
Proof.
  intros H. apply Forall_cons in H as [Hr Hrun].
  induction run as [|x run IH] using rev_ind.
  - simpl. unfold StrongWindPeriodsService.step. by rewrite Hr.
  - apply Forall_app in Hrun as [Hrun Hx]. apply Forall_cons in Hx as [Hx _].
    rewrite app_comm_cons, hub_scan_snoc, (IH Hrun).
    unfold StrongWindPeriodsService.step. rewrite Hx. unfold hub_openRun. simpl.
    by rewrite map_app, fold_left_app.
Qed.

(** Periods already pushed stay where they are. *)
Lemma hub_step_grows ps cur x :
  exists more, fst (step (ps, cur) x) = ps ++ more.
Proof.
  unfold StrongWindPeriodsService.step, pushIfLongEnough.
  destruct (strong x), cur as [cp|]; simpl;
    try (exists []; by rewrite app_nil_r).
  case (geq _ _); [by eexists|]. exists []. by rewrite app_nil_r.
Qed.

Lemma hub_scan_grows rest ps cur :
  exists more, fst (fold_left step rest (ps, cur)) = ps ++ more.
Proof.
  revert ps cur. induction rest as [|x rest IH]; intros ps cur.
  - exists []. by rewrite app_nil_r.
  - cbn [fold_left]. destruct (hub_step_grows ps cur x) as [m1 H1].
    destruct (step (ps, cur) x) as [ps' cur']. simpl in H1. subst ps'.
    destruct (IH (ps ++ m1) cur') as [m2 H2].
    exists (m1 ++ m2). rewrite app_assoc. exact H2.
Qed.

Lemma hub_atEndOfData_grows data ps cur :
  data <> [] ->
  exists more, atEndOfData this data (ps, cur) = Some (ps ++ more).
Proof.
  intros Hne. unfold atEndOfData. destruct cur as [cp|].
  - destruct (last data) as [r|] eqn:Hl.
    + unfold pushIfLongEnough. case (geq _ _); [by eexists|].
      exists []. by rewrite app_nil_r.
    + by apply last_None in Hl.
  - exists []. by rewrite app_nil_r.
Qed.

(** The detector returns on every input. *)
Lemma hub_findStrongWindPeriods_total data :
  is_Some (findStrongWindPeriods this data farm).
Proof.
  unfold findStrongWindPeriods.
  destruct data as [|r data]; [by eexists|].
  destruct (fold_left _ _ _) as [ps cur].
  destruct (hub_atEndOfData_grows (r :: data) ps cur) as [more ->]; [done|].
  by eexists.
Qed.

(** *** What the scan has established after reading [done] *)

Lemma hub_closedOk_snoc done x p : hub_closedOk this done p -> hub_closedOk this (done ++ [x]) p.
Proof.
  intros (suf & ([pre ->] & Hne & Hall) & Hsuf & Hlow).
  exists (suf ++ [x]). repeat split; try done.
  - exists pre. by rewrite <- !app_assoc.
  - by destruct suf.
  - by destruct suf.
Qed.

Lemma hub_scanned_step done st x :
  hub_scanned this done st -> hub_scanned this (done ++ [x]) (step st x).
Proof.
  destruct st as [ps cur]. intros [Hps Hcur]. simpl in Hps, Hcur.
  assert (Hps' : Forall (hub_closedOk this (done ++ [x])) ps).
  { eapply Forall_impl; [exact Hps|]. intros p. apply hub_closedOk_snoc. }
  unfold StrongWindPeriodsService.step.
  destruct (strong x) eqn:Hx, cur as [cp|]; split; simpl; try done.
  - intros ? [= <-]. simpl.
    destruct (Hcur cp eq_refl) as ([pre ->] & Hne & Hall).
    repeat split.
    + exists pre. by rewrite !app_nil_r, <- app_assoc.
    + by destruct (o_readings cp).
    + apply Forall_app. split; [done|]. by constructor.
  - intros ? [= <-]. simpl. repeat split; try done.
    + exists done. by rewrite app_nil_r.
    + by constructor.
  - unfold pushIfLongEnough. case (geq _ _); [|done].
    apply Forall_app. split; [done|]. constructor; [|constructor].
    destruct (Hcur cp eq_refl) as ([pre ->] & Hne & Hall).
    exists [x]. repeat split; try done.
    exists pre. by rewrite app_nil_r, <- app_assoc.
Qed.

Lemma hub_scanned_fold rest done st :
  hub_scanned this done st -> hub_scanned this (done ++ rest) (fold_left step rest st).
Proof.
  revert done st. induction rest as [|x rest IH]; intros done st H.
  - by rewrite app_nil_r.
  - cbn [fold_left]. rewrite cons_middle, app_assoc.
    apply IH. by apply hub_scanned_step.
Qed.

(** Every period the detector returns is a qualifying stretch of the
    data, and what follows it starts below the threshold. *)
Lemma hub_findStrongWindPeriods_sound data ps :
  findStrongWindPeriods this data farm = Some ps ->
  Forall (fun p => exists suf, stretch strong data (readings p) suf
                               /\ startsBelow strong suf) ps.
Proof.
  unfold findStrongWindPeriods. intros H.
  pose proof (hub_scanned_fold data [] ([], None)) as Hs. simpl in Hs.
  destruct Hs as [Hps Hcur]; [split; [constructor|done]|].
  destruct (fold_left step data ([], None)) as [qs cur].
  simpl in Hps, Hcur.
  assert (Hqs : Forall (fun p => exists suf, stretch strong data (readings p) suf
                                 /\ startsBelow strong suf) qs).
  { eapply Forall_impl; [exact Hps|].
    intros p (suf & ? & ? & ?). by exists suf. }
  unfold atEndOfData in H. destruct cur as [cp|]; [|by injection H as <-].
  destruct (last data) as [r|]; [|done]. injection H as <-.
  unfold pushIfLongEnough. case (geq _ _); [|done].
  apply Forall_app. split; [done|]. constructor; [|constructor].
  exists []. split; [|done]. by apply Hcur.
Qed.

(** *** The run at the end of the data, and a run in the middle *)

(** The sequence [pre ++ r :: run], where [r :: run] qualifies and [pre]
    ends below the threshold: the periods found in [pre], then the one
    that is still open at the end, closed at the last reading. *)
Lemma hub_scan_final_run pre r run :
  endsBelow strong pre ->
  Forall (fun x => strong x = true) (r :: run) ->
  exists before e,
    findStrongWindPeriods this pre farm = Some before
    /\ last (r :: run) = Some e
    /\ findStrongWindPeriods this (pre ++ r :: run) farm
       = Some (pushIfLongEnough this before
                 (close (hub_openRun farm r run) (timestamp e))).
Proof.
  intros Hpre Hrun. unfold findStrongWindPeriods.
  pose proof (hub_scan_endsBelow pre Hpre) as Hnone.
  rewrite fold_left_app.
  destruct (fold_left step pre ([], None)) as [before cur].
  simpl in Hnone. subst cur. rewrite (hub_scan_run before r run Hrun).
  destruct (last (r :: run)) as [e|] eqn:He; [|by apply last_None in He].
  exists before, e. repeat split. unfold atEndOfData.
  by rewrite last_app, He.
Qed.

(** A qualifying run with what precedes it ending below the threshold,
    and what follows it starting below: the period of the run is pushed
    as soon as its duration passes the filter. *)
Lemma hub_scan_inner_run pre r run x suf :
  endsBelow strong pre ->
  Forall (fun y => strong y = true) (r :: run) ->
  strong x = false ->
  geq (diffHours (timestamp x) (timestamp r)) (minimumDurationHours this)
    = true ->
  exists ps,
    findStrongWindPeriods this (pre ++ (r :: run) ++ x :: suf) farm = Some ps
    /\ close (hub_openRun farm r run) (timestamp x) ∈ ps.
Proof.
  intros Hpre Hrun Hx Hlong. unfold findStrongWindPeriods.
  pose proof (hub_scan_endsBelow pre Hpre) as Hnone.
  rewrite !fold_left_app.
  destruct (fold_left step pre ([], None)) as [before cur].
  simpl in Hnone. subst cur. rewrite (hub_scan_run before r run Hrun).
  cbn [fold_left].
  assert (Hstep : step (before, Some (hub_openRun farm r run)) x
                  = (before ++ [close (hub_openRun farm r run) (timestamp x)], None)).
  { unfold StrongWindPeriodsService.step. rewrite Hx.
    unfold pushIfLongEnough. simpl. by rewrite Hlong. }
  rewrite Hstep.
  destruct (hub_scan_grows suf (before ++ [close (hub_openRun farm r run) (timestamp x)])
              None) as [m1 H1].
  destruct (fold_left step suf _) as [qs cur]. simpl in H1. subst qs.
  destruct (hub_atEndOfData_grows (pre ++ (r :: run) ++ x :: suf)
              ((before ++ [close (hub_openRun farm r run) (timestamp x)]) ++ m1) cur)
    as [m2 ->]; [by destruct pre|].
  eexists. split; [done|]. set_solver.
Qed.

(** The running maximum of an open run bounds the speeds of the run from
    above and is one of them. *)
Lemma hub_openRun_max r run :
  Forall (fun x => (speed100 x <= o_maxWindSpeed (hub_openRun farm r run))%Q) (r :: run)
  /\ exists x, x ∈ r :: run /\ o_maxWindSpeed (hub_openRun farm r run) = speed100 x.
Proof.
  unfold hub_openRun. simpl.
  induction run as [|y run [IHle (x & Hin & Heq)]] using rev_ind; simpl.
  - split; [constructor; [apply Qle_refl|constructor]|].
    exists r. split; [set_solver|done].
  - rewrite map_app, fold_left_app. simpl. split.
    + rewrite app_comm_cons. apply Forall_app. split.
      * eapply Forall_impl; [exact IHle|]. simpl. intros z Hz.
        eapply Qle_trans; [exact Hz|]. apply Q.le_max_l.
      * constructor; [apply Q.le_max_r|constructor].
    + destruct (Qmax_cases (fold_left Qmax (map speed100 run) (speed100 r))
                  (speed100 y)) as [E|E]; rewrite E.
      * exists x. split; [|done].
        rewrite app_comm_cons. apply elem_of_app. by left.
      * exists y. split; [|done].
        rewrite app_comm_cons. apply elem_of_app. right. apply list_elem_of_singleton. done.
Qed.
End Scan.

(** *** Two services that differ in the minimum duration only *)

Section Filter.
Variable this : t.
Variable farm : WindFarm.
Variables m1 m2 : Q.
Hypothesis Hle : (m1 <= m2)%Q.

Abbreviation lax := (withMinimum this m1).
Abbreviation strict := (withMinimum this m2).

Lemma hub_push_sublist ps1 ps2 p :
  ps2 `sublist_of` ps1 ->
  pushIfLongEnough strict ps2 p `sublist_of` pushIfLongEnough lax ps1 p.
Proof.
  intros Hsub. unfold pushIfLongEnough. simpl.
  destruct (geq (durationHours p) m2) eqn:E2.
  - apply geq_true in E2.
    assert (E1 : geq (durationHours p) m1 = true).
    { apply geq_true. by eapply Qle_trans. }
    rewrite E1. by apply sublist_app.
  - case (geq _ _); [|done]. by apply sublist_inserts_r.
Qed.

Lemma hub_step_sublist ps1 ps2 cur x :
  ps2 `sublist_of` ps1 ->
  snd (step strict farm (ps2, cur) x) = snd (step lax farm (ps1, cur) x)
  /\ fst (step strict farm (ps2, cur) x)
       `sublist_of` fst (step lax farm (ps1, cur) x).
Proof.
  intros Hsub. unfold step.
  change (isStrongWind strict x) with (isStrongWind this x).
  change (isStrongWind lax x) with (isStrongWind this x).
  destruct (isStrongWind this x), cur as [cp|]; simpl; split; try done.
  by apply hub_push_sublist.
Qed.

Lemma hub_scan_sublist rest ps1 ps2 cur :
  ps2 `sublist_of` ps1 ->
  snd (fold_left (step strict farm) rest (ps2, cur))
    = snd (fold_left (step lax farm) rest (ps1, cur))
  /\ fst (fold_left (step strict farm) rest (ps2, cur))
       `sublist_of` fst (fold_left (step lax farm) rest (ps1, cur)).
Proof.
  revert ps1 ps2 cur. induction rest as [|x rest IH]; intros ps1 ps2 cur Hsub.
  - done.
  - cbn [fold_left].
    destruct (hub_step_sublist ps1 ps2 cur x Hsub) as [Hc Hp].
    destruct (step strict farm (ps2, cur) x) as [qs2 c2].
    destruct (step lax farm (ps1, cur) x) as [qs1 c1].
    simpl in Hc, Hp. subst c2. by apply IH.
Qed.

(** Raising the minimum duration only removes periods. *)
Lemma hub_findStrongWindPeriods_antitone data :
  exists ps1 ps2,
    findStrongWindPeriods lax data farm = Some ps1
    /\ findStrongWindPeriods strict data farm = Some ps2
    /\ ps2 `sublist_of` ps1.
Proof.
  unfold findStrongWindPeriods.
  destruct (decide (data = [])) as [->|Hne]; [by exists [], []|].
  destruct (hub_scan_sublist data [] [] None) as [Hc Hp]; [done|].
  destruct (fold_left (step strict farm) data ([], None)) as [qs2 c2].
  destruct (fold_left (step lax farm) data ([], None)) as [qs1 c1].
  simpl in Hc, Hp. subst c2. unfold atEndOfData.
  destruct c1 as [cp|]; [|exists qs1, qs2; by repeat split].
  destruct (last data) as [r|] eqn:Hl.
  - do 2 eexists. repeat split. by apply hub_push_sublist.
  - by apply last_None in Hl.
Qed.
End Filter.
End HubDetector.

(** ** The reference-height detector *)

Module RefDetector.
Import WindAnalysisService.

Section Scan.
Variable this : t.

Abbreviation strong := (isStrongWind this).
Abbreviation step := (step this).

Lemma ref_step_weak ps cur x :
  strong x = false -> snd (step (ps, cur) x) = None.
Proof. intros H. unfold WindAnalysisService.step. rewrite H. by destruct cur. Qed.

Lemma ref_scan_endsBelow pre :
  endsBelow strong pre -> snd (fold_left step pre ([], None)) = None.
Proof.
  intros [-> | (l & x & -> & Hx)]; [done|].
  rewrite fold_left_app. cbn [fold_left].
  destruct (fold_left step l ([], None)) as [ps cur].
  by apply ref_step_weak.
Qed.

Lemma ref_scan_run ps r run :
  Forall (fun x => strong x = true) (r :: run) ->
  fold_left step (r :: run) (ps, None) = (ps, Some (ref_openRun r run)).
Proof.
  intros H. apply Forall_cons in H as [Hr Hrun].
  induction run as [|x run IH] using rev_ind.
  - simpl. unfold WindAnalysisService.step. by rewrite Hr.
  - apply Forall_app in Hrun as [Hrun Hx]. apply Forall_cons in Hx as [Hx _].
    rewrite app_comm_cons, fold_left_app, (IH Hrun). cbn [fold_left].
    unfold WindAnalysisService.step. by rewrite Hx.
Qed.

Lemma ref_step_grows ps cur x :
  exists more, fst (step (ps, cur) x) = ps ++ more.
Proof.
  unfold WindAnalysisService.step.
  destruct (strong x), cur as [cp|]; simpl;
    try (exists []; by rewrite app_nil_r).
  by eexists.
Qed.

Lemma ref_scan_grows rest ps cur :
  exists more, fst (fold_left step rest (ps, cur)) = ps ++ more.
Proof.
  revert ps cur. induction rest as [|x rest IH]; intros ps cur.
  - exists []. by rewrite app_nil_r.
  - cbn [fold_left]. destruct (ref_step_grows ps cur x) as [m1 H1].
    destruct (step (ps, cur) x) as [ps' cur']. simpl in H1. subst ps'.
    destruct (IH (ps ++ m1) cur') as [m2 H2].
    exists (m1 ++ m2). rewrite app_assoc. exact H2.
Qed.

Lemma ref_atEndOfData_grows data ps cur :
  data <> [] ->
  exists more, atEndOfData data (ps, cur) = Some (ps ++ more).
Proof.
  intros Hne. unfold atEndOfData. destruct cur as [cp|].
  - destruct (last data) as [r|] eqn:Hl; [by eexists|].
    by apply last_None in Hl.
  - exists []. by rewrite app_nil_r.
Qed.

Lemma ref_findStrongWindPeriods_total data :
  is_Some (findStrongWindPeriods this data).
Proof.
  unfold findStrongWindPeriods.
  destruct data as [|r data]; [by eexists|].
  destruct (fold_left _ _ _) as [ps cur].
  destruct (ref_atEndOfData_grows (r :: data) ps cur) as [more ->]; [done|].
  by eexists.
Qed.

(** *** What the scan has established after reading [done] *)

Lemma ref_closedOk_snoc done x p : ref_closedOk this done p -> ref_closedOk this (done ++ [x]) p.
Proof.
  intros (suf & ([pre ->] & Hne & Hall) & Hsuf & Hlow).
  exists (suf ++ [x]). repeat split; try done.
  - exists pre. by rewrite <- !app_assoc.
  - by destruct suf.
  - by destruct suf.
Qed.

Lemma ref_scanned_step done st x :
  ref_scanned this done st -> ref_scanned this (done ++ [x]) (step st x).
Proof.
  destruct st as [ps cur]. intros [Hps Hcur]. simpl in Hps, Hcur.
  assert (Hps' : Forall (ref_closedOk this (done ++ [x])) ps).
  { eapply Forall_impl; [exact Hps|]. intros p. apply ref_closedOk_snoc. }
  unfold WindAnalysisService.step.
  destruct (strong x) eqn:Hx, cur as [cp|]; split; simpl; try done.
  - intros ? [= <-]. simpl.
    destruct (Hcur cp eq_refl) as ([pre ->] & Hne & Hall).
    repeat split.
    + exists pre. by rewrite !app_nil_r, <- app_assoc.
    + by destruct (o_readings cp).
    + apply Forall_app. split; [done|]. by constructor.
  - intros ? [= <-]. simpl. repeat split; try done.
    + exists done. by rewrite app_nil_r.
    + by constructor.
  - apply Forall_app. split; [done|]. constructor; [|constructor].
    destruct (Hcur cp eq_refl) as ([pre ->] & Hne & Hall).
    exists [x]. repeat split; try done.
    exists pre. by rewrite app_nil_r, <- app_assoc.
Qed.

Lemma ref_scanned_fold rest done st :
  ref_scanned this done st -> ref_scanned this (done ++ rest) (fold_left step rest st).
Proof.
  revert done st. induction rest as [|x rest IH]; intros done st H.
  - by rewrite app_nil_r.
  - cbn [fold_left]. rewrite cons_middle, app_assoc.
    apply IH. by apply ref_scanned_step.
Qed.

Lemma ref_findStrongWindPeriods_sound data ps :
  findStrongWindPeriods this data = Some ps ->
  Forall (fun p => exists suf, stretch strong data (readings p) suf
                               /\ startsBelow strong suf) ps.
Proof.
  unfold findStrongWindPeriods. intros H.
  pose proof (ref_scanned_fold data [] ([], None)) as Hs. simpl in Hs.
  destruct Hs as [Hps Hcur]; [split; [constructor|done]|].
  destruct (fold_left step data ([], None)) as [qs cur].
  simpl in Hps, Hcur.
  assert (Hqs : Forall (fun p => exists suf, stretch strong data (readings p) suf
                                 /\ startsBelow strong suf) qs).
  { eapply Forall_impl; [exact Hps|].
    intros p (suf & ? & ? & ?). by exists suf. }
  unfold atEndOfData in H. destruct cur as [cp|]; [|by injection H as <-].
  destruct (last data) as [r|]; [|done]. injection H as <-.
  apply Forall_app. split; [done|]. constructor; [|constructor].
  exists []. split; [|done]. by apply Hcur.
Qed.

(** *** The run at the end of the data, and a run in the middle *)

Lemma ref_scan_final_run pre r run :
  endsBelow strong pre ->
  Forall (fun x => strong x = true) (r :: run) ->
  exists before e,
    findStrongWindPeriods this pre = Some before
    /\ last (r :: run) = Some e
    /\ findStrongWindPeriods this (pre ++ r :: run)
       = Some (before ++ [close (ref_openRun r run) (timestamp e) None]).
Proof.
  intros Hpre Hrun. unfold findStrongWindPeriods.
  pose proof (ref_scan_endsBelow pre Hpre) as Hnone.
  rewrite fold_left_app.
  destruct (fold_left step pre ([], None)) as [before cur].
  simpl in Hnone. subst cur. rewrite (ref_scan_run before r run Hrun).
  destruct (last (r :: run)) as [e|] eqn:He; [|by apply last_None in He].
  exists before, e. repeat split. unfold atEndOfData.
  by rewrite last_app, He.
Qed.

Lemma ref_scan_inner_run pre r run x suf :
  endsBelow strong pre ->
  Forall (fun y => strong y = true) (r :: run) ->
  strong x = false ->
  exists ps,
    findStrongWindPeriods this (pre ++ (r :: run) ++ x :: suf) = Some ps
    /\ close (ref_openRun r run) (timestamp x) (Some (windSpeedKmh x)) ∈ ps.
Proof.
  intros Hpre Hrun Hx. unfold findStrongWindPeriods.
  pose proof (ref_scan_endsBelow pre Hpre) as Hnone.
  rewrite !fold_left_app.
  destruct (fold_left step pre ([], None)) as [before cur].
  simpl in Hnone. subst cur. rewrite (ref_scan_run before r run Hrun).
  cbn [fold_left].
  set (p := close (ref_openRun r run) (timestamp x) (Some (windSpeedKmh x))).
  assert (Hstep : step (before, Some (ref_openRun r run)) x
                  = (before ++ [p], None)).
  { unfold WindAnalysisService.step. by rewrite Hx. }
  rewrite Hstep.
  destruct (ref_scan_grows suf (before ++ [p]) None) as [m1 H1].
  destruct (fold_left step suf _) as [qs cur]. simpl in H1. subst qs.
  destruct (ref_atEndOfData_grows (pre ++ (r :: run) ++ x :: suf)
              ((before ++ [p]) ++ m1) cur)
    as [m2 ->]; [by destruct pre|].
  eexists. split; [done|]. set_solver.
Qed.
End Scan.
End RefDetector.

(** ** The claims about the period detector *)

Lemma stretch_runAtOrAbove (speed : Reading -> Q) (threshold : Q) data rs suf :
  stretch (fun r => geq (speed r) threshold) data rs suf ->
  startsBelow (fun r => geq (speed r) threshold) suf ->
  runAtOrAbove speed threshold data rs.
Proof.
  intros ([pre ->] & Hne & Hall) Hlow. exists pre, suf. repeat split; try done.
  - eapply Forall_impl; [exact Hall|]. intros r Hr. by apply geq_true.
  - destruct suf as [|next suf]; [done|]. by apply geq_false.
Qed.

(** C1.  For every reading sequence and every threshold, each period the
    detector emits holds only readings whose tested speed is at or above
    the threshold (the comparison is >=), and the reading that follows the
    period in the input, if there is one, has a tested speed below the
    threshold.  This is so for the hub-height detector of the
    strong-wind-periods service and for the reference-height detector of
    the single-location service, and both return on every input. *)
Theorem emitted_periods_meet_threshold :
  (forall this farm data,
      exists ps,
        StrongWindPeriodsService.findStrongWindPeriods this data farm = Some ps
        /\ Forall (fun p =>
                     runAtOrAbove StrongWindPeriodsService.speed100
                       (StrongWindPeriodsService.strongWindThreshold this)
                       data (StrongWindPeriodsService.readings p)) ps)
  /\ (forall this data,
         exists ps,
           WindAnalysisService.findStrongWindPeriods this data = Some ps
           /\ Forall (fun p =>
                        runAtOrAbove windSpeedKmh
                          (WindAnalysisService.strongWindThreshold this)
                          data (WindAnalysisService.readings p)) ps).
Proof.
  split.
  - intros this farm data.
    destruct (HubDetector.hub_findStrongWindPeriods_total this farm data)
      as [ps Hps].
    exists ps. split; [done|].
    eapply Forall_impl;
      [exact (HubDetector.hub_findStrongWindPeriods_sound this farm data ps Hps)|].
    intros p (suf & Hs & Hlow). simpl in *.
    by apply (stretch_runAtOrAbove StrongWindPeriodsService.speed100 _ _ _ suf).
  - intros this data.
    destruct (RefDetector.ref_findStrongWindPeriods_total this data)
      as [ps Hps].
    exists ps. split; [done|].
    eapply Forall_impl;
      [exact (RefDetector.ref_findStrongWindPeriods_sound this data ps Hps)|].
    intros p (suf & Hs & Hlow). simpl in *.
    by apply (stretch_runAtOrAbove windSpeedKmh _ _ _ suf).
Qed.

(** C2.  Hourly readings from 00:00 to 23:00, 70 km/h at hub height from
    02:00 through 07:00 and 50 km/h at every other hour, threshold 60 and
    a minimum of 6 hours: the detector emits exactly one period, from 02:00
    to 08:00, of 6 hours, with maximum speed 70. *)
Theorem worked_example_one_period (day0 : Z) (other : Z -> Reading)
    (farm : WindFarm) (farms : list WindFarm) :
  exists p,
    StrongWindPeriodsService.findStrongWindPeriods
      (StrongWindPeriodsService.constructor farms)
      (Example8.data day0 other) farm = Some [p]
    /\ StrongWindPeriodsService.startTime p = day0 + 2 * 3600000
    /\ StrongWindPeriodsService.endTime p = day0 + 8 * 3600000
    /\ (StrongWindPeriodsService.durationHours p == 6)%Q
    /\ (StrongWindPeriodsService.maxWindSpeed p == 70)%Q
    /\ StrongWindPeriodsService.readings p
       = map (Example8.reading day0 other) [2; 3; 4; 5; 6; 7].
Proof.
  eexists. split.
  - cbv [StrongWindPeriodsService.findStrongWindPeriods Example8.data seq map].
    simpl.
    unfold StrongWindPeriodsService.pushIfLongEnough,
      StrongWindPeriodsService.close.
    cbn [StrongWindPeriodsService.durationHours
           StrongWindPeriodsService.o_startTime].
    rewrite diffHours_shift.
    replace (geq (diffHours (Z.of_nat 8 * 3600000) (Z.of_nat 2 * 3600000))
               (StrongWindPeriodsService.minimumDurationHours
                  (StrongWindPeriodsService.constructor farms)))
      with true by (vm_compute; reflexivity).
    reflexivity.
  - cbn [StrongWindPeriodsService.startTime StrongWindPeriodsService.endTime
           StrongWindPeriodsService.durationHours
           StrongWindPeriodsService.maxWindSpeed
           StrongWindPeriodsService.readings].
    split; [reflexivity|]. split; [reflexivity|].
    split; [by vm_compute|]. split; reflexivity.
Qed.

Lemma ordered_after pre r rest y :
  ordered (pre ++ r :: rest) -> y ∈ rest -> timestamp r <= timestamp y.
Proof.
  unfold ordered. intros Hs Hy. rewrite map_app in Hs.
  apply (Sorted_StronglySorted _) in Hs.
  apply StronglySorted_app_1_r in Hs. simpl in Hs.
  apply StronglySorted_cons in Hs as [Hall _].
  rewrite Forall_forall in Hall. apply Hall.
  by apply (list_elem_of_fmap_2 timestamp).
Qed.

Lemma maximalRun_endsBelow speed threshold pre run suf :
  maximalRun speed threshold pre run suf ->
  endsBelow (fun r => geq (speed r) threshold) pre.
Proof.
  intros (_ & _ & Hpre & _).
  destruct (last pre) as [x|] eqn:Hl.
  - right. pose proof Hl as Hl'. apply last_Some in Hl' as [l ->].
    exists l, x. split; [done|]. apply geq_false. by apply Hpre.
  - left. by apply last_None.
Qed.

Lemma maximalRun_strong speed threshold pre run suf :
  maximalRun speed threshold pre run suf ->
  Forall (fun r => geq (speed r) threshold = true) run.
Proof.
  intros (_ & Hall & _). eapply Forall_impl; [exact Hall|].
  intros r Hr. by apply geq_true.
Qed.

Lemma maxOf_from (xs : list Q) (m : Q) :
  exists m', fold_left (fun acc x => mathMax acc (Fin x)) xs (Fin m) = Fin m'
             /\ (m <= m')%Q /\ Forall (fun x => (x <= m')%Q) xs
             /\ (m' = m \/ m' ∈ xs).
Proof.
  revert m. induction xs as [|x xs IH]; intros m; simpl.
  - exists m. repeat split; [apply Qle_refl|constructor|by left].
  - destruct (IH (Qmax m x)) as (m' & -> & Hle & Hall & Hin).
    exists m'. repeat split.
    + eapply Qle_trans; [apply Q.le_max_l|exact Hle].
    + constructor; [|done]. eapply Qle_trans; [apply Q.le_max_r|exact Hle].
    + destruct Hin as [->|Hin].
      * destruct (Qmax_cases m x) as [->| ->]; [by left|]. right. by left.
      * right. by right.
Qed.

(** [Math.max(...xs)] of a list that is not empty is its greatest
    element. *)
Lemma maxOf_greatest (xs : list Q) :
  xs <> [] ->
  exists m, maxOf xs = Fin m /\ Forall (fun x => (x <= m)%Q) xs /\ m ∈ xs.
Proof.
  destruct xs as [|x xs]; [done|]. intros _. unfold maxOf. simpl.
  destruct (maxOf_from xs x) as (m & -> & Hle & Hall & Hin).
  exists m. repeat split; [by constructor|].
  destruct Hin as [->|Hin]; [by left|by right].
Qed.

(** C3.  With a minimum duration of 0 every maximal qualifying run is
    emitted as a period by the hub-height detector, the readings being
    ordered by timestamp as the data model has them (a reading sequence is
    "ordered by timestamp", and the input of the detector is an "ordered
    sequence of Reading"); the reference-height detector has no filter and
    emits every maximal run.  Raising the minimum duration never raises the
    number of emitted periods: the periods of the stricter service are a
    sublist of those of the laxer one.  On the worked example a minimum of
    7 hours leaves no period. *)
Theorem minimum_duration_filter :
  (forall this farm pre run suf,
      (StrongWindPeriodsService.minimumDurationHours this == 0)%Q ->
      ordered (pre ++ run ++ suf) ->
      maximalRun StrongWindPeriodsService.speed100
        (StrongWindPeriodsService.strongWindThreshold this) pre run suf ->
      exists ps p,
        StrongWindPeriodsService.findStrongWindPeriods this
          (pre ++ run ++ suf) farm = Some ps
        /\ p ∈ ps /\ StrongWindPeriodsService.readings p = run)
  /\ (forall this pre run suf,
         maximalRun windSpeedKmh
           (WindAnalysisService.strongWindThreshold this) pre run suf ->
         exists ps p,
           WindAnalysisService.findStrongWindPeriods this (pre ++ run ++ suf)
             = Some ps
           /\ p ∈ ps /\ WindAnalysisService.readings p = run)
  /\ (forall this farm data m1 m2,
         (m1 <= m2)%Q ->
         exists ps1 ps2,
           StrongWindPeriodsService.findStrongWindPeriods
             (withMinimum this m1) data farm = Some ps1
           /\ StrongWindPeriodsService.findStrongWindPeriods
                (withMinimum this m2) data farm = Some ps2
           /\ ps2 `sublist_of` ps1
           /\ (length ps2 <= length ps1)%nat)
  /\ (forall day0 other farm farms,
         StrongWindPeriodsService.findStrongWindPeriods
           (withMinimum
              (StrongWindPeriodsService.constructor farms) 7)
           (Example8.data day0 other) farm = Some []).
Proof.
  repeat split.
  - intros this farm pre run suf Hmin Hord Hmax.
    pose proof (maximalRun_endsBelow _ _ _ _ _ Hmax) as Hpre.
    pose proof (maximalRun_strong _ _ _ _ _ Hmax) as Hrun.
    destruct Hmax as (Hne & _ & _ & Hsuf).
    destruct run as [|r run]; [done|].
    assert (Hlong : forall y, y ∈ run ++ suf ->
              geq (diffHours (timestamp y) (timestamp r))
                  (StrongWindPeriodsService.minimumDurationHours this) = true).
    { intros y Hy. apply geq_true. rewrite Hmin. apply diffHours_nonneg.
      exact (ordered_after pre r (run ++ suf) y Hord Hy). }
    destruct suf as [|x suf].
    + destruct (HubDetector.hub_scan_final_run this farm pre r run Hpre Hrun)
        as (before & e & _ & He & Hfind).
      rewrite app_nil_r, Hfind.
      unfold StrongWindPeriodsService.pushIfLongEnough. simpl.
      assert (Hd : geq (diffHours (timestamp e) (timestamp r))
                     (StrongWindPeriodsService.minimumDurationHours this) = true).
      { destruct run as [|r' run].
        - injection He as <-. apply geq_true. rewrite Hmin.
          by apply diffHours_nonneg.
        - apply Hlong. rewrite app_nil_r. rewrite last_cons_cons in He.
          by apply last_Some_elem_of. }
      rewrite Hd.
      exists (before ++ [StrongWindPeriodsService.close
                           (hub_openRun farm r run) (timestamp e)]),
        (StrongWindPeriodsService.close
           (hub_openRun farm r run) (timestamp e)).
      split; [done|]. split; [|done].
      apply elem_of_app. right. by left.
    + destruct (HubDetector.hub_scan_inner_run this farm pre r run x suf)
        as (ps & Hfind & Hin); try done.
      * apply geq_false, Hsuf. done.
      * apply Hlong. apply elem_of_app. right. by left.
      * by exists ps, (StrongWindPeriodsService.close
                         (hub_openRun farm r run) (timestamp x)).
  - intros this pre run suf Hmax.
    pose proof (maximalRun_endsBelow _ _ _ _ _ Hmax) as Hpre.
    pose proof (maximalRun_strong _ _ _ _ _ Hmax) as Hrun.
    destruct Hmax as (Hne & _ & _ & Hsuf).
    destruct run as [|r run]; [done|].
    destruct suf as [|x suf].
    + destruct (RefDetector.ref_scan_final_run this pre r run Hpre Hrun)
        as (before & e & _ & He & Hfind).
      rewrite app_nil_r, Hfind.
      exists (before ++ [WindAnalysisService.close
                           (ref_openRun r run) (timestamp e) None]),
        (WindAnalysisService.close
           (ref_openRun r run) (timestamp e) None).
      split; [done|]. split; [|done].
      apply elem_of_app. right. by left.
    + destruct (RefDetector.ref_scan_inner_run this pre r run x suf)
        as (ps & Hfind & Hin); try done.
      * apply geq_false, Hsuf. done.
      * by exists ps, (WindAnalysisService.close
                         (ref_openRun r run) (timestamp x)
                         (Some (windSpeedKmh x))).
  - intros this farm data m1 m2 Hle.
    destruct (HubDetector.hub_findStrongWindPeriods_antitone
                this farm m1 m2 Hle data) as (ps1 & ps2 & H1 & H2 & Hsub).
    exists ps1, ps2. repeat split; try done. by apply sublist_length.
  - intros day0 other farm farms.
    cbv [StrongWindPeriodsService.findStrongWindPeriods Example8.data seq map].
    simpl.
    unfold StrongWindPeriodsService.pushIfLongEnough,
      StrongWindPeriodsService.close.
    cbn [StrongWindPeriodsService.durationHours
           StrongWindPeriodsService.o_startTime].
    rewrite diffHours_shift. reflexivity.
Qed.

(** With readings out of order the duration of a run can be negative, and
    the run is then dropped even by a minimum of 0: the order of the
    readings is needed above. *)
Example unordered_run_is_dropped :
  StrongWindPeriodsService.findStrongWindPeriods
    (withMinimum (StrongWindPeriodsService.constructor []) 0)
    [mkReading 3600000 0 (Some 70%Q) 0 None 0 0 0;
     mkReading 0 0 (Some 50%Q) 0 None 0 0 0]
    (mkWindFarm "A" 0 0 "R" 0 "O")
  = Some [].
Proof. reflexivity. Qed.


(** The minimum is compared with the duration as the language has it: with
    a minimum of a tenth of an hour, a run of six minutes is emitted,
    whether a weaker reading ends it or the data does. *)
Example six_minutes_meet_a_tenth_of_an_hour :
  let this :=
    {| StrongWindPeriodsService.strongWindThreshold := 60;
       StrongWindPeriodsService.minimumDurationHours := roundDouble (1 # 10);
       StrongWindPeriodsService.windFarms := [] |} in
  length <$> StrongWindPeriodsService.findStrongWindPeriods this
               [mkReading 0 0 (Some 70%Q) 0 None 0 0 0;
                mkReading 360000 0 (Some 10%Q) 0 None 0 0 0] Samples.farmA
  = Some 1%nat
  /\ length <$> StrongWindPeriodsService.findStrongWindPeriods this
                  [mkReading 0 0 (Some 70%Q) 0 None 0 0 0;
                   mkReading 360000 0 (Some 70%Q) 0 None 0 0 0] Samples.farmA
     = Some 1%nat.
Proof. by vm_compute. Qed.

(** ** The compass sector of a direction *)

Lemma mathRound_sector_nonneg (d : Q) :
  (0 <= d)%Q -> 0 <= mathRound (d / (45 # 2)).
Proof.
  intros H0. unfold mathRound.
  assert (Hlo : (1 # 2 <= d / (45 # 2) + (1 # 2))%Q).
  { unfold Qdiv. change (/ (45 # 2))%Q with (2 # 45)%Q. lra. }
  apply Qfloor_resp_le in Hlo. change (Qfloor (1 # 2)) with 0 in Hlo. lia.
Qed.

Lemma jsRem_sector (n : Z) : 0 <= n -> 0 <= jsRem n 16 < 16.
Proof. intros H. unfold jsRem. apply Z.rem_bound_pos; lia. Qed.

Lemma index_in_range {A} (xs : list A) (i : Z) :
  0 <= i < Z.of_nat (length xs) -> is_Some (index xs i).
Proof.
  intros H. unfold index.
  destruct (i <? 0) eqn:E; [apply Z.ltb_lt in E; lia|].
  apply lookup_lt_is_Some. lia.
Qed.

Lemma sectorCentre_direction (i : nat) (name : string) :
  WindAnalysisService.directionNames !! i = Some name ->
  (0 <= sectorCentre i)%Q /\ (sectorCentre i < 360)%Q
  /\ WindAnalysisService.getWindDirection (sectorCentre i) = Some name.
Proof.
  intros H.
  do 16 (destruct i as [|i];
         [injection H as <-; by vm_compute|]).
  done.
Qed.

(** C7.  The mapping [round(degrees / 22.5) mod 16] gives a sector for every
    direction from 0 to 360: the index lies in 0 .. 15 and names one of the
    16 distinct sectors N, NNE, ..., NNW; 0 and 360 both give N; and every
    sector is the image of a direction in [0, 360).  The two copies of the
    function, in the single-location service and in the multi-location
    service, agree. *)
Theorem direction_sector_total :
  (forall d : Q,
      (0 <= d)%Q -> (d <= 360)%Q ->
      exists (i : Z) (name : string),
        i = jsRem (mathRound (d / (45 # 2))) 16
        /\ 0 <= i < 16
        /\ WindAnalysisService.directionNames !! Z.to_nat i = Some name
        /\ WindAnalysisService.getWindDirection d = Some name
        /\ MultiLocationAnalysisService.getWindDirection d = Some name)
  /\ length WindAnalysisService.directionNames = 16%nat
  /\ NoDup WindAnalysisService.directionNames
  /\ WindAnalysisService.getWindDirection 0 = Some "N"%string
  /\ WindAnalysisService.getWindDirection 360 = Some "N"%string
  /\ MultiLocationAnalysisService.getWindDirection 0 = Some "N"%string
  /\ MultiLocationAnalysisService.getWindDirection 360 = Some "N"%string
  /\ (forall name,
         name ∈ WindAnalysisService.directionNames ->
         exists d : Q,
           (0 <= d)%Q /\ (d < 360)%Q
           /\ WindAnalysisService.getWindDirection d = Some name).
Proof.
  split; [|split; [|split; [|split; [|split; [|split; [|split]]]]]];
    try reflexivity.
  - intros d H0 H360.
    pose proof (jsRem_sector _ (mathRound_sector_nonneg d H0)) as Hi.
    destruct (index_in_range WindAnalysisService.directionNames
                (jsRem (mathRound (d / (45 # 2))) 16)) as [name Hname];
      [exact Hi|].
    exists (jsRem (mathRound (d / (45 # 2))) 16), name.
    repeat split; try lia; try exact Hname.
    unfold index in Hname.
    destruct (_ <? 0) eqn:E; [done|exact Hname].
  - by apply (bool_decide_unpack _).
  - intros name Hin. apply list_elem_of_lookup in Hin as [i Hi].
    exists (sectorCentre i). by apply sectorCentre_direction.
Qed.

(** ** Buckets and their counts *)

Section Counts.
Context `{Countable K} {V : Type} (count : V -> Z).

Lemma totalCount_empty : totalCount count (∅ : gmap K V) = 0.
Proof. apply map_fold_empty. Qed.

Lemma totalCount_insert_fresh (k : K) (b : V) (m : gmap K V) :
  m !! k = None -> totalCount count (<[k := b]> m) = count b + totalCount count m.
Proof.
  intros Hk. unfold totalCount.
  rewrite map_fold_insert_L; [done| |done]. intros. lia.
Qed.

Lemma totalCount_insert_over (k : K) (b0 b : V) (m : gmap K V) :
  m !! k = Some b0 ->
  totalCount count (<[k := b]> m) = totalCount count m + (count b - count b0).
Proof.
  intros Hk.
  rewrite <- (insert_delete_eq m).
  rewrite totalCount_insert_fresh by apply lookup_delete_eq.
  unfold totalCount at 2.
  rewrite (map_fold_delete_L _ _ k b0 m); [|intros; lia|done].
  fold (totalCount count (delete k m)). lia.
Qed.
End Counts.

Lemma totalCount_fmap `{Countable K} {V W : Type} (count : W -> Z)
    (g : V -> W) (m : gmap K V) :
  totalCount count (g <$> m) = totalCount (fun b => count (g b)) m.
Proof. unfold totalCount. by rewrite map_fold_fmap. Qed.

(** The map that [keys.forEach(k => m[k] = zero)] builds. *)
Lemma init_lookup `{Countable K} {V : Type} (zero : V) (keys : list K)
    (m : gmap K V) (k : K) :
  fold_left (fun acc key => <[key := zero]> acc) keys m !! k
  = if decide (k ∈ keys) then Some zero else m !! k.
Proof.
  revert m. induction keys as [|key keys IH]; intros m; cbn [fold_left].
  - destruct (decide (k ∈ [])) as [Hin|_]; [by apply not_elem_of_nil in Hin|done].
  - rewrite IH.
    destruct (decide (k ∈ keys)) as [Hin|Hout],
             (decide (k ∈ key :: keys)) as [Hin'|Hout']; try done.
    + exfalso. apply Hout'. by right.
    + apply elem_of_cons in Hin' as [->|?]; [|done]. apply lookup_insert_eq.
    + apply lookup_insert_ne. intros ->. apply Hout'. by left.
Qed.

Lemma forEachM_none {S A} (body : S -> A -> option S) (xs : list A) :
  fold_left (fun acc x => acc ≫= (fun st => body st x)) xs None = None.
Proof. induction xs as [|x xs IH]; [done|]. simpl. exact IH. Qed.

Lemma forEachM_cons {S A} (body : S -> A -> option S) (x : A) (xs : list A)
    (s : S) :
  forEachM body (x :: xs) s
  = match body s x with
    | Some s' => forEachM body xs s'
    | None => None
    end.
Proof.
  unfold forEachM. simpl. destruct (body s x); [done|apply forEachM_none].
Qed.

Section BucketScan.
Context `{Countable K} {V A : Type}.
Variable count : V -> Z.
Variable keyOf : A -> option K.
Variable add : V -> A -> V.
Variable keys : list K.
Hypothesis add_count : forall b x, count (add b x) = count b + 1.

Lemma bucket_scan (data : list A) (m : gmap K V) :
  Forall (fun x => exists k, keyOf x = Some k /\ k ∈ keys) data ->
  hasKeys keys m ->
  exists m',
    forEachM (bucketStep keyOf add) data m = Some m'
    /\ hasKeys keys m'
    /\ totalCount count m' = totalCount count m + Z.of_nat (length data).
Proof.
  revert m. induction data as [|x data IH]; intros m Hdata Hm.
  - exists m. repeat split; try apply Hm. simpl. lia.
  - apply Forall_cons in Hdata as [(k & Hk & Hin) Hdata].
    destruct (proj2 (Hm k) Hin) as [b Hb].
    rewrite forEachM_cons. unfold bucketStep at 1. rewrite Hk. simpl.
    rewrite Hb. simpl.
    destruct (IH (<[k := add b x]> m) Hdata) as (m' & Hrun & Hkeys & Hsum).
    { intros k'. destruct (decide (k = k')) as [<-|Hne].
      - rewrite lookup_insert_eq. split; [done|by eexists].
      - rewrite lookup_insert_ne by done. apply Hm. }
    exists m'. repeat split; try apply Hkeys; [done|].
    rewrite Hsum, (totalCount_insert_over count k b) by done.
    rewrite add_count. simpl length. lia.
Qed.

Lemma hasKeys_size (m : gmap K V) :
  NoDup keys -> hasKeys keys m -> size m = length keys.
Proof.
  intros Hnd Hm. rewrite <- size_dom.
  assert (dom m = list_to_set keys) as ->.
  { apply set_eq. intros k. rewrite elem_of_dom, elem_of_list_to_set.
    apply Hm. }
  by apply size_list_to_set.
Qed.

Lemma totalCount_zero (m : gmap K V) :
  map_Forall (fun _ b => count b = 0) m -> totalCount count m = 0.
Proof.
  induction m as [|k b m Hk IH] using map_ind; intros Hall.
  - apply totalCount_empty.
  - rewrite totalCount_insert_fresh by done.
    apply map_Forall_insert in Hall as [Hb Hall]; [|done].
    rewrite Hb, IH by done. done.
Qed.

Lemma init_hasKeys (zero : V) :
  hasKeys keys (fold_left (fun acc key => <[key := zero]> acc) keys ∅).
Proof.
  intros k. rewrite init_lookup. destruct (decide (k ∈ keys)).
  - split; [done|by eexists].
  - rewrite lookup_empty. split; [by intros [? ?]|done].
Qed.

Lemma init_totalCount (zero : V) :
  count zero = 0 ->
  totalCount count (fold_left (fun acc key => <[key := zero]> acc) keys ∅) = 0.
Proof.
  intros Hz. apply totalCount_zero. intros k b Hb.
  rewrite init_lookup in Hb. destruct (decide (k ∈ keys)).
  - by injection Hb as <-.
  - by rewrite lookup_empty in Hb.
Qed.
End BucketScan.

(** *** The three distributions *)

Lemma hourKeys_elem (h : Z) : h ∈ hourKeys <-> 0 <= h < 24.
Proof.
  unfold hourKeys. split.
  - intros Hin. apply list_elem_of_fmap in Hin as (n & -> & Hn).
    apply elem_of_seq in Hn. lia.
  - intros Hh. apply list_elem_of_fmap. exists (Z.to_nat h). split; [lia|].
    apply elem_of_seq. lia.
Qed.

Lemma hour_range (lt : LocalTime) (t : Z) : 0 <= hour lt t < 24.
Proof. unfold hour. apply Z.mod_pos_bound. lia. Qed.

Lemma getWindDirection_nonneg (d : Q) :
  (0 <= d)%Q ->
  exists name, WindAnalysisService.getWindDirection d = Some name
               /\ name ∈ WindAnalysisService.directionNames.
Proof.
  intros H0.
  pose proof (jsRem_sector _ (mathRound_sector_nonneg d H0)) as Hi.
  destruct (index_in_range WindAnalysisService.directionNames
              (jsRem (mathRound (d / (45 # 2))) 16)) as [name Hname];
    [exact Hi|].
  exists name. split; [exact Hname|].
  unfold index in Hname. destruct (_ <? 0); [done|].
  by apply list_elem_of_lookup_2 in Hname.
Qed.

Lemma day_scan (lt : LocalTime) (this : WindAnalysisService.t)
    (data : list Reading) (m : gmap string WindAnalysisService.DayStats) :
  totalCount WindAnalysisService.d_count
    (fold_left (WindAnalysisService.dayStep lt this) data m)
  = totalCount WindAnalysisService.d_count m + Z.of_nat (length data)
  /\ forall day,
      is_Some (fold_left (WindAnalysisService.dayStep lt this) data m !! day)
      <-> is_Some (m !! day)
          \/ exists r, r ∈ data /\ formatDay lt (timestamp r) = day.
Proof.
  revert m. induction data as [|x data IH]; intros m.
  - simpl. split; [lia|]. intros day. split; [by left|].
    intros [?|(r & Hr & _)]; [done|]. by apply not_elem_of_nil in Hr.
  - cbn [fold_left]. destruct (IH (WindAnalysisService.dayStep lt this m x))
      as [Hsum Hkeys].
    split.
    + rewrite Hsum. unfold WindAnalysisService.dayStep.
      destruct (m !! formatDay lt (timestamp x)) as [b|] eqn:Hb.
      * rewrite (totalCount_insert_over _ _ b) by done. simpl. lia.
      * rewrite totalCount_insert_fresh by done. simpl. lia.
    + intros day. rewrite Hkeys. unfold WindAnalysisService.dayStep.
      destruct (decide (formatDay lt (timestamp x) = day)) as [<-|Hne].
      * rewrite lookup_insert_eq. split.
        -- intros _. right. exists x. split; [by left|done].
        -- intros _. left. by eexists.
      * rewrite lookup_insert_ne by done. split.
        -- intros [?|(r & Hr & Hd)]; [by left|].
           right. exists r. split; [by right|done].
        -- intros [?|(r & Hr & Hd)]; [by left|].
           apply elem_of_cons in Hr as [->|Hr]; [done|].
           right. by exists r.
Qed.

(** C6.  The counts of the 24 hourly buckets add up to the number of
    readings; the counts of the daily buckets, one for each calendar date
    that occurs, add up to the number of readings; and the counts of the 16
    sectors of the wind rose add up to the number of readings, the
    directions being those of the data model (a direction lies in
    [0, 360); that none is negative is all that is used). *)
Theorem bucket_counts_add_up :
  (forall lt this data,
      exists m,
        WindAnalysisService.calculateHourlyDistribution lt this data = Some m
        /\ size m = 24%nat
        /\ (forall h, is_Some (m !! h) <-> 0 <= h < 24)
        /\ totalCount (fun b => WindAnalysisService.h_count
                                  (WindAnalysisService.h_stats b)) m
           = Z.of_nat (length data))
  /\ (forall lt this data,
         (forall day,
             is_Some (WindAnalysisService.calculateDailyDistribution
                        lt this data !! day)
             <-> exists r, r ∈ data /\ formatDay lt (timestamp r) = day)
         /\ totalCount (fun b => WindAnalysisService.d_count
                                   (WindAnalysisService.d_stats b))
              (WindAnalysisService.calculateDailyDistribution lt this data)
            = Z.of_nat (length data))
  /\ (forall this data,
         Forall (fun r => (0 <= windDirection r)%Q) data ->
         exists m,
           WindAnalysisService.calculateWindRose this data = Some m
           /\ size m = 16%nat
           /\ (forall name, is_Some (m !! name)
                            <-> name ∈ WindAnalysisService.directionNames)
           /\ totalCount (fun b => WindAnalysisService.r_count
                                     (WindAnalysisService.r_stats b)) m
              = Z.of_nat (length data)).
Proof.
  split; [|split].
  - intros lt this data.
    unfold WindAnalysisService.calculateHourlyDistribution.
    fold hourKeys.
    destruct (bucket_scan WindAnalysisService.h_count
                (fun r => Some (hour lt (timestamp r)))
                (WindAnalysisService.hourAdd this) hourKeys
                (fun b x => eq_refl) data
                (fold_left (fun acc key => <[key := WindAnalysisService.hourZero]> acc)
                   hourKeys ∅))
      as (m & Hrun & Hkeys & Hsum).
    { apply Forall_forall. intros r _.
      eexists. split; [done|]. apply hourKeys_elem, hour_range. }
    { apply init_hasKeys. }
    change (forEachM (WindAnalysisService.hourStep lt this) data
              (fold_left (fun acc key => <[key := WindAnalysisService.hourZero]> acc)
                 hourKeys ∅) = Some m) in Hrun.
    rewrite Hrun. exists (WindAnalysisService.hourFinish <$> m).
    split; [done|]. split; [|split].
    + rewrite map_size_fmap.
      rewrite (hasKeys_size hourKeys m); [done| |done].
      by apply (bool_decide_unpack _).
    + intros h. rewrite lookup_fmap, fmap_is_Some, <- hourKeys_elem.
      apply Hkeys.
    + rewrite totalCount_fmap.
      change (totalCount WindAnalysisService.h_count m = Z.of_nat (length data)).
      rewrite Hsum, init_totalCount by done. lia.
  - intros lt this data.
    unfold WindAnalysisService.calculateDailyDistribution.
    destruct (day_scan lt this data ∅) as [Hsum Hkeys]. split.
    + intros day. rewrite lookup_fmap, fmap_is_Some, Hkeys.
      rewrite lookup_empty. split; [|by right].
      intros [[? ?]|?]; done.
    + rewrite totalCount_fmap.
      change (totalCount WindAnalysisService.d_count
                (fold_left (WindAnalysisService.dayStep lt this) data ∅)
              = Z.of_nat (length data)).
      rewrite Hsum, totalCount_empty. lia.
  - intros this data Hdata.
    unfold WindAnalysisService.calculateWindRose.
    destruct (bucket_scan WindAnalysisService.r_count
                (fun r => WindAnalysisService.getWindDirection (windDirection r))
                (WindAnalysisService.roseAdd this)
                WindAnalysisService.directionNames
                (fun b x => eq_refl) data
                (fold_left (fun acc key => <[key := WindAnalysisService.roseZero]> acc)
                   WindAnalysisService.directionNames ∅))
      as (m & Hrun & Hkeys & Hsum).
    { eapply Forall_impl; [exact Hdata|]. intros r Hr.
      by apply getWindDirection_nonneg. }
    { apply init_hasKeys. }
    change (forEachM (WindAnalysisService.roseStep this) data
              (fold_left (fun acc key => <[key := WindAnalysisService.roseZero]> acc)
                 WindAnalysisService.directionNames ∅) = Some m) in Hrun.
    rewrite Hrun. exists (WindAnalysisService.roseFinish <$> m).
    split; [done|]. split; [|split].
    + rewrite map_size_fmap.
      rewrite (hasKeys_size WindAnalysisService.directionNames m); [done| |done].
      by apply (bool_decide_unpack _).
    + intros name. rewrite lookup_fmap, fmap_is_Some. apply Hkeys.
    + rewrite totalCount_fmap.
      change (totalCount WindAnalysisService.r_count m = Z.of_nat (length data)).
      rewrite Hsum, init_totalCount by done. lia.
Qed.

(** Without the bound on the direction the wind rose may throw: a
    direction of -90 degrees rounds to sector -4, which names no bucket. *)
Example wind_rose_negative_direction :
  WindAnalysisService.calculateWindRose WindAnalysisService.constructor
    [mkReading 0 10 None (-90) None 0 0 0] = None.
Proof. reflexivity. Qed.

(** ** Sorting, sets and grouping *)

Lemma insertSorted_Permutation {A} (cmp : A -> A -> Z) (x : A) (l : list A) :
  insertSorted cmp x l ≡ₚ x :: l.
Proof.
  induction l as [|y l IH]; simpl; [done|].
  destruct (cmp x y <=? 0); [done|].
  rewrite IH. apply Permutation_swap.
Qed.

Lemma sortBy_Permutation {A} (cmp : A -> A -> Z) (l : list A) :
  sortBy cmp l ≡ₚ l.
Proof.
  induction l as [|x l IH]; simpl; [done|].
  by rewrite insertSorted_Permutation, IH.
Qed.

Lemma sortBy_elem {A} (cmp : A -> A -> Z) (l : list A) (x : A) :
  x ∈ sortBy cmp l <-> x ∈ l.
Proof. by rewrite sortBy_Permutation. Qed.

Lemma fold_left_invariant {S A} (P : S -> Prop) (f : S -> A -> S)
    (l : list A) (s : S) :
  P s -> (forall st x, P st -> P (f st x)) -> P (fold_left f l s).
Proof.
  intros Hs Hstep. revert s Hs.
  induction l as [|x l IH]; intros s Hs; [done|].
  simpl. apply IH. by apply Hstep.
Qed.

(** A set built from copies of one value has that value alone. *)
Lemma setFrom_constant {A} `{EqDecision A} (x : A) (l : list A) :
  l <> [] -> Forall (fun y => y = x) l -> setFrom l = [x].
Proof.
  intros Hne Hall. destruct l as [|y l]; [done|].
  apply Forall_cons in Hall as [-> Hall]. unfold setFrom. cbn [fold_left].
  destruct (decide (x ∈ [])) as [Hin|_]; [by apply not_elem_of_nil in Hin|].
  change ([] ++ [x]) with [x].
  induction l as [|z l IH]; [done|].
  apply Forall_cons in Hall as [-> Hall]. cbn [fold_left].
  destruct (decide (x ∈ [x])) as [_|Hout]; [by apply IH|].
  exfalso. apply Hout. by left.
Qed.

(** ** Aggregation over the sites *)

Module Aggregation.
Import StrongWindPeriodsService.



(** An entry after the push is an old entry, or the entry of [d], which
    ends with [p]. *)
Lemma pushUnder_entry d p g d' ps' :
  (d', ps') ∈ pushUnder d p g ->
  (d', ps') ∈ g
  \/ (d' = d /\ exists ps0, ps' = ps0 ++ [p] /\ (ps0 = [] \/ (d, ps0) ∈ g)).
Proof.
  induction g as [|[d0 ps0] g IH]; simpl.
  - intros He. apply list_elem_of_singleton in He. injection He as -> ->.
    right. split; [done|]. exists []. split; [done|by left].
  - destruct (decide (d0 = d)) as [->|Hne].
    + intros He. apply elem_of_cons in He as [He|He].
      * injection He as -> ->. right. split; [done|].
        exists ps0. split; [done|]. right. by left.
      * left. by right.
    + intros He. apply elem_of_cons in He as [He|He].
      * injection He as -> ->. left. by left.
      * destruct (IH He) as [?|(-> & ps1 & -> & [->|?])].
        -- left. by right.
        -- right. split; [done|]. exists []. split; [done|by left].
        -- right. split; [done|]. exists ps1. split; [done|].
           right. by right.
Qed.



Section Grouping.
Variable lt : LocalTime.

Abbreviation dayOfPeriod := (fun p : Period => formatDay lt (startTime p)).

Lemma group_snoc periods p :
  groupPeriodsByDate lt (periods ++ [p])
  = pushUnder (dayOfPeriod p) p (groupPeriodsByDate lt periods).
Proof. unfold groupPeriodsByDate. by rewrite fold_left_app. Qed.


(** Every entry holds at least one period, and only periods that start on
    the date of the entry. *)
Lemma group_sound periods d ps :
  (d, ps) ∈ groupPeriodsByDate lt periods ->
  ps <> [] /\ forall q, q ∈ ps -> q ∈ periods /\ dayOfPeriod q = d.
Proof.
  revert d ps. induction periods as [|p periods IH] using rev_ind;
    intros d ps He.
  - by apply not_elem_of_nil in He.
  - rewrite group_snoc in He.
    apply pushUnder_entry in He as [He|(-> & ps0 & -> & Hps0)].
    + destruct (IH d ps He) as [Hne Hall]. split; [done|].
      intros q Hq. destruct (Hall q Hq). split; [|done].
      apply elem_of_app. by left.
    + split; [by destruct ps0|].
      intros q Hq. apply elem_of_app in Hq as [Hq|Hq].
      * destruct Hps0 as [->|He]; [by apply not_elem_of_nil in Hq|].
        destruct (IH _ _ He) as [_ Hall]. destruct (Hall q Hq).
        split; [|done]. apply elem_of_app. by left.
      * apply list_elem_of_singleton in Hq as ->.
        split; [|done]. apply elem_of_app. right. by left.
Qed.

End Grouping.

(** The [windFarm] of every period the detector returns is the name of the
    farm, a string. *)
Lemma find_windFarm this farm data ps :
  findStrongWindPeriods this data farm = Some ps ->
  Forall (fun p => windFarm p = FarmName (name farm)) ps.
Proof.
  unfold findStrongWindPeriods.
  pose proof (fold_left_invariant
    (fun st : list Period * option OpenPeriod =>
       Forall (fun p => windFarm p = FarmName (name farm)) (fst st)
       /\ forall cp, snd st = Some cp -> o_windFarm cp = FarmName (name farm))
    (step this farm) data ([], None)) as Hinv.
  destruct Hinv as [Hps Hcur].
  { split; [constructor|done]. }
  { intros [ps0 cur] x [Hps Hcur]. simpl in Hps, Hcur. unfold step.
    destruct (isStrongWind this x), cur as [cp|]; simpl; split; try done.
    - intros ? [= <-]. simpl. by apply Hcur.
    - by intros ? [= <-].
    - unfold pushIfLongEnough. case (geq _ _); [|done].
      apply Forall_app. split; [done|]. constructor; [|constructor].
      simpl. by apply Hcur. }
  destruct (fold_left (step this farm) data ([], None)) as [ps0 cur].
  simpl in Hps, Hcur. unfold atEndOfData.
  destruct cur as [cp|]; [|by intros [= <-]].
  destruct (last data) as [r|]; [|done]. intros [= <-].
  unfold pushIfLongEnough. case (geq _ _); [|done].
  apply Forall_app. split; [done|]. constructor; [|constructor].
  simpl. by apply Hcur.
Qed.

Section Sites.
Variable this : t.
Variable getWindData : WindFarm -> option (list Reading).

Lemma analyzeFarm_collected acc farm :
  snd (analyzeFarm this getWindData acc farm)
  = snd acc ++ map (withWindFarm farm) (periodsOf this getWindData farm).
Proof.
  destruct acc as [analysis collected].
  unfold analyzeFarm, periodsOf.
  destruct (getWindData farm ≫= _) as [[|p ps]|]; simpl;
    by rewrite ?app_nil_r.
Qed.

Lemma collected_all farms :
  snd (fold_left (analyzeFarm this getWindData) farms ([], []))
  = concat (map (fun farm => map (withWindFarm farm) (periodsOf this getWindData farm)) farms).
Proof.
  induction farms as [|farm farms IH] using rev_ind; [done|].
  rewrite fold_left_app. cbn [fold_left].
  rewrite analyzeFarm_collected, IH, map_app, concat_app. simpl.
  by rewrite app_nil_r.
Qed.

(** A collected period comes from one of the farms of the list. *)
Lemma collected_elem farms q :
  q ∈ snd (fold_left (analyzeFarm this getWindData) farms ([], []))
  <-> exists j farm p,
        farms !! j = Some farm /\ p ∈ periodsOf this getWindData farm
        /\ q = withWindFarm farm p.
Proof.
  rewrite collected_all. rewrite list_elem_of_In, in_concat. split.
  - intros (l & Hl & Hq). apply in_map_iff in Hl as (farm & <- & Hfarm).
    apply in_map_iff in Hq as (p & <- & Hp).
    apply list_elem_of_In, list_elem_of_lookup in Hfarm as [j Hj].
    exists j, farm, p. split; [done|]. split; [|done].
    by apply list_elem_of_In.
  - intros (j & farm & p & Hj & Hp & ->).
    exists (map (withWindFarm farm) (periodsOf this getWindData farm)). split.
    + apply in_map_iff. exists farm. split; [done|].
      apply list_elem_of_In. by apply list_elem_of_lookup_2 in Hj.
    + apply in_map_iff. exists p. split; [done|]. by apply list_elem_of_In.
Qed.

Lemma periodsOf_windFarm farm p :
  p ∈ periodsOf this getWindData farm -> windFarm p = FarmName (name farm).
Proof.
  unfold periodsOf. destruct (getWindData farm) as [hist|]; simpl.
  - destruct (findStrongWindPeriods this hist farm) as [ps|] eqn:Hps.
    + intros Hp. apply find_windFarm in Hps.
      rewrite Forall_forall in Hps. by apply Hps.
    + intros Hp. by apply not_elem_of_nil in Hp.
  - intros Hp. by apply not_elem_of_nil in Hp.
Qed.

(** After the spread the [windFarm] of a collected period is still the
    name, so reading [.name] from it gives undefined. *)
Lemma collected_dotName farms q :
  q ∈ snd (fold_left (analyzeFarm this getWindData) farms ([], [])) ->
  dotName (windFarm q) = None.
Proof.
  intros Hq. apply collected_elem in Hq as (j & farm & p & _ & Hp & ->).
  simpl. by rewrite (periodsOf_windFarm farm p Hp).
Qed.
End Sites.

(** The record of a date whose periods all carry a farm name. *)
Lemma dayOf_names d ps :
  ps <> [] ->
  Forall (fun p => dotName (windFarm p) = None) ps ->
  dayOf (d, ps)
  = [{| date := d;
        day_windFarms := [None];
        windFarmCount := 1;
        day_periods := ps;
        day_totalDuration := sumQ (map durationHours ps);
        day_maxWindSpeed := maxOf (map maxWindSpeed ps) |}].
Proof.
  intros Hne Hall. unfold dayOf.
  rewrite (setFrom_constant None).
  - done.
  - by destruct ps.
  - rewrite Forall_forall. intros y Hy.
    apply list_elem_of_fmap in Hy as (p & -> & Hp).
    rewrite Forall_forall in Hall. by apply Hall.
Qed.

Lemma days_elem byDate day :
  day ∈ findNZStrongWindDays byDate
  <-> exists entry, entry ∈ byDate /\ day ∈ dayOf entry.
Proof.
  unfold findNZStrongWindDays. rewrite sortBy_elem.
  rewrite list_elem_of_In, in_concat. split.
  - intros (l & Hl & Hd). apply in_map_iff in Hl as (entry & <- & He).
    exists entry. by rewrite !list_elem_of_In.
  - intros (entry & He & Hd). exists (dayOf entry). split.
    + apply in_map_iff. exists entry. split; [done|]. by apply list_elem_of_In.
    + by apply list_elem_of_In.
Qed.
End Aggregation.


Lemma analyze_days lt this getWindData :
  StrongWindPeriodsService.nzStrongWindDays
    (StrongWindPeriodsService.analyzeStrongWindPeriods lt this getWindData)
  = StrongWindPeriodsService.findNZStrongWindDays
      (StrongWindPeriodsService.groupPeriodsByDate lt
         (sortBy (fun a b => diffMillis (StrongWindPeriodsService.startTime a)
                               (StrongWindPeriodsService.startTime b))
            (snd (fold_left
                    (StrongWindPeriodsService.analyzeFarm this getWindData)
                    (StrongWindPeriodsService.windFarms this) ([], []))))).
Proof.
  unfold StrongWindPeriodsService.analyzeStrongWindPeriods.
  by destruct (fold_left _ _ _).
Qed.

(** The record of a date of the grouped, collected periods. *)
Lemma grouped_day lt this getWindData d ps :
  (d, ps) ∈ StrongWindPeriodsService.groupPeriodsByDate lt
     (sortBy (fun a b => diffMillis (StrongWindPeriodsService.startTime a)
                           (StrongWindPeriodsService.startTime b))
        (snd (fold_left
                (StrongWindPeriodsService.analyzeFarm this getWindData)
                (StrongWindPeriodsService.windFarms this) ([], [])))) ->
  ps <> []
  /\ StrongWindPeriodsService.dayOf (d, ps)
     = [{| StrongWindPeriodsService.date := d;
           StrongWindPeriodsService.day_windFarms := [None];
           StrongWindPeriodsService.windFarmCount := 1;
           StrongWindPeriodsService.day_periods := ps;
           StrongWindPeriodsService.day_totalDuration :=
             sumQ (map StrongWindPeriodsService.durationHours ps);
           StrongWindPeriodsService.day_maxWindSpeed :=
             maxOf (map StrongWindPeriodsService.maxWindSpeed ps) |}].
Proof.
  intros He. destruct (Aggregation.group_sound lt _ d ps He) as [Hne Hall].
  split; [done|]. apply Aggregation.dayOf_names; [done|].
  rewrite Forall_forall. intros q Hq. destruct (Hall q Hq) as [Hin _].
  apply sortBy_elem in Hin.
  by apply Aggregation.collected_dotName in Hin.
Qed.

(** C10.  Every day record that the aggregation produces has
    [windFarmCount] 1 and the single value undefined for [windFarms],
    however many sites have periods that start on the date: the spread in
    the object literal leaves the farm name, a string, in [windFarm], and
    [.name] of a string is undefined. *)
Theorem day_record_counts_one_undefined lt this getWindData day :
  day ∈ StrongWindPeriodsService.nzStrongWindDays
          (StrongWindPeriodsService.analyzeStrongWindPeriods
             lt this getWindData) ->
  StrongWindPeriodsService.windFarmCount day = 1
  /\ StrongWindPeriodsService.day_windFarms day = [None]
  /\ StrongWindPeriodsService.day_periods day <> []
  /\ Forall (fun q => exists s, StrongWindPeriodsService.windFarm q = FarmName s)
       (StrongWindPeriodsService.day_periods day).
Proof.
  rewrite analyze_days. intros Hday.
  apply Aggregation.days_elem in Hday as ([d ps] & He & Hday).
  pose proof (Aggregation.group_sound lt _ d ps He) as [_ Hall].
  destruct (grouped_day lt this getWindData d ps He) as [Hne Hrec].
  rewrite Hrec in Hday. apply list_elem_of_singleton in Hday as ->. simpl.
  repeat split; try done.
  rewrite Forall_forall. intros q Hq. destruct (Hall q Hq) as [Hin _].
  apply sortBy_elem in Hin.
  apply Aggregation.collected_elem in Hin as (j & farm & p & _ & Hp & ->).
  exists (name farm). simpl.
  by apply (Aggregation.periodsOf_windFarm this getWindData).
Qed.


(** ** The time-periods service *)

Lemma fold_left_snoc_map {A B} (f : A -> B) (l : list A) (init : list B) :
  fold_left (fun acc x => acc ++ [f x]) l init = init ++ map f l.
Proof.
  revert init. induction l as [|x l IH]; intros init; simpl.
  - by rewrite app_nil_r.
  - by rewrite IH, <- app_assoc.
Qed.



(** ** The reading normalizer *)

(** C5, the statement of the specification fails: the response with a
    short array is turned into two readings, the speed that is not there
    being 0, and nothing is thrown. *)
Lemma short_array_is_accepted :
  lengthsDisagree shortResponse
  /\ WindDataService.getHistoricalData (Some shortResponse)
     = WindDataService.Returns
         [mkReading 0 30 (Some 40%Q) 90 (Some 50%Q) 10 80 1000;
          mkReading 3600000 0 (Some 41%Q) 91 (Some 51%Q) 11 81 1001]
  /\ ~ malformedIsRefused.
Proof.
  assert (Hdis : lengthsDisagree shortResponse).
  { exists 0%nat, 1%nat, [Some 30%Q], [Some 40%Q; Some 41%Q].
    repeat split. simpl. lia. }
  split; [exact Hdis|]. split; [reflexivity|].
  intros Hclaim. destruct (Hclaim shortResponse (or_introl Hdis)) as [e He].
  discriminate He.
Qed.

(** The same for timestamps that do not increase. *)
Example backward_axis_is_accepted :
  ~ Sorted Z.lt (timeAxis backwardResponse)
  /\ WindDataService.getHistoricalData (Some backwardResponse)
     = WindDataService.Returns
         [mkReading 7200000 30 (Some 40%Q) 90 (Some 50%Q) 10 80 1000;
          mkReading 3600000 31 (Some 41%Q) 91 (Some 51%Q) 11 81 1001].
Proof.
  split; [|reflexivity].
  intros Hs. apply Sorted_inv in Hs as [_ Hhd].
  apply HdRel_inv in Hhd. vm_compute in Hhd. discriminate Hhd.
Qed.

(** C5 as the code has it.  The normalizer never fails: whatever the
    response, the caller gets a sequence of readings.  When the response
    can be processed there is one reading for each step of the time axis,
    and a value that its array has not got (the array is too short, or the
    value is NaN) is 0.  When the fetch or the processing throws, the
    sequence is empty. *)
Theorem normalizer_never_fails :
  (forall fetched, exists readings,
      WindDataService.getHistoricalData fetched
      = WindDataService.Returns readings)
  /\ (forall r readings,
         WindDataService.formattedData r = Some readings ->
         WindDataService.getHistoricalData (Some r)
         = WindDataService.Returns readings
         /\ WindDataService.arrayLength r = Some (length readings)
         /\ forall i reading,
             readings !! i = Some reading ->
             timestamp reading
             = (WindDataService.time r
                + Z.of_nat i * WindDataService.interval r
                + WindDataService.utcOffsetSeconds r) * 1000
             /\ (forall values,
                    WindDataService.variables r !! 0%nat = Some values ->
                    windSpeedKmh reading
                    = orZero (mjoin (values !! i))
                    /\ ((length values <= i)%nat ->
                        windSpeedKmh reading = 0%Q))
             /\ (forall values,
                    WindDataService.variables r !! 1%nat = Some values ->
                    windSpeed100mKmh reading
                    = Some (orZero (mjoin (values !! i)))))
  /\ (forall fetched,
         fetched ≫= WindDataService.formattedData = None ->
         WindDataService.getHistoricalData fetched
         = WindDataService.Returns []).
Proof.
  split; [|split].
  - intros fetched. unfold WindDataService.getHistoricalData.
    destruct (fetched ≫= _); by eexists.
  - intros r readings Hfmt.
    split; [unfold WindDataService.getHistoricalData; simpl; by rewrite Hfmt|].
    unfold WindDataService.formattedData, WindDataService.valuesArray in Hfmt.
    destruct (WindDataService.arrayLength r) as [n|]; [|done].
    simpl in Hfmt.
    destruct (WindDataService.variables r !! 0%nat) as [v0|]; [|done].
    destruct (WindDataService.variables r !! 1%nat) as [v1|]; [|done].
    destruct (WindDataService.variables r !! 2%nat) as [v2|]; [|done].
    destruct (WindDataService.variables r !! 3%nat) as [v3|]; [|done].
    destruct (WindDataService.variables r !! 4%nat) as [v4|]; [|done].
    destruct (WindDataService.variables r !! 5%nat) as [v5|]; [|done].
    destruct (WindDataService.variables r !! 6%nat) as [v6|]; [|done].
    destruct (WindDataService.variables r !! 7%nat) as [v7|]; [|done].
    simpl in Hfmt. apply mapM_Some_1 in Hfmt.
    pose proof (Forall2_length _ _ _ Hfmt) as Hlen.
    rewrite length_seq in Hlen. split; [by rewrite Hlen|].
    intros i reading Hi.
    destruct (Forall2_lookup_r _ _ _ i reading Hfmt Hi) as (k & Hk & Hmk).
    apply lookup_seq in Hk as [-> _]. simpl in Hmk.
    unfold WindDataService.toISOString in Hmk.
    destruct (Z.abs _ <=? _); [|done]. simpl in Hmk.
    injection Hmk as <-. simpl. split; [done|]. split.
    + intros values [= <-]. split; [done|]. intros Hshort.
      unfold WindDataService.valueAt.
      by rewrite (lookup_ge_None_2 v0 i Hshort).
    + by intros values [= <-].
  - intros fetched Hnone. unfold WindDataService.getHistoricalData.
    by rewrite Hnone.
Qed.

(** ** The properties at sample inputs *)

Example utc_new_year :
  formatDay Utc.clock Samples.newYear = "2024-01-01"%string
  /\ hour Utc.clock (Samples.newYear + 5 * 3600000) = 5.
Proof. split; reflexivity. Qed.

(** C3 at the sample [gust] with a minimum of 0 (its run of two hours is
    emitted), and the count under minima 1 and 3. *)
Lemma minimum_duration_filter_witness :
  ((0 : Q) == 0)%Q
  /\ ordered Samples.gust
  /\ (1 <= 3)%Q
  /\ (exists ps p,
         StrongWindPeriodsService.findStrongWindPeriods
           (withMinimum Samples.service 0) Samples.gust
           Samples.farmA = Some ps
         /\ p ∈ ps
         /\ StrongWindPeriodsService.readings p
            = [Samples.at_ 1 66 70 90; Samples.at_ 2 61 65 180])
  /\ (exists ps1 ps2,
         StrongWindPeriodsService.findStrongWindPeriods
           (withMinimum Samples.service 1) Samples.gust
           Samples.farmA = Some ps1
         /\ StrongWindPeriodsService.findStrongWindPeriods
              (withMinimum Samples.service 3) Samples.gust
              Samples.farmA = Some ps2
         /\ (length ps2 <= length ps1)%nat).
Proof.
  assert (H0 : ((0 : Q) == 0)%Q) by reflexivity.
  assert (Hord : ordered Samples.gust).
  { unfold ordered. simpl. repeat (constructor; try done). }
  assert (Hle : (1 <= 3)%Q) by done.
  split; [exact H0|]. split; [exact Hord|]. split; [exact Hle|].
  destruct minimum_duration_filter as (Hhub & _ & Hanti & _).
  split.
  - apply (Hhub (withMinimum Samples.service 0) Samples.farmA
             [Samples.at_ 0 45 50 0]
             [Samples.at_ 1 66 70 90; Samples.at_ 2 61 65 180]
             [Samples.at_ 3 30 40 270]).
    + exact H0.
    + exact Hord.
    + split; [done|]. split; [repeat (constructor; try done)|].
      split; intros x [= <-]; done.
  - destruct (Hanti Samples.service Samples.farmA Samples.gust 1%Q 3%Q Hle)
      as (ps1 & ps2 & H1 & H2 & _ & Hlen).
    exists ps1, ps2. split; [exact H1|]. split; [exact H2|exact Hlen].
Defined.


(** C5 as amended, at the sample response. *)
Lemma normalizer_never_fails_witness :
  WindDataService.formattedData shortResponse
  = Some [mkReading 0 30 (Some 40%Q) 90 (Some 50%Q) 10 80 1000;
          mkReading 3600000 0 (Some 41%Q) 91 (Some 51%Q) 11 81 1001]
  /\ WindDataService.getHistoricalData (Some shortResponse)
     = WindDataService.Returns
         [mkReading 0 30 (Some 40%Q) 90 (Some 50%Q) 10 80 1000;
          mkReading 3600000 0 (Some 41%Q) 91 (Some 51%Q) 11 81 1001]
  /\ WindDataService.arrayLength shortResponse = Some 2%nat.
Proof.
  assert (Hfmt : WindDataService.formattedData shortResponse
                 = Some [mkReading 0 30 (Some 40%Q) 90 (Some 50%Q) 10 80 1000;
                         mkReading 3600000 0 (Some 41%Q) 91 (Some 51%Q)
                           11 81 1001]) by reflexivity.
  split; [exact Hfmt|].
  destruct (proj1 (proj2 normalizer_never_fails) shortResponse _ Hfmt)
    as (Hget & Hlen & _).
  split; [exact Hget|exact Hlen].
Defined.

(** C6 at the sample [gust]. *)
Lemma bucket_counts_add_up_witness :
  Forall (fun r => (0 <= windDirection r)%Q) Samples.gust
  /\ (exists m,
         WindAnalysisService.calculateHourlyDistribution Utc.clock
           WindAnalysisService.constructor Samples.gust = Some m
         /\ totalCount (fun b => WindAnalysisService.h_count
                                   (WindAnalysisService.h_stats b)) m = 4)
  /\ (exists m,
         WindAnalysisService.calculateWindRose
           WindAnalysisService.constructor Samples.gust = Some m
         /\ totalCount (fun b => WindAnalysisService.r_count
                                   (WindAnalysisService.r_stats b)) m = 4).
Proof.
  assert (Hdirs : Forall (fun r => (0 <= windDirection r)%Q) Samples.gust).
  { repeat (constructor; [by vm_compute|]). constructor. }
  split; [exact Hdirs|].
  destruct bucket_counts_add_up as (Hhourly & _ & Hrose).
  split.
  - destruct (Hhourly Utc.clock WindAnalysisService.constructor Samples.gust)
      as (m & Hm & _ & _ & Hsum).
    by exists m.
  - destruct (Hrose WindAnalysisService.constructor Samples.gust Hdirs)
      as (m & Hm & _ & _ & Hsum).
    by exists m.
Defined.

(** C7 at 100 degrees, which lies in sector E. *)
Lemma direction_sector_total_witness :
  (0 <= 100)%Q /\ (100 <= 360)%Q
  /\ exists i name,
      i = jsRem (mathRound (100 / (45 # 2))) 16
      /\ 0 <= i < 16
      /\ WindAnalysisService.getWindDirection 100 = Some name.
Proof.
  assert (H0 : (0 <= 100)%Q) by done.
  assert (H360 : (100 <= 360)%Q) by done.
  split; [exact H0|]. split; [exact H360|].
  destruct (proj1 direction_sector_total 100%Q H0 H360)
    as (i & name & Hi & Hrange & _ & Hname & _).
  by exists i, name.
Defined.


Example window_average_sample :
  TimePeriodsAnalysisService.averageSpeeds
    (TimePeriodsAnalysisService.analyzeWindFarmForTimePeriods
       Samples.fetch Samples.farmA [Samples.firstTwoHours])
  = [Some (70 # 2)%Q].
Proof. reflexivity. Qed.

(** Strong wind at both farms on the same day: one day record, and it
    counts one farm. *)
Example two_sites_count_one :
  map (fun day => (StrongWindPeriodsService.date day,
                   StrongWindPeriodsService.windFarmCount day,
                   StrongWindPeriodsService.day_windFarms day,
                   length (StrongWindPeriodsService.day_periods day)))
      (StrongWindPeriodsService.nzStrongWindDays
         (StrongWindPeriodsService.analyzeStrongWindPeriods
            Utc.clock Samples.service Samples.bothSites))
  = [("2024-01-01"%string, 1, [None], 2%nat)].
Proof. vm_compute. reflexivity. Qed.

(** C10 at the two farms of the sample, both with strong wind. *)
Lemma day_record_counts_one_undefined_witness :
  exists day,
    day ∈ StrongWindPeriodsService.nzStrongWindDays
            (StrongWindPeriodsService.analyzeStrongWindPeriods
               Utc.clock Samples.service Samples.bothSites)
    /\ length (StrongWindPeriodsService.day_periods day) = 2%nat
    /\ StrongWindPeriodsService.windFarmCount day = 1
    /\ StrongWindPeriodsService.day_windFarms day = [None].
Proof.
  assert (Hex : exists day,
             StrongWindPeriodsService.nzStrongWindDays
               (StrongWindPeriodsService.analyzeStrongWindPeriods
                  Utc.clock Samples.service Samples.bothSites) = [day]
             /\ length (StrongWindPeriodsService.day_periods day) = 2%nat).
  { eexists. split; vm_compute; reflexivity. }
  destruct Hex as (day & Hdays & Hlen).
  assert (Hin : day ∈ StrongWindPeriodsService.nzStrongWindDays
                        (StrongWindPeriodsService.analyzeStrongWindPeriods
                           Utc.clock Samples.service Samples.bothSites)).
  { rewrite Hdays. by left. }
  destruct (day_record_counts_one_undefined Utc.clock Samples.service
              Samples.bothSites day Hin) as (Hcount & Hfarms & _ & _).
  exists day. split; [exact Hin|]. split; [exact Hlen|by split].
Defined.

(** One site with strong wind on 2024-01-01 and one calm site: the day
    record counts one site, and the one element of its set of names is
    undefined, where the name "West Wind" was to be. *)
Example one_site_is_named_undefined :
  map (fun day => (StrongWindPeriodsService.date day,
                   StrongWindPeriodsService.windFarmCount day,
                   StrongWindPeriodsService.day_windFarms day))
      (StrongWindPeriodsService.nzStrongWindDays
         (StrongWindPeriodsService.analyzeStrongWindPeriods
            Utc.clock Samples.service Samples.oneSite))
  = [("2024-01-01"%string, 1, [None])].
Proof. vm_compute. reflexivity. Qed.


(** * Further properties of the services *)

(** ** Sorting *)

Lemma insertSorted_Sorted {A} (cmp : A -> A -> Z) (x : A) (l : list A) :
  (forall a b, cmp a b <= 0 \/ cmp b a <= 0) ->
  Sorted (fun a b => cmp a b <= 0) l ->
  Sorted (fun a b => cmp a b <= 0) (insertSorted cmp x l).
Proof.
  intros Htotal. induction l as [|y l IH]; intros Hs; simpl.
  - by repeat constructor.
  - destruct (cmp x y <=? 0) eqn:E.
    + apply Z.leb_le in E. constructor; [done|]. by constructor.
    + apply Z.leb_gt in E.
      apply Sorted_inv in Hs as [Hs Hhd]. constructor; [by apply IH|].
      destruct l as [|z l]; simpl.
      * constructor. destruct (Htotal x y); [lia|done].
      * destruct (cmp x z <=? 0).
        -- constructor. destruct (Htotal x y); [lia|done].
        -- constructor. by apply HdRel_inv in Hhd.
Qed.

Lemma sortBy_Sorted {A} (cmp : A -> A -> Z) (l : list A) :
  (forall a b, cmp a b <= 0 \/ cmp b a <= 0) ->
  Sorted (fun a b => cmp a b <= 0) (sortBy cmp l).
Proof.
  intros Htotal. induction l as [|x l IH]; simpl; [constructor|].
  by apply insertSorted_Sorted.
Qed.

Lemma sortBy_length {A} (cmp : A -> A -> Z) (l : list A) :
  length (sortBy cmp l) = length l.
Proof. by rewrite sortBy_Permutation. Qed.

(** ** The detectors: what a period holds *)

Lemma hub_scan_state this farm data :
  Forall (fun p =>
            exists first rest e,
              p = StrongWindPeriodsService.close (hub_openRun farm first rest) e
              /\ geq (diffHours e (timestamp first))
                     (StrongWindPeriodsService.minimumDurationHours this) = true)
         (fst (fold_left (StrongWindPeriodsService.step this farm) data
                 ([], None)))
  /\ forall cp,
      snd (fold_left (StrongWindPeriodsService.step this farm) data ([], None))
      = Some cp ->
      exists first rest, cp = hub_openRun farm first rest.
Proof.
  apply (fold_left_invariant
    (fun st : list StrongWindPeriodsService.Period
              * option StrongWindPeriodsService.OpenPeriod =>
       Forall (fun p =>
                 exists first rest e,
                   p = StrongWindPeriodsService.close
                         (hub_openRun farm first rest) e
                   /\ geq (diffHours e (timestamp first))
                          (StrongWindPeriodsService.minimumDurationHours this)
                      = true) (fst st)
       /\ forall cp, snd st = Some cp ->
            exists first rest, cp = hub_openRun farm first rest)).
  - split; [constructor|done].
  - intros [ps cur] x [Hps Hcur]. simpl in Hps, Hcur.
    unfold StrongWindPeriodsService.step.
    destruct (StrongWindPeriodsService.isStrongWind this x), cur as [cp|];
      simpl; split; try done.
    + intros ? [= <-]. destruct (Hcur cp eq_refl) as (first & rest & ->).
      exists first, (rest ++ [x]). unfold hub_openRun. simpl.
      by rewrite map_app, fold_left_app.
    + intros ? [= <-]. by exists x, [].
    + unfold StrongWindPeriodsService.pushIfLongEnough.
      destruct (geq _ _) eqn:E; [|done].
      apply Forall_app. split; [done|]. constructor; [|constructor].
      destruct (Hcur cp eq_refl) as (first & rest & ->).
      by exists first, rest, (timestamp x).
Qed.

(** ** Sums of rationals *)

Lemma sumQ_from (xs : list Q) (a : Q) :
  (fold_left Qplus xs a == a + sumQ xs)%Q.
Proof.
  unfold sumQ. revert a. induction xs as [|x xs IH]; intros a; cbn [fold_left].
  - lra.
  - rewrite (IH (a + x)%Q), (IH (0 + x)%Q). lra.
Qed.

Lemma sumQ_cons (x : Q) (xs : list Q) : (sumQ (x :: xs) == x + sumQ xs)%Q.
Proof. unfold sumQ at 1. cbn [fold_left]. rewrite sumQ_from. lra. Qed.

Lemma inject_Z_length_pos {A} (xs : list A) :
  xs <> [] -> (0 < inject_Z (Z.of_nat (length xs)))%Q.
Proof.
  intros Hne. change 0%Q with (inject_Z 0). rewrite <- Zlt_Qlt.
  destruct xs; [done|simpl; lia].
Qed.

Lemma sumQ_nonneg (xs : list Q) :
  Forall (fun x => (0 <= x)%Q) xs -> (0 <= sumQ xs)%Q.
Proof.
  induction 1 as [|x xs Hx _ IH].
  - apply Qle_refl.
  - rewrite sumQ_cons. lra.
Qed.

Lemma hub_find_state this farm data ps :
  StrongWindPeriodsService.findStrongWindPeriods this data farm = Some ps ->
  Forall (fun p =>
            exists first rest e,
              p = StrongWindPeriodsService.close (hub_openRun farm first rest) e
              /\ geq (diffHours e (timestamp first))
                     (StrongWindPeriodsService.minimumDurationHours this) = true)
         ps.
Proof.
  unfold StrongWindPeriodsService.findStrongWindPeriods. intros H.
  destruct (hub_scan_state this farm data) as [Hps Hcur].
  destruct (fold_left _ data _) as [qs cur]. simpl in Hps, Hcur.
  unfold StrongWindPeriodsService.atEndOfData in H.
  destruct cur as [cp|]; [|by injection H as <-].
  destruct (last data) as [r|]; [|done]. injection H as <-.
  unfold StrongWindPeriodsService.pushIfLongEnough.
  destruct (geq _ _) eqn:E; [|done].
  apply Forall_app. split; [done|]. constructor; [|constructor].
  destruct (Hcur cp eq_refl) as (first & rest & ->).
  by exists first, rest, (timestamp r).
Qed.

(** X1.  The hub-height detector returns on every input, and every period
    it returns is at least as long as the minimum duration; its duration is
    the time from its start to its end; it carries the name of the farm; it
    starts at its first reading; every reading of it is at or above the
    threshold and at most the maximum of the period, which is the speed of
    one of its readings; and its average is the mean of the speeds of its
    readings. *)
Theorem hub_periods_are_well_formed this data farm :
  exists ps,
    StrongWindPeriodsService.findStrongWindPeriods this data farm = Some ps
    /\ Forall (hub_periodOk this farm) ps.
Proof.
  destruct (HubDetector.hub_findStrongWindPeriods_total this farm data)
    as [ps Hps].
  exists ps. split; [done|].
  pose proof (hub_find_state this farm data ps Hps) as Hstate.
  pose proof (HubDetector.hub_findStrongWindPeriods_sound this farm data ps Hps)
    as Hsound.
  apply Forall_forall. intros p Hp.
  rewrite Forall_forall in Hstate, Hsound.
  destruct (Hstate p Hp) as (first & rest & e & -> & Hlong).
  destruct (Hsound _ Hp) as (suf & (_ & _ & Hstrong) & _).
  simpl in Hstrong.
  destruct (HubDetector.hub_openRun_max farm first rest) as [Hmax Hwit].
  assert (Hall : Forall (fun r =>
            (StrongWindPeriodsService.strongWindThreshold this
             <= StrongWindPeriodsService.speed100 r
             <= StrongWindPeriodsService.o_maxWindSpeed
                  (hub_openRun farm first rest))%Q) (first :: rest)).
  { apply Forall_forall. intros r Hr.
    rewrite Forall_forall in Hmax, Hstrong. split; [|by apply Hmax].
    apply geq_true. by apply Hstrong. }
  unfold hub_periodOk.
  split; [by apply geq_true|]. split; [done|]. split; [done|].
  split; [by exists first, rest|]. split; [exact Hall|].
  split; [exact Hwit|done].
Qed.

(** ** The detectors: the periods share no reading *)

Lemma filter_snoc {A} (f : A -> bool) (l : list A) (x : A) :
  List.filter f (l ++ [x]) = List.filter f l ++ (if f x then [x] else []).
Proof. rewrite List.filter_app. simpl. by destruct (f x). Qed.

Lemma ref_scan_partition this data :
  concat (map WindAnalysisService.readings
            (fst (fold_left (WindAnalysisService.step this) data ([], None))))
  ++ openReadings WindAnalysisService.o_readings
       (snd (fold_left (WindAnalysisService.step this) data ([], None)))
  = List.filter (WindAnalysisService.isStrongWind this) data.
Proof.
  induction data as [|x data IH] using rev_ind; [done|].
  rewrite fold_left_app, filter_snoc, <- IH. cbn [fold_left].
  destruct (fold_left _ data _) as [ps cur].
  unfold WindAnalysisService.step.
  destruct (WindAnalysisService.isStrongWind this x), cur as [cp|]; simpl.
  - by rewrite app_assoc.
  - by rewrite app_nil_r.
  - by rewrite map_app, concat_app; simpl; rewrite !app_nil_r.
  - by rewrite !app_nil_r.
Qed.

Lemma ref_find_partition this data ps :
  WindAnalysisService.findStrongWindPeriods this data = Some ps ->
  concat (map WindAnalysisService.readings ps)
  = List.filter (WindAnalysisService.isStrongWind this) data.
Proof.
  intros Hps. pose proof (ref_scan_partition this data) as Hpart.
  unfold WindAnalysisService.findStrongWindPeriods in Hps.
  destruct (fold_left _ data _) as [qs cur]. simpl in Hpart.
  unfold WindAnalysisService.atEndOfData in Hps.
  destruct cur as [cp|].
  - destruct (last data) as [r|]; [|done]. injection Hps as <-.
    rewrite map_app, concat_app. simpl. by rewrite app_nil_r.
  - injection Hps as <-. simpl in Hpart. by rewrite app_nil_r in Hpart.
Qed.

Lemma concat_nil_inv {A} (ls : list (list A)) :
  Forall (fun l => l <> []) ls -> concat ls = [] -> ls = [].
Proof.
  destruct ls as [|l ls]; [done|]. intros Hne Hnil.
  apply Forall_cons in Hne as [Hl _]. simpl in Hnil.
  by apply app_eq_nil in Hnil as [-> _].
Qed.

Lemma countIf_length {A} (f : A -> bool) (l : list A) :
  countIf f l = Z.of_nat (length (List.filter f l)).
Proof. done. Qed.

(** X2.  The reference-height detector returns on every input; laid end to
    end, the readings of its periods are the readings at or above the
    threshold, in the order of the data: no such reading is left out and
    none is in two periods.  The number of strong-wind readings of the
    summary is therefore the number of readings of the periods, and there
    is no period exactly when that number is 0. *)
Theorem ref_periods_partition this data :
  exists ps,
    WindAnalysisService.findStrongWindPeriods this data = Some ps
    /\ concat (map WindAnalysisService.readings ps)
       = List.filter (WindAnalysisService.isStrongWind this) data
    /\ WindAnalysisService.strongWindReadings
         (WindAnalysisService.calculateSummary this data)
       = Z.of_nat (length (concat (map WindAnalysisService.readings ps)))
    /\ (ps = [] <->
        WindAnalysisService.strongWindReadings
          (WindAnalysisService.calculateSummary this data) = 0).
Proof.
  destruct (RefDetector.ref_findStrongWindPeriods_total this data) as [ps Hps].
  exists ps. split; [done|].
  pose proof (ref_find_partition this data ps Hps) as Hcat.
  split; [done|]. simpl. rewrite countIf_length, <- Hcat. split; [done|].
  split.
  - by intros ->.
  - intros Hzero. apply (fmap_nil_inv WindAnalysisService.readings).
    apply concat_nil_inv.
    + pose proof (RefDetector.ref_findStrongWindPeriods_sound this data ps Hps)
        as Hsound.
      apply Forall_fmap. eapply Forall_impl; [exact Hsound|].
      by intros p (suf & (_ & Hne & _) & _).
    + apply nil_length_inv, Nat2Z.inj. exact Hzero.
Qed.

Lemma hub_scan_sublist_filter this farm data :
  concat (map StrongWindPeriodsService.readings
            (fst (fold_left (StrongWindPeriodsService.step this farm) data
                    ([], None))))
  ++ openReadings StrongWindPeriodsService.o_readings
       (snd (fold_left (StrongWindPeriodsService.step this farm) data
               ([], None)))
  `sublist_of` List.filter (StrongWindPeriodsService.isStrongWind this) data.
Proof.
  induction data as [|x data IH] using rev_ind; [done|].
  rewrite fold_left_app, filter_snoc. cbn [fold_left].
  destruct (fold_left _ data _) as [ps cur]. simpl in IH.
  unfold StrongWindPeriodsService.step,
    StrongWindPeriodsService.pushIfLongEnough.
  destruct (StrongWindPeriodsService.isStrongWind this x), cur as [cp|]; simpl.
  - rewrite app_assoc. by apply sublist_app.
  - rewrite app_nil_r in IH. by apply sublist_app.
  - rewrite !app_nil_r. destruct (geq _ _).
    + rewrite map_app, concat_app. simpl. by rewrite app_nil_r.
    + etrans; [|exact IH]. by apply sublist_inserts_r.
  - rewrite !app_nil_r. by rewrite app_nil_r in IH.
Qed.

(** X3.  Laid end to end, the readings of the periods of the hub-height
    detector are a subsequence of the readings at or above the threshold:
    the periods come in the order of the data and no reading is in two of
    them.  The periods hold at most as many readings as the data has at or
    above the threshold. *)
Theorem hub_periods_do_not_overlap this data farm :
  exists ps,
    StrongWindPeriodsService.findStrongWindPeriods this data farm = Some ps
    /\ concat (map StrongWindPeriodsService.readings ps)
       `sublist_of`
       List.filter (StrongWindPeriodsService.isStrongWind this) data
    /\ Z.of_nat (length (concat (map StrongWindPeriodsService.readings ps)))
       <= countIf (StrongWindPeriodsService.isStrongWind this) data.
Proof.
  destruct (HubDetector.hub_findStrongWindPeriods_total this farm data)
    as [ps Hps].
  exists ps. split; [done|].
  assert (Hsub : concat (map StrongWindPeriodsService.readings ps)
                 `sublist_of`
                 List.filter (StrongWindPeriodsService.isStrongWind this) data).
  { pose proof (hub_scan_sublist_filter this farm data) as Hpart.
    unfold StrongWindPeriodsService.findStrongWindPeriods in Hps.
    destruct (fold_left _ data _) as [qs cur]. simpl in Hpart.
    unfold StrongWindPeriodsService.atEndOfData in Hps.
    destruct cur as [cp|].
    - destruct (last data) as [r|]; [|done]. injection Hps as <-.
      unfold StrongWindPeriodsService.pushIfLongEnough.
      destruct (geq _ _).
      + rewrite map_app, concat_app. simpl. by rewrite app_nil_r.
      + etrans; [|exact Hpart]. by apply sublist_inserts_r.
    - injection Hps as <-. simpl in Hpart. by rewrite app_nil_r in Hpart. }
  split; [done|]. rewrite countIf_length.
  apply Nat2Z.inj_le. by apply sublist_length.
Qed.

(** ** The two copies of the reference-height detector *)

Lemma multi_step_agrees this ps cur x :
  MultiLocationEvent.step (WindAnalysisService.strongWindThreshold this)
    (map forget ps, forgetOpen <$> cur) x
  = (map forget (fst (WindAnalysisService.step this (ps, cur) x)),
     forgetOpen <$> snd (WindAnalysisService.step this (ps, cur) x)).
Proof.
  unfold MultiLocationEvent.step, WindAnalysisService.step,
    WindAnalysisService.isStrongWind.
  destruct (geq _ _), cur as [cp|]; simpl; try done.
  by rewrite map_app.
Qed.

Lemma multi_scan_agrees this data ps cur :
  fold_left
    (MultiLocationEvent.step (WindAnalysisService.strongWindThreshold this))
    data (map forget ps, forgetOpen <$> cur)
  = (map forget (fst (fold_left (WindAnalysisService.step this) data (ps, cur))),
     forgetOpen
       <$> snd (fold_left (WindAnalysisService.step this) data (ps, cur))).
Proof.
  revert ps cur. induction data as [|x data IH]; intros ps cur; [done|].
  cbn [fold_left]. rewrite multi_step_agrees.
  destruct (WindAnalysisService.step this (ps, cur) x) as [ps' cur'].
  apply IH.
Qed.

Lemma multi_find_agrees this data :
  MultiLocationEvent.findStrongWindPeriods data
    (WindAnalysisService.strongWindThreshold this)
  = map forget <$> WindAnalysisService.findStrongWindPeriods this data.
Proof.
  unfold MultiLocationEvent.findStrongWindPeriods,
    WindAnalysisService.findStrongWindPeriods.
  change (fold_left
            (MultiLocationEvent.step
               (WindAnalysisService.strongWindThreshold this)) data ([], None))
    with (fold_left
            (MultiLocationEvent.step
               (WindAnalysisService.strongWindThreshold this)) data
            (map forget [], forgetOpen <$> None)).
  rewrite multi_scan_agrees.
  destruct (fold_left _ data _) as [ps cur]. simpl.
  destruct cur as [cp|]; simpl; [|done].
  destruct (last data) as [r|]; simpl; [|done].
  by rewrite map_app.
Qed.

(** X4.  The detector of the multi-location service, called with the
    threshold of the single-location service, finds the periods that the
    detector of that service finds: the same starts, ends, durations,
    readings, maxima and averages, in the same order. *)
Theorem multi_detector_agrees this data :
  MultiLocationEvent.findStrongWindPeriods data
    (WindAnalysisService.strongWindThreshold this)
  = map forget <$> WindAnalysisService.findStrongWindPeriods this data.
Proof. apply multi_find_agrees. Qed.

(** ** Counts and shares *)

Lemma countIf_nonneg {A} (f : A -> bool) (l : list A) : 0 <= countIf f l.
Proof. unfold countIf. lia. Qed.

Lemma countIf_le_length {A} (f : A -> bool) (l : list A) :
  countIf f l <= Z.of_nat (length l).
Proof. unfold countIf. apply Nat2Z.inj_le, List.filter_length_le. Qed.

Lemma countIf_mono {A} (f g : A -> bool) (l : list A) :
  (forall x, f x = true -> g x = true) -> countIf f l <= countIf g l.
Proof.
  intros Himp. unfold countIf. apply Nat2Z.inj_le.
  induction l as [|x l IH]; simpl; [done|].
  destruct (f x) eqn:E.
  - rewrite (Himp x E). simpl. lia.
  - destruct (g x); simpl; lia.
Qed.

Lemma countIf_cons {A} (f : A -> bool) (x : A) (l : list A) :
  countIf f (x :: l) = (if f x then 1 else 0) + countIf f l.
Proof. unfold countIf. simpl. destruct (f x); simpl length; lia. Qed.

Lemma inject_Z_nonzero (n : Z) : 0 < n -> Qeq_bool (inject_Z n) 0 = false.
Proof.
  intros Hn. destruct (Qeq_bool _ _) eqn:E; [|done].
  apply Qeq_bool_iff in E. unfold Qeq in E. simpl in E. lia.
Qed.

Lemma perCount_pos (total : Q) (count : Z) :
  0 < count -> perCount total count = fin (total / inject_Z count).
Proof.
  intros Hn. unfold perCount, fdiv, fin. by rewrite inject_Z_nonzero.
Qed.

Lemma share_le (a b n : Z) :
  0 < n -> a <= b ->
  (inject_Z a / inject_Z n * 100 <= inject_Z b / inject_Z n * 100)%Q.
Proof.
  intros Hn Hab. unfold Qdiv.
  apply Qmult_le_compat_r; [|done].
  apply Qmult_le_compat_r; [by rewrite <- Zle_Qle|].
  apply Qinv_le_0_compat. change 0%Q with (inject_Z 0).
  rewrite <- Zle_Qle. lia.
Qed.

Lemma share_bounds (a b n : Z) :
  0 < n -> 0 <= a -> a <= b -> b <= n ->
  (0 <= inject_Z a / inject_Z n * 100)%Q
  /\ (inject_Z a / inject_Z n * 100 <= inject_Z b / inject_Z n * 100)%Q
  /\ (inject_Z b / inject_Z n * 100 <= 100)%Q.
Proof.
  intros Hn H0 Hab Hbn.
  assert (Hnz : ~ (inject_Z n == 0)%Q).
  { intros E. unfold Qeq in E. simpl in E. lia. }
  split; [|split].
  - eapply Qle_trans; [|exact (share_le 0 a n Hn H0)].
    unfold Qdiv. rewrite Qmult_0_l. apply Qle_refl.
  - by apply share_le.
  - eapply Qle_trans; [exact (share_le b n n Hn Hbn)|].
    apply Qle_lteq. right. field. exact Hnz.
Qed.

Lemma length_pos {A} (l : list A) : l <> [] -> 0 < Z.of_nat (length l).
Proof. destruct l; [done|simpl; lia]. Qed.

(** ** The summary of the single-location service *)

(** X5.  With the threshold of strong wind at most that of extreme wind,
    the summary counts at most as many extreme readings as strong ones and
    at most as many strong ones as readings; for data that is not empty the
    two percentages are numbers between 0 and 100, the extreme one at most
    the strong one. *)
Theorem summary_counts_are_nested this data :
  (WindAnalysisService.strongWindThreshold this
   <= WindAnalysisService.extremeWindThreshold this)%Q ->
  let s := WindAnalysisService.calculateSummary this data in
  0 <= WindAnalysisService.extremeWindReadings s
  /\ WindAnalysisService.extremeWindReadings s
     <= WindAnalysisService.strongWindReadings s
  /\ WindAnalysisService.strongWindReadings s
     <= WindAnalysisService.totalReadings s
  /\ (data <> [] ->
      exists strong extreme,
        WindAnalysisService.strongWindPercentage s = fin strong
        /\ WindAnalysisService.extremeWindPercentage s = fin extreme
        /\ (0 <= extreme)%Q /\ (extreme <= strong)%Q /\ (strong <= 100)%Q).
Proof.
  intros Hth. simpl.
  assert (Hnest : countIf (WindAnalysisService.isExtremeWind this) data
                  <= countIf (WindAnalysisService.isStrongWind this) data).
  { apply countIf_mono. intros x.
    unfold WindAnalysisService.isExtremeWind, WindAnalysisService.isStrongWind.
    rewrite !geq_true. intros Hx. by eapply Qle_trans. }
  pose proof (countIf_nonneg (WindAnalysisService.isExtremeWind this) data).
  pose proof (countIf_le_length (WindAnalysisService.isStrongWind this) data).
  split; [done|]. split; [done|]. split; [done|].
  intros Hne. pose proof (length_pos data Hne) as Hpos.
  rewrite !perCount_pos by done. simpl.
  eexists _, _. split; [reflexivity|]. split; [reflexivity|].
  by apply share_bounds.
Qed.

(** X5 on four readings of which two are strong and none is extreme. *)
Lemma summary_counts_are_nested_witness :
  (WindAnalysisService.strongWindThreshold WindAnalysisService.constructor
   <= WindAnalysisService.extremeWindThreshold WindAnalysisService.constructor)%Q
  /\ WindAnalysisService.extremeWindReadings
       (WindAnalysisService.calculateSummary WindAnalysisService.constructor
          Samples.gust)
     <= WindAnalysisService.strongWindReadings
          (WindAnalysisService.calculateSummary WindAnalysisService.constructor
             Samples.gust).
Proof.
  assert (H : (WindAnalysisService.strongWindThreshold
                 WindAnalysisService.constructor
               <= WindAnalysisService.extremeWindThreshold
                    WindAnalysisService.constructor)%Q) by (by vm_compute).
  split; [exact H|].
  destruct (summary_counts_are_nested WindAnalysisService.constructor
              Samples.gust H) as (_ & Hle & _).
  exact Hle.
Defined.

Lemma maxOf_NegInfinity_iff (xs : list Q) : xs = [] <-> maxOf xs = NegInfinity.
Proof.
  split; [by intros ->|]. intros Hmax.
  destruct xs as [|x xs]; [done|].
  destruct (maxOf_greatest (x :: xs)) as (m & Hm & _); [done|]. congruence.
Qed.

(** X6.  The summary of no data: its percentages and its average are NaN,
    its maximum is -Infinity and its time span has no start and no end; and
    each of these happens for no data only. *)
Theorem summary_of_no_data this data :
  let s := WindAnalysisService.calculateSummary this data in
  (data = [] <-> WindAnalysisService.strongWindPercentage s = NaN)
  /\ (data = [] <-> WindAnalysisService.extremeWindPercentage s = NaN)
  /\ (data = [] <-> WindAnalysisService.s_maxWindSpeed s = NegInfinity)
  /\ (data = [] <-> WindAnalysisService.spanStart s = None)
  /\ (data = [] <-> WindAnalysisService.spanEnd s = None)
  /\ (data = [] -> WindAnalysisService.averageWindSpeed s = NaN)
  /\ (data <> [] -> exists a, WindAnalysisService.averageWindSpeed s = fin a).
Proof.
  simpl. split_and!.
  - split; [by intros ->|]. intros Hnan.
    destruct data as [|x data]; [done|].
    rewrite perCount_pos in Hnan by (simpl length; lia). done.
  - split; [by intros ->|]. intros Hnan.
    destruct data as [|x data]; [done|].
    rewrite perCount_pos in Hnan by (simpl length; lia). done.
  - rewrite <- maxOf_NegInfinity_iff. split; [by intros ->|].
    by intros ?%fmap_nil_inv.
  - split; [by intros ->|]. by destruct data.
  - split; [by intros ->|]. intros Hlast.
    apply fmap_None in Hlast. by apply last_None.
  - by intros ->.
  - intros Hne. rewrite perCount_pos by (by apply length_pos). by eexists.
Qed.

(** ** Gusts and heights *)

(** X8.  With a positive threshold of strong wind that is at most the
    threshold of extreme wind, the gust analysis counts at most as many
    extreme gusts as strong ones, at most as many strong ones as readings
    with a gust, and at most as many of these as readings. *)
Theorem gust_counts_are_nested this data :
  (0 < WindAnalysisService.strongWindThreshold this)%Q ->
  (WindAnalysisService.strongWindThreshold this
   <= WindAnalysisService.extremeWindThreshold this)%Q ->
  let g := WindAnalysisService.analyzeWindGusts this data in
  0 <= WindAnalysisService.extremeGustReadings g
  /\ WindAnalysisService.extremeGustReadings g
     <= WindAnalysisService.strongGustReadings g
  /\ WindAnalysisService.strongGustReadings g
     <= WindAnalysisService.gustReadings g
  /\ WindAnalysisService.gustReadings g
     <= WindAnalysisService.g_totalReadings g.
Proof.
  intros Hpos Hth. simpl. split_and!.
  - apply countIf_nonneg.
  - apply countIf_mono. intros x. rewrite !geq_true. intros Hx.
    by eapply Qle_trans.
  - apply countIf_mono. intros x. rewrite geq_true. intros Hx.
    unfold gt. apply negb_true_iff.
    destruct (Qle_bool _ _) eqn:E; [|done].
    apply Qle_bool_iff in E. lra.
  - apply countIf_le_length.
Qed.

(** X8 on four readings without gusts. *)
Lemma gust_counts_are_nested_witness :
  (0 < WindAnalysisService.strongWindThreshold WindAnalysisService.constructor)%Q
  /\ (WindAnalysisService.strongWindThreshold WindAnalysisService.constructor
      <= WindAnalysisService.extremeWindThreshold
           WindAnalysisService.constructor)%Q
  /\ WindAnalysisService.strongGustReadings
       (WindAnalysisService.analyzeWindGusts WindAnalysisService.constructor
          Samples.gust)
     <= WindAnalysisService.gustReadings
          (WindAnalysisService.analyzeWindGusts WindAnalysisService.constructor
             Samples.gust).
Proof.
  assert (H0 : (0 < WindAnalysisService.strongWindThreshold
                      WindAnalysisService.constructor)%Q) by (by vm_compute).
  assert (H : (WindAnalysisService.strongWindThreshold
                 WindAnalysisService.constructor
               <= WindAnalysisService.extremeWindThreshold
                    WindAnalysisService.constructor)%Q) by (by vm_compute).
  split; [exact H0|]. split; [exact H|].
  destruct (gust_counts_are_nested WindAnalysisService.constructor
              Samples.gust H0 H) as (_ & _ & Hle & _).
  exact Hle.
Defined.

Lemma Qdiv_zero_iff (a n : Q) :
  (0 < n)%Q -> Qeq_bool (a / n) 0 = true <-> (a == 0)%Q.
Proof.
  intros Hn. rewrite Qeq_bool_iff. split.
  - intros E. assert (Ha : (a == a / n * n)%Q) by (field; lra).
    rewrite Ha, E. ring.
  - intros ->. field. lra.
Qed.

(** X9.  The ratio of the two average speeds of the height comparison is
    a number exactly when there is data and the speeds at 10 m do not add
    up to 0; for no data it is NaN, and for data whose speeds at 10 m add
    up to 0 it is NaN or infinite. *)
Theorem height_ratio_is_unguarded data :
  let h := WindAnalysisService.compareWindHeights data in
  ((exists ratio, WindAnalysisService.speedRatio h = fin ratio)
   <-> data <> [] /\ ~ (sumQ (map windSpeedKmh data) == 0)%Q)
  /\ (data = [] -> WindAnalysisService.speedRatio h = NaN).
Proof.
  simpl. split; [|by intros ->].
  destruct (decide (data = [])) as [->|Hne].
  { split; [by intros [? ?]|by intros [? _]]. }
  pose proof (length_pos data Hne) as Hpos.
  assert (Hq : (0 < inject_Z (Z.of_nat (length data)))%Q)
    by (by apply inject_Z_length_pos).
  rewrite !perCount_pos by done. unfold fdiv, fin.
  destruct (Qeq_bool (sumQ (map windSpeedKmh data) / _) 0) eqn:E.
  - apply Qdiv_zero_iff in E; [|done]. split.
    + intros [ratio Hratio]. by destruct (_ ?= _)%Q.
    + by intros [_ Hsum].
  - split; [|by eexists]. intros _. split; [done|].
    intros Hsum. apply (Qdiv_zero_iff _ _ Hq) in Hsum. congruence.
Qed.

(** ** The recommendations *)

Lemma gt_true (a b : Q) : gt a b = true <-> (b < a)%Q.
Proof.
  unfold gt. rewrite negb_true_iff. split.
  - intros E. apply Qnot_le_lt. intros Hle. apply Qle_bool_iff in Hle.
    congruence.
  - intros Hlt. destruct (Qle_bool a b) eqn:E; [|done].
    apply Qle_bool_iff in E. lra.
Qed.

Lemma maxOf_cases (xs : list Q) :
  (xs = [] /\ maxOf xs = NegInfinity)
  \/ exists m, maxOf xs = Fin m /\ Forall (fun x => (x <= m)%Q) xs /\ m ∈ xs.
Proof.
  destruct xs as [|x xs]; [by left|]. right. by apply maxOf_greatest.
Qed.

Lemma elem_of_pushWhen {A} (c : bool) (r : A) (l : list A) (x : A) :
  x ∈ WindAnalysisService.pushWhen c r l <-> x ∈ l \/ (c = true /\ x = r).
Proof.
  unfold WindAnalysisService.pushWhen. destruct c.
  - rewrite elem_of_app, list_elem_of_singleton. split.
    + intros [Hx| ->]; [by left|by right].
    + intros [Hx|[_ ->]]; [by left|by right].
  - split; [by left|]. by intros [Hx|[Hc _]].
Qed.

Lemma pushWhen_sublist {A B} (f : A -> B) (c : bool) (r : A) (l : list A)
    (t t' : list B) :
  t' = t ++ [f r] ->
  map f l `sublist_of` t ->
  map f (WindAnalysisService.pushWhen c r l) `sublist_of` t'.
Proof.
  intros -> Hsub. unfold WindAnalysisService.pushWhen. destruct c.
  - rewrite map_app. by apply sublist_app.
  - by apply sublist_inserts_r.
Qed.

(** X7.  The recommendations come in a fixed order, at most one of each of
    the six kinds; there is none for no data; and the recommendation that
    carries the maximum speed is there exactly when a reading is faster
    than 100 km/h, whatever the threshold of extreme wind of the
    service. *)
Theorem recommendations_follow_the_rules toFixed2 this data :
  let recs := WindAnalysisService.generateRecommendations toFixed2 this data in
  map WindAnalysisService.rec_type recs
    `sublist_of` ["warning"; "danger"; "danger"; "warning"; "info"; "info"]%string
  /\ (data = [] -> recs = [])
  /\ ((exists n, WindAnalysisService.MaxSpeed n
                 ∈ map WindAnalysisService.rec_detail recs)
      <-> exists d, d ∈ data /\ (100 < windSpeedKmh d)%Q).
Proof.
  cbv zeta. split; [|split].
  - unfold WindAnalysisService.generateRecommendations. cbv zeta.
    apply (pushWhen_sublist WindAnalysisService.rec_type _ _ _
             ["warning"; "danger"; "danger"; "warning"; "info"]%string);
      [done|].
    apply (pushWhen_sublist WindAnalysisService.rec_type _ _ _
             ["warning"; "danger"; "danger"; "warning"]%string); [done|].
    apply (pushWhen_sublist WindAnalysisService.rec_type _ _ _
             ["warning"; "danger"; "danger"]%string); [done|].
    apply (pushWhen_sublist WindAnalysisService.rec_type _ _ _
             ["warning"; "danger"]%string); [done|].
    apply (pushWhen_sublist WindAnalysisService.rec_type _ _ _
             ["warning"]%string); [done|].
    by apply (pushWhen_sublist WindAnalysisService.rec_type _ _ [] []).
  - by intros ->.
  - unfold WindAnalysisService.generateRecommendations. cbv zeta.
    cbn [WindAnalysisService.s_maxWindSpeed WindAnalysisService.calculateSummary].
    split.
    + intros (n & Hin). apply list_elem_of_fmap in Hin as (rec & Hdet & Hrec).
      repeat (apply elem_of_pushWhen in Hrec as [Hrec|[Hc ->]]);
        try (by apply elem_of_nil in Hrec); try discriminate Hdet.
      destruct (maxOf_cases (map windSpeedKmh data))
        as [[_ Hmax]|(m & Hmax & _ & Hm)];
        rewrite Hmax in Hc; [done|].
      apply list_elem_of_fmap in Hm as (d & -> & Hd).
      exists d. split; [done|]. by apply gt_true.
    + intros (d & Hd & Hfast).
      destruct (maxOf_cases (map windSpeedKmh data))
        as [[Hnil _]|(m & Hmax & Hall & _)].
      { apply fmap_nil_inv in Hnil. subst data. by apply elem_of_nil in Hd. }
      rewrite Hmax. exists (Fin m). apply list_elem_of_fmap.
      eexists. split; [|do 3 (apply elem_of_pushWhen; left);
                        apply elem_of_pushWhen; right; split; [|reflexivity]].
      * done.
      * apply gt_true. eapply Qlt_le_trans; [exact Hfast|].
        rewrite Forall_forall in Hall. apply Hall.
        by apply (list_elem_of_fmap_2 windSpeedKmh).
Qed.

(** ** The strong and the extreme readings of the distributions *)

Section FlaggedScan.
Context `{Countable K} {V A : Type}.
Variable count : V -> Z.
Variable keyOf : A -> option K.
Variable add : V -> A -> V.
Variable flag : A -> bool.
Hypothesis add_count :
  forall b x, count (add b x) = WindAnalysisService.bump (flag x) (count b).

Lemma bucket_scan_flagged (data : list A) (m m' : gmap K V) :
  forEachM (bucketStep keyOf add) data m = Some m' ->
  totalCount count m' = totalCount count m + countIf flag data.
Proof.
  revert m. induction data as [|x data IH]; intros m Hrun.
  - injection Hrun as <-. unfold countIf. simpl. lia.
  - rewrite forEachM_cons in Hrun. unfold bucketStep at 1 in Hrun.
    destruct (keyOf x) as [k|]; [|done]. simpl in Hrun.
    destruct (m !! k) as [b|] eqn:Hb; [|done]. simpl in Hrun.
    rewrite (IH _ Hrun), (totalCount_insert_over count k b) by done.
    rewrite add_count, countIf_cons. unfold WindAnalysisService.bump.
    destruct (flag x); lia.
Qed.
End FlaggedScan.

Lemma day_scan_flagged (lt : LocalTime) (this : WindAnalysisService.t)
    (count : WindAnalysisService.DayStats -> Z) (flag : Reading -> bool)
    (data : list Reading) (m : gmap string WindAnalysisService.DayStats) :
  count WindAnalysisService.dayZero = 0 ->
  (forall b x, count (WindAnalysisService.dayAdd this b x)
               = WindAnalysisService.bump (flag x) (count b)) ->
  totalCount count (fold_left (WindAnalysisService.dayStep lt this) data m)
  = totalCount count m + countIf flag data.
Proof.
  intros Hzero Hadd. revert m.
  induction data as [|x data IH]; intros m.
  - unfold countIf. simpl. lia.
  - cbn [fold_left]. rewrite IH, countIf_cons.
    unfold WindAnalysisService.dayStep.
    destruct (m !! formatDay lt (timestamp x)) as [b|] eqn:Hb.
    + rewrite (totalCount_insert_over _ _ b) by done.
      rewrite Hadd. unfold WindAnalysisService.bump. destruct (flag x); lia.
    + rewrite totalCount_insert_fresh by done.
      rewrite Hadd, Hzero. unfold WindAnalysisService.bump.
      destruct (flag x); lia.
Qed.

(** X10.  The strong-wind counts of the 24 hourly buckets add up to the
    number of strong-wind readings of the summary, and the extreme-wind
    counts to its number of extreme-wind readings; the same holds of the
    daily buckets, and of the 16 sectors of the wind rose when no direction
    is negative. *)
Theorem flagged_counts_add_up :
  (forall lt this data,
      exists m,
        WindAnalysisService.calculateHourlyDistribution lt this data = Some m
        /\ totalCount (fun b => WindAnalysisService.h_strongWindCount
                                  (WindAnalysisService.h_stats b)) m
           = WindAnalysisService.strongWindReadings
               (WindAnalysisService.calculateSummary this data)
        /\ totalCount (fun b => WindAnalysisService.h_extremeWindCount
                                  (WindAnalysisService.h_stats b)) m
           = WindAnalysisService.extremeWindReadings
               (WindAnalysisService.calculateSummary this data))
  /\ (forall lt this data,
         totalCount (fun b => WindAnalysisService.d_strongWindCount
                                (WindAnalysisService.d_stats b))
           (WindAnalysisService.calculateDailyDistribution lt this data)
         = WindAnalysisService.strongWindReadings
             (WindAnalysisService.calculateSummary this data)
         /\ totalCount (fun b => WindAnalysisService.d_extremeWindCount
                                   (WindAnalysisService.d_stats b))
              (WindAnalysisService.calculateDailyDistribution lt this data)
            = WindAnalysisService.extremeWindReadings
                (WindAnalysisService.calculateSummary this data))
  /\ (forall this data,
         Forall (fun r => (0 <= windDirection r)%Q) data ->
         exists m,
           WindAnalysisService.calculateWindRose this data = Some m
           /\ totalCount (fun b => WindAnalysisService.r_strongWindCount
                                     (WindAnalysisService.r_stats b)) m
              = WindAnalysisService.strongWindReadings
                  (WindAnalysisService.calculateSummary this data)
           /\ totalCount (fun b => WindAnalysisService.r_extremeWindCount
                                     (WindAnalysisService.r_stats b)) m
              = WindAnalysisService.extremeWindReadings
                  (WindAnalysisService.calculateSummary this data)).
Proof.
  split; [|split].
  - intros lt this data.
    unfold WindAnalysisService.calculateHourlyDistribution.
    fold hourKeys.
    destruct (bucket_scan WindAnalysisService.h_count
                (fun r => Some (hour lt (timestamp r)))
                (WindAnalysisService.hourAdd this) hourKeys
                (fun b x => eq_refl) data
                (fold_left (fun acc key => <[key := WindAnalysisService.hourZero]> acc)
                   hourKeys ∅))
      as (m & Hrun & _ & _).
    { apply Forall_forall. intros r _.
      eexists. split; [done|]. apply hourKeys_elem, hour_range. }
    { apply init_hasKeys. }
    pose proof (bucket_scan_flagged WindAnalysisService.h_strongWindCount
                  (fun r => Some (hour lt (timestamp r)))
                  (WindAnalysisService.hourAdd this)
                  (WindAnalysisService.isStrongWind this)
                  (fun b x => eq_refl) _ _ _ Hrun) as Hstrong.
    pose proof (bucket_scan_flagged WindAnalysisService.h_extremeWindCount
                  (fun r => Some (hour lt (timestamp r)))
                  (WindAnalysisService.hourAdd this)
                  (WindAnalysisService.isExtremeWind this)
                  (fun b x => eq_refl) _ _ _ Hrun) as Hextreme.
    rewrite init_totalCount in Hstrong, Hextreme by done.
    change (forEachM (WindAnalysisService.hourStep lt this) data
              (fold_left (fun acc key => <[key := WindAnalysisService.hourZero]> acc)
                 hourKeys ∅) = Some m) in Hrun.
    rewrite Hrun. exists (WindAnalysisService.hourFinish <$> m).
    split; [done|]. rewrite !totalCount_fmap. split.
    + exact Hstrong.
    + exact Hextreme.
  - intros lt this data.
    unfold WindAnalysisService.calculateDailyDistribution.
    rewrite !totalCount_fmap. split.
    + change (totalCount WindAnalysisService.d_strongWindCount
                (fold_left (WindAnalysisService.dayStep lt this) data ∅)
              = countIf (WindAnalysisService.isStrongWind this) data).
      rewrite (day_scan_flagged lt this _
                 (WindAnalysisService.isStrongWind this)) by done.
      by rewrite totalCount_empty.
    + change (totalCount WindAnalysisService.d_extremeWindCount
                (fold_left (WindAnalysisService.dayStep lt this) data ∅)
              = countIf (WindAnalysisService.isExtremeWind this) data).
      rewrite (day_scan_flagged lt this _
                 (WindAnalysisService.isExtremeWind this)) by done.
      by rewrite totalCount_empty.
  - intros this data Hdata.
    unfold WindAnalysisService.calculateWindRose.
    destruct (bucket_scan WindAnalysisService.r_count
                (fun r => WindAnalysisService.getWindDirection (windDirection r))
                (WindAnalysisService.roseAdd this)
                WindAnalysisService.directionNames
                (fun b x => eq_refl) data
                (fold_left (fun acc key => <[key := WindAnalysisService.roseZero]> acc)
                   WindAnalysisService.directionNames ∅))
      as (m & Hrun & _ & _).
    { eapply Forall_impl; [exact Hdata|]. intros r Hr.
      by apply getWindDirection_nonneg. }
    { apply init_hasKeys. }
    pose proof (bucket_scan_flagged WindAnalysisService.r_strongWindCount
                  (fun r => WindAnalysisService.getWindDirection (windDirection r))
                  (WindAnalysisService.roseAdd this)
                  (WindAnalysisService.isStrongWind this)
                  (fun b x => eq_refl) _ _ _ Hrun) as Hstrong.
    pose proof (bucket_scan_flagged WindAnalysisService.r_extremeWindCount
                  (fun r => WindAnalysisService.getWindDirection (windDirection r))
                  (WindAnalysisService.roseAdd this)
                  (WindAnalysisService.isExtremeWind this)
                  (fun b x => eq_refl) _ _ _ Hrun) as Hextreme.
    rewrite init_totalCount in Hstrong, Hextreme by done.
    change (forEachM (WindAnalysisService.roseStep this) data
              (fold_left (fun acc key => <[key := WindAnalysisService.roseZero]> acc)
                 WindAnalysisService.directionNames ∅) = Some m) in Hrun.
    rewrite Hrun. exists (WindAnalysisService.roseFinish <$> m).
    split; [done|]. rewrite !totalCount_fmap. split.
    + exact Hstrong.
    + exact Hextreme.
Qed.

(** X10 on four readings, two of them strong. *)
Lemma flagged_counts_add_up_witness :
  Forall (fun r => (0 <= windDirection r)%Q) Samples.gust
  /\ exists m,
       WindAnalysisService.calculateWindRose
         WindAnalysisService.constructor Samples.gust = Some m
       /\ totalCount (fun b => WindAnalysisService.r_strongWindCount
                                 (WindAnalysisService.r_stats b)) m = 2.
Proof.
  assert (Hdirs : Forall (fun r => (0 <= windDirection r)%Q) Samples.gust).
  { repeat (constructor; [by vm_compute|]). constructor. }
  split; [exact Hdirs|].
  destruct flagged_counts_add_up as (_ & _ & Hrose).
  destruct (Hrose WindAnalysisService.constructor Samples.gust Hdirs)
    as (m & Hm & Hsum & _).
  by exists m.
Defined.

(** ** The analysis of one location *)

Lemma hourly_returns lt this data :
  is_Some (WindAnalysisService.calculateHourlyDistribution lt this data).
Proof.
  unfold WindAnalysisService.calculateHourlyDistribution. fold hourKeys.
  destruct (bucket_scan WindAnalysisService.h_count
              (fun r => Some (hour lt (timestamp r)))
              (WindAnalysisService.hourAdd this) hourKeys
              (fun b x => eq_refl) data
              (fold_left (fun acc key => <[key := WindAnalysisService.hourZero]> acc)
                 hourKeys ∅))
    as (m & Hrun & _ & _).
  { apply Forall_forall. intros r _.
    eexists. split; [done|]. apply hourKeys_elem, hour_range. }
  { apply init_hasKeys. }
  change (forEachM (WindAnalysisService.hourStep lt this) data
            (fold_left (fun acc key => <[key := WindAnalysisService.hourZero]> acc)
               hourKeys ∅) = Some m) in Hrun.
  rewrite Hrun. by eexists.
Qed.

Lemma rose_returns this data :
  Forall (fun r => (0 <= windDirection r)%Q) data ->
  is_Some (WindAnalysisService.calculateWindRose this data).
Proof.
  intros Hdata. unfold WindAnalysisService.calculateWindRose.
  destruct (bucket_scan WindAnalysisService.r_count
              (fun r => WindAnalysisService.getWindDirection (windDirection r))
              (WindAnalysisService.roseAdd this)
              WindAnalysisService.directionNames
              (fun b x => eq_refl) data
              (fold_left (fun acc key => <[key := WindAnalysisService.roseZero]> acc)
                 WindAnalysisService.directionNames ∅))
    as (m & Hrun & _ & _).
  { eapply Forall_impl; [exact Hdata|]. intros r Hr.
    by apply getWindDirection_nonneg. }
  { apply init_hasKeys. }
  change (forEachM (WindAnalysisService.roseStep this) data
            (fold_left (fun acc key => <[key := WindAnalysisService.roseZero]> acc)
               WindAnalysisService.directionNames ∅) = Some m) in Hrun.
  rewrite Hrun. by eexists.
Qed.

Lemma Sorted_map {A B} (R : A -> A -> Prop) (R' : B -> B -> Prop) (f : A -> B)
    (l : list A) :
  (forall a b, R a b -> R' (f a) (f b)) ->
  Sorted R l -> Sorted R' (map f l).
Proof.
  intros Himp. induction 1 as [|x l Hs IH Hhd]; simpl; constructor; [done|].
  destruct Hhd; simpl; constructor. by apply Himp.
Qed.

Lemma sortBy_timestamp_ordered (l : list Reading) :
  ordered (sortBy (fun a b => diffMillis (timestamp a) (timestamp b)) l).
Proof.
  unfold ordered.
  apply (Sorted_map (fun a b => diffMillis (timestamp a) (timestamp b) <= 0)).
  - unfold diffMillis. intros a b. lia.
  - apply sortBy_Sorted. unfold diffMillis. intros a b. lia.
Qed.

(** X11.  [analyzeWindPatterns] analyses the historical readings and the
    forecast together, ordered by timestamp, and the current reading is not
    among them: when no direction is negative it returns an analysis whose
    summary counts the readings of the two lists, and whose periods hold
    the strong readings of the ordered data. *)
Theorem patterns_cover_history_and_forecast lt toFixed2 this windData :
  Forall (fun r => (0 <= windDirection r)%Q)
    (WindDataService.historical windData ++ WindDataService.forecast windData) ->
  ordered (WindPatterns.allData windData)
  /\ WindPatterns.allData windData
     ≡ₚ WindDataService.historical windData ++ WindDataService.forecast windData
  /\ exists a,
      WindPatterns.analyzeWindPatterns lt toFixed2 this
        (WindDataService.Returns windData) = Some a
      /\ WindAnalysisService.totalReadings (WindPatterns.summary a)
         = Z.of_nat (length (WindDataService.historical windData))
           + Z.of_nat (length (WindDataService.forecast windData))
      /\ concat (map WindAnalysisService.readings
                   (WindPatterns.strongWindPeriods a))
         = List.filter (WindAnalysisService.isStrongWind this)
             (WindPatterns.allData windData).
Proof.
  intros Hdirs.
  assert (Hperm : WindPatterns.allData windData
                  ≡ₚ WindDataService.historical windData
                     ++ WindDataService.forecast windData)
    by apply sortBy_Permutation.
  split; [apply sortBy_timestamp_ordered|]. split; [done|].
  unfold WindPatterns.analyzeWindPatterns.
  destruct (RefDetector.ref_findStrongWindPeriods_total this
              (WindPatterns.allData windData)) as [ps Hps].
  destruct (hourly_returns lt this (WindPatterns.allData windData))
    as [hourly Hhourly].
  destruct (rose_returns this (WindPatterns.allData windData)) as [rose Hrose].
  { by rewrite Hperm. }
  rewrite Hps, Hhourly, Hrose. simpl. eexists. split; [reflexivity|].
  simpl. split.
  - rewrite Hperm, length_app. lia.
  - by apply ref_find_partition.
Qed.

(** X11 on four historical readings and a forecast of two. *)
Lemma patterns_cover_history_and_forecast_witness :
  Forall (fun r => (0 <= windDirection r)%Q)
    (WindDataService.historical sampleWindData
     ++ WindDataService.forecast sampleWindData)
  /\ ordered (WindPatterns.allData sampleWindData).
Proof.
  assert (Hdirs : Forall (fun r => (0 <= windDirection r)%Q)
                    (WindDataService.historical sampleWindData
                     ++ WindDataService.forecast sampleWindData)).
  { repeat (constructor; [by vm_compute|]). constructor. }
  split; [exact Hdirs|].
  destruct (patterns_cover_history_and_forecast Utc.clock (fun _ => EmptyString)
              WindAnalysisService.constructor sampleWindData Hdirs)
    as (Hord & _).
  exact Hord.
Defined.

(** ** The wind-data service *)

(** X12.  [getWindData] never throws: a failed fetch of the history gives
    no historical reading, and a failed or empty forecast gives the default
    current conditions at the present instant and no forecast.  Otherwise
    the current reading followed by the forecast is the formatted response:
    no entry is lost and none is in both. *)
Theorem wind_data_is_always_returned toNumber parseFloat numSub numAdd
    mathPow2 mathSqrt now lat lon fetchedHistory fetchedForecast :
  exists windData,
    WindDataService.getWindData toNumber parseFloat numSub numAdd mathPow2
      mathSqrt now lat lon fetchedHistory fetchedForecast
    = WindDataService.Returns windData
    /\ (fetchedHistory ≫= WindDataService.formattedData = None ->
        WindDataService.historical windData = [])
    /\ (forall readings,
           fetchedHistory ≫= WindDataService.formattedData = Some readings ->
           WindDataService.historical windData = readings)
    /\ (forall formatted,
           fetchedForecast ≫= WindDataService.formattedData = Some formatted ->
           formatted <> [] ->
           WindDataService.c_reading (WindDataService.current windData)
             :: WindDataService.forecast windData = formatted)
    /\ (fetchedForecast ≫= WindDataService.formattedData = None
        \/ fetchedForecast ≫= WindDataService.formattedData = Some [] ->
        WindDataService.forecast windData = []
        /\ WindDataService.current windData
           = WindDataService.formatCurrentData now WindDataService.noConditions).
Proof.
  unfold WindDataService.getWindData, WindDataService.getHistoricalData,
    WindDataService.getCurrentForecastData.
  destruct (fetchedHistory ≫= WindDataService.formattedData) as [hist|];
    destruct (fetchedForecast ≫= WindDataService.formattedData) as [[|first rest]|];
    eexists; (split; [reflexivity|]); simpl; split_and!;
    try done; try (by intros ? [= <-]); try (by intros [?|?]).
Qed.

Lemma gt_false (a b : Q) : gt a b = false <-> (a <= b)%Q.
Proof.
  unfold gt. rewrite negb_false_iff. apply Qle_bool_iff.
Qed.

(** *** The order of numbers that may be NaN *)

Lemma numGt_irrefl (a : Num) : numGt a a = false.
Proof. destruct a as [|x|]; simpl; try done. apply gt_false, Qle_refl. Qed.

Lemma numGt_trans (a b c : Num) :
  numGt a b = true -> numGt b c = true -> numGt a c = true.
Proof.
  destruct a as [|x|], b as [|y|], c as [|z|]; simpl; try done.
  rewrite !gt_true. intros. by eapply Qlt_trans.
Qed.

Lemma numGt_not_trans (a b c : Num) :
  numGt a b = true -> numGt a c = false -> numGt b c = false.
Proof.
  destruct a as [|x|], b as [|y|], c as [|z|]; simpl; try done.
  rewrite gt_true, !gt_false. intros Hyx Hxz.
  apply Qlt_le_weak. by eapply Qlt_le_trans.
Qed.

Lemma fless_irrefl (a : Float) : fless a a = false.
Proof. destruct a as [|x]; [done|]. apply numGt_irrefl. Qed.

Lemma fless_trans (a b c : Float) :
  fless a b = true -> fless b c = true -> fless a c = true.
Proof.
  destruct a as [|x], b as [|y], c as [|z]; simpl; try done.
  intros Hab Hbc. by eapply numGt_trans.
Qed.

(** What is not below [c] is not below a number below [c]. *)
Lemma fless_lower (x c other : Float) :
  fless x c = true -> fless other c = false -> fless other x = false.
Proof.
  destruct x as [|x], c as [|c], other as [|o]; simpl; try done.
  intros Hxc Hoc. by eapply numGt_not_trans.
Qed.

(** What is not below Infinity, NaN or Infinity itself, is below
    nothing. *)
Lemma fless_not_below_infinity (a b : Float) :
  fless a (Real Infinity) = false -> fless a b = false.
Proof.
  destruct a as [|[|x|]], b as [|[|y|]]; simpl; done.
Qed.

Section Nearest.
Variable toNumber : string -> Float.
Variable numSub : Float -> Float -> Float.
Variable numAdd : Float -> Float -> Float.
Variable mathPow2 : Float -> Float.
Variable mathSqrt : Float -> Float.
Variable lat lon : string.

Abbreviation dist :=
  (WindDataService.distance toNumber numSub numAdd mathPow2 mathSqrt lat lon).
Abbreviation nearer :=
  (WindDataService.nearer toNumber numSub numAdd mathPow2 mathSqrt lat lon).

Lemma nearer_unfold (m : Float) (closest : option WindDataService.City)
    (x : WindDataService.City) :
  nearer (m, closest) x
  = if fless (dist x) m then (dist x, Some x) else (m, closest).
Proof. done. Qed.

(** After the cities of [l], either none is closest, and none of them is
    at a distance below Infinity, or a city of [l] is closest and none of
    them is nearer. *)
Lemma nearer_scan (l : list WindDataService.City) :
  (fold_left nearer l (Real Infinity, None) = (Real Infinity, None)
   /\ Forall (fun c => fless (dist c) (Real Infinity) = false) l)
  \/ exists city,
      fold_left nearer l (Real Infinity, None) = (dist city, Some city)
      /\ city ∈ l
      /\ fless (dist city) (Real Infinity) = true
      /\ Forall (fun other => fless (dist other) (dist city) = false) l.
Proof.
  induction l as [|x l IH] using rev_ind; [left; by split|].
  rewrite fold_left_app. cbn [fold_left].
  destruct IH as [[-> Hall]|(city & -> & Hin & Hfinite & Hall)];
    rewrite nearer_unfold.
  - destruct (fless (dist x) (Real Infinity)) eqn:Hx.
    + right. exists x. split; [done|].
      split; [apply elem_of_app; right; by apply list_elem_of_singleton|].
      split; [done|]. apply Forall_app. split.
      * eapply Forall_impl; [exact Hall|]. intros other.
        apply fless_not_below_infinity.
      * constructor; [apply fless_irrefl|constructor].
    + left. split; [done|]. apply Forall_app. split; [done|].
      by constructor.
  - right. destruct (fless (dist x) (dist city)) eqn:Hx.
    + exists x. split; [done|].
      split; [apply elem_of_app; right; by apply list_elem_of_singleton|].
      split; [by eapply fless_trans|]. apply Forall_app. split.
      * eapply Forall_impl; [exact Hall|]. intros other.
        by apply fless_lower.
      * constructor; [apply fless_irrefl|constructor].
    + exists city. split; [done|].
      split; [apply elem_of_app; by left|]. split; [done|].
      apply Forall_app. split; [done|]. by constructor.
Qed.
End Nearest.

(** X13.  [getLocationName] names one of the four cities exactly when the
    distance computed for one of them is below Infinity, and then no city
    is at a smaller computed distance than the one it names.  When no
    computed distance is below Infinity it returns the text made of the
    coordinates; so it does for a coordinate that stands for no number, the
    difference, the square, the sum and the root of NaN being NaN. *)
Theorem location_name_is_nearest_or_fallback toNumber numSub numAdd mathPow2
    mathSqrt lat lon :
  let dist :=
    WindDataService.distance toNumber numSub numAdd mathPow2 mathSqrt lat lon in
  let result :=
    WindDataService.getLocationName toNumber numSub numAdd mathPow2 mathSqrt
      lat lon in
  ((exists c, c ∈ WindDataService.locations
              /\ fless (dist c) (Real Infinity) = true) ->
   exists city,
     city ∈ WindDataService.locations
     /\ result = WindDataService.city_name city
     /\ fless (dist city) (Real Infinity) = true
     /\ forall other, other ∈ WindDataService.locations ->
          fless (dist other) (dist city) = false)
  /\ ((forall c, c ∈ WindDataService.locations ->
         fless (dist c) (Real Infinity) = false) ->
      result = ("Lat: " ++ lat ++ ", Lon: " ++ lon)%string)
  /\ (toNumber lat = NaN ->
      (forall b, numSub NaN b = NaN) -> mathPow2 NaN = NaN ->
      (forall b, numAdd NaN b = NaN) -> mathSqrt NaN = NaN ->
      result = ("Lat: " ++ lat ++ ", Lon: " ++ lon)%string).
Proof.
  cbv zeta. unfold WindDataService.getLocationName.
  assert (Hnone :
    (forall c, c ∈ WindDataService.locations ->
       fless (WindDataService.distance toNumber numSub numAdd mathPow2
                mathSqrt lat lon c) (Real Infinity) = false) ->
    match snd (fold_left
                 (WindDataService.nearer toNumber numSub numAdd mathPow2
                    mathSqrt lat lon)
                 WindDataService.locations (Real Infinity, None)) with
    | Some closest => WindDataService.city_name closest
    | None => ("Lat: " ++ lat ++ ", Lon: " ++ lon)%string
    end = ("Lat: " ++ lat ++ ", Lon: " ++ lon)%string).
  { intros Hall.
    destruct (nearer_scan toNumber numSub numAdd mathPow2 mathSqrt lat lon
                WindDataService.locations)
      as [[-> _]|(city & _ & Hin & Hfinite & _)]; [done|].
    rewrite (Hall city Hin) in Hfinite. done. }
  split; [|split; [exact Hnone|]].
  - intros (c & Hc & Hfinite).
    destruct (nearer_scan toNumber numSub numAdd mathPow2 mathSqrt lat lon
                WindDataService.locations)
      as [[_ Hall]|(city & -> & Hin & Hcity & Hall)].
    + rewrite Forall_forall in Hall. rewrite (Hall c Hc) in Hfinite. done.
    + exists city. split; [done|]. split; [done|]. split; [done|].
      by apply Forall_forall.
  - intros Hlat Hsub Hpow Hadd Hsqrt. apply Hnone. intros c _.
    unfold WindDataService.distance.
    by rewrite Hlat, Hsub, Hpow, Hadd, Hsqrt.
Qed.

(** The coordinates of Auckland name Auckland; a latitude that stands for
    no number gives the text made of the coordinates. *)
Example location_name_samples :
  WindDataService.getLocationName sampleNumber sampleSub sampleAdd sampleSquare
    (fun root => root) "-36.8485" "174.7633" = "Auckland"%string
  /\ WindDataService.getLocationName sampleNumber sampleSub sampleAdd
       sampleSquare (fun root => root) "abc" "174.7633"
     = "Lat: abc, Lon: 174.7633"%string.
Proof. split; by vm_compute. Qed.

(** ** The median and the standard deviation of the event *)

Lemma qsign_nonpos (q : Q) : qsign q <= 0 <-> (q <= 0)%Q.
Proof.
  unfold qsign, Qle. simpl. rewrite Z.sgn_nonpos. lia.
Qed.

Lemma qsign_diff_le (a b : Q) : qsign (a - b) <= 0 <-> (a <= b)%Q.
Proof. rewrite qsign_nonpos. split; intros; lra. Qed.

Lemma sortBy_qsign_Sorted (values : list Q) :
  Sorted Qle (sortBy (fun a b => qsign (a - b)) values).
Proof.
  rewrite <- (map_id (sortBy _ values)).
  apply (Sorted_map (fun a b => qsign (a - b) <= 0)).
  - intros a b. apply qsign_diff_le.
  - apply sortBy_Sorted. intros a b. rewrite !qsign_diff_le.
    destruct (Qlt_le_dec b a) as [Hlt|Hle]; [right; lra|by left].
Qed.

Lemma countIf_Permutation {A} (f : A -> bool) (l1 l2 : list A) :
  l1 ≡ₚ l2 -> countIf f l1 = countIf f l2.
Proof.
  induction 1 as [|x l1 l2 _ IH|x y l|l1 l2 l3 _ IH1 _ IH2].
  - done.
  - by rewrite !countIf_cons, IH.
  - rewrite !countIf_cons. lia.
  - by rewrite IH1.
Qed.

Lemma countIf_all {A} (f : A -> bool) (l : list A) :
  Forall (fun x => f x = true) l -> countIf f l = Z.of_nat (length l).
Proof.
  induction 1 as [|x l Hx _ IH]; [done|].
  rewrite countIf_cons, Hx, IH. simpl length. lia.
Qed.

(** In a sorted list the element at index [i] has at least [i + 1]
    elements at or below it, and all the elements from [i] on at or above
    it. *)
Lemma sorted_count_below (l : list Q) (i : nat) (a m : Q) :
  StronglySorted Qle l -> l !! i = Some a -> (a <= m)%Q ->
  Z.of_nat (S i) <= countIf (fun x => Qle_bool x m) l.
Proof.
  intros Hs. revert i. induction Hs as [|h t Hs IH Hall]; intros i Hi Ham.
  - done.
  - rewrite countIf_cons. destruct i as [|i]; simpl in Hi.
    + injection Hi as ->. rewrite (proj2 (Qle_bool_iff a m) Ham).
      pose proof (countIf_nonneg (fun x => Qle_bool x m) t). lia.
    + assert (Hh : (h <= m)%Q).
      { eapply Qle_trans; [|exact Ham]. rewrite Forall_forall in Hall.
        apply Hall. by eapply list_elem_of_lookup_2. }
      rewrite (proj2 (Qle_bool_iff h m) Hh).
      pose proof (IH i Hi Ham). lia.
Qed.

Lemma sorted_count_above (l : list Q) (i : nat) (a m : Q) :
  StronglySorted Qle l -> l !! i = Some a -> (m <= a)%Q ->
  Z.of_nat (length l - i) <= countIf (fun x => Qle_bool m x) l.
Proof.
  intros Hs. revert i. induction Hs as [|h t Hs IH Hall]; intros i Hi Hma.
  - done.
  - destruct i as [|i]; simpl in Hi.
    + injection Hi as ->. rewrite countIf_all; [simpl; lia|].
      constructor; [by apply Qle_bool_iff|].
      eapply Forall_impl; [exact Hall|]. intros x Hx.
      apply Qle_bool_iff. by eapply Qle_trans.
    + rewrite countIf_cons. pose proof (IH i Hi Hma).
      simpl length. destruct (Qle_bool m h); lia.
Qed.

Lemma sorted_lookup_le (l : list Q) (i : nat) (a b : Q) :
  StronglySorted Qle l -> l !! i = Some a -> l !! S i = Some b -> (a <= b)%Q.
Proof.
  intros Hs. revert i. induction Hs as [|h t Hs IH Hall]; intros i Ha Hb.
  - done.
  - destruct i as [|i]; simpl in Ha, Hb.
    + injection Ha as ->. rewrite Forall_forall in Hall. apply Hall.
      by eapply list_elem_of_lookup_2.
    + by eapply IH.
Qed.

(** X14.  The median of values, of which there is at least one, is a number
    that at least half of the values are at or below and at least half are
    at or above; the array of the caller is left sorted, with the same
    values.  The median of no value is 0. *)
Theorem median_splits_the_values (values : list Q) :
  values <> [] ->
  exists m sorted,
    MultiLocationEvent.calculateMedian values = (Some m, sorted)
    /\ Sorted Qle sorted
    /\ sorted ≡ₚ values
    /\ Z.of_nat (length values)
       <= 2 * countIf (fun x => Qle_bool x m) values
    /\ Z.of_nat (length values)
       <= 2 * countIf (fun x => Qle_bool m x) values.
Proof.
  intros Hne. unfold MultiLocationEvent.calculateMedian.
  destruct (Nat.eqb_spec (length values) 0) as [Hlen|Hlen].
  { by apply nil_length_inv in Hlen. }
  set (sorted := sortBy (fun a b => qsign (a - b)) values).
  assert (Hperm : sorted ≡ₚ values) by apply sortBy_Permutation.
  assert (Hsorted : Sorted Qle sorted) by apply sortBy_qsign_Sorted.
  assert (Hstrong : StronglySorted Qle sorted).
  { apply Sorted_StronglySorted; [|done]. intros x y z. apply Qle_trans. }
  assert (Hn : length sorted = length values) by (by rewrite Hperm).
  pose proof (Nat.div_mod_eq (length sorted) 2) as Hdiv.
  pose proof (Nat.mod_upper_bound (length sorted) 2) as Hmod.
  destruct (Nat.eqb_spec (length sorted mod 2) 0) as [Heven|Hodd].
  - destruct (lookup_lt_is_Some_2 sorted (length sorted / 2 - 1)) as [a Ha];
      [lia|].
    destruct (lookup_lt_is_Some_2 sorted (length sorted / 2)) as [b Hb];
      [lia|].
    rewrite Ha, Hb. simpl. exists ((a + b) / 2)%Q, sorted.
    split; [done|]. split; [done|]. split; [done|].
    assert (Hab : (a <= b)%Q).
    { apply (sorted_lookup_le sorted (length sorted / 2 - 1)); [done..|].
      replace (S (length sorted / 2 - 1)) with (length sorted / 2)%nat by lia.
      done. }
    rewrite <- !(countIf_Permutation _ _ _ Hperm). split.
    + pose proof (sorted_count_below sorted _ a ((a + b) / 2)%Q Hstrong Ha)
        as Hbelow.
      assert ((a <= (a + b) / 2)%Q) as Hle
        by (apply Qle_shift_div_l; lra).
      specialize (Hbelow Hle). lia.
    + pose proof (sorted_count_above sorted _ b ((a + b) / 2)%Q Hstrong Hb)
        as Habove.
      assert (((a + b) / 2 <= b)%Q) as Hle
        by (apply Qle_shift_div_r; lra).
      specialize (Habove Hle). lia.
  - destruct (lookup_lt_is_Some_2 sorted (length sorted / 2)) as [m Hm];
      [lia|].
    rewrite Hm. exists m, sorted.
    split; [done|]. split; [done|]. split; [done|].
    rewrite <- !(countIf_Permutation _ _ _ Hperm). split.
    + pose proof (sorted_count_below sorted _ m m Hstrong Hm (Qle_refl m)).
      lia.
    + pose proof (sorted_count_above sorted _ m m Hstrong Hm (Qle_refl m)).
      lia.
Qed.

(** X14 on 10, 40, 20, 30: the median is 25. *)
Lemma median_splits_the_values_witness :
  [10; 40; 20; 30]%Q <> []
  /\ exists m sorted,
       MultiLocationEvent.calculateMedian [10; 40; 20; 30]%Q = (Some m, sorted)
       /\ Sorted Qle sorted.
Proof.
  assert (Hne : [10; 40; 20; 30]%Q <> []) by done.
  split; [exact Hne|].
  destruct (median_splits_the_values [10; 40; 20; 30]%Q Hne)
    as (m & sorted & Hm & Hs & _).
  by exists m, sorted.
Defined.

Lemma Qsquare_nonneg (d : Q) : (0 <= d * d)%Q.
Proof. nra. Qed.

(** X15.  The standard deviation of no value is 0; of values, it is the
    square root of a number that is never negative, so the root is never
    taken of a negative number. *)
Theorem deviation_radicand_is_nonnegative mathSqrt (values : list Q) :
  (0 <= MultiLocationEvent.avgSquaredDiff values)%Q
  /\ MultiLocationEvent.calculateStandardDeviation mathSqrt values
     = match values with
       | [] => 0%Q
       | _ => mathSqrt (MultiLocationEvent.avgSquaredDiff values)
       end.
Proof.
  split; [|by destruct values].
  destruct (decide (values = [])) as [->|Hne]; [done|].
  unfold MultiLocationEvent.avgSquaredDiff.
  apply Qle_shift_div_l; [by apply inject_Z_length_pos|].
  rewrite Qmult_0_l. apply sumQ_nonneg, Forall_fmap, Forall_forall.
  intros v _. apply Qsquare_nonneg.
Qed.

(** ** One farm during an event *)

Lemma multi_hourly_scan lt data :
  exists m,
    MultiLocationEvent.calculateHourlyDistribution lt data = Some m
    /\ totalCount (fun b => MultiLocationEvent.h_count
                              (MultiLocationEvent.h_stats b)) m
       = Z.of_nat (length data).
Proof.
  unfold MultiLocationEvent.calculateHourlyDistribution. fold hourKeys.
  set (zero := {| MultiLocationEvent.h_count := 0;
                  MultiLocationEvent.h_totalWindSpeed := 0;
                  MultiLocationEvent.h_maxWindSpeed := 0 |}).
  destruct (bucket_scan MultiLocationEvent.h_count
              (fun r => Some (hour lt (timestamp r)))
              (fun b reading =>
                 {| MultiLocationEvent.h_count :=
                      MultiLocationEvent.h_count b + 1;
                    MultiLocationEvent.h_totalWindSpeed :=
                      (MultiLocationEvent.h_totalWindSpeed b
                       + windSpeedKmh reading)%Q;
                    MultiLocationEvent.h_maxWindSpeed :=
                      Qmax (MultiLocationEvent.h_maxWindSpeed b)
                           (windSpeedKmh reading) |})
              hourKeys (fun b x => eq_refl) data
              (fold_left (fun acc key => <[key := zero]> acc) hourKeys ∅))
    as (m & Hrun & _ & Hsum).
  { apply Forall_forall. intros r _.
    eexists. split; [done|]. apply hourKeys_elem, hour_range. }
  { apply init_hasKeys. }
  change (forEachM (MultiLocationEvent.hourStep lt) data
            (fold_left (fun acc key => <[key := zero]> acc) hourKeys ∅)
          = Some m) in Hrun.
  rewrite Hrun. eexists. split; [reflexivity|].
  rewrite totalCount_fmap.
  change (totalCount MultiLocationEvent.h_count m = Z.of_nat (length data)).
  rewrite Hsum, init_totalCount by done. lia.
Qed.

Lemma multi_rose_scan data :
  Forall (fun r => (0 <= windDirection r)%Q) data ->
  exists m,
    MultiLocationEvent.calculateWindRose data = Some m
    /\ totalCount (fun b => MultiLocationEvent.r_count
                              (MultiLocationEvent.r_stats b)) m
       = Z.of_nat (length data).
Proof.
  intros Hdata. unfold MultiLocationEvent.calculateWindRose.
  set (zero := {| MultiLocationEvent.r_count := 0;
                  MultiLocationEvent.r_totalSpeed := 0 |}).
  destruct (bucket_scan MultiLocationEvent.r_count
              (fun r => MultiLocationAnalysisService.getWindDirection
                          (windDirection r))
              (fun b reading =>
                 {| MultiLocationEvent.r_count :=
                      MultiLocationEvent.r_count b + 1;
                    MultiLocationEvent.r_totalSpeed :=
                      (MultiLocationEvent.r_totalSpeed b
                       + windSpeedKmh reading)%Q |})
              MultiLocationAnalysisService.directionNames
              (fun b x => eq_refl) data
              (fold_left (fun acc key => <[key := zero]> acc)
                 MultiLocationAnalysisService.directionNames ∅))
    as (m & Hrun & _ & Hsum).
  { eapply Forall_impl; [exact Hdata|]. intros r Hr.
    by apply getWindDirection_nonneg. }
  { apply init_hasKeys. }
  change (forEachM MultiLocationEvent.roseStep data
            (fold_left (fun acc key => <[key := zero]> acc)
               MultiLocationAnalysisService.directionNames ∅)
          = Some m) in Hrun.
  rewrite Hrun. eexists. split; [reflexivity|].
  rewrite totalCount_fmap.
  change (totalCount MultiLocationEvent.r_count m = Z.of_nat (length data)).
  rewrite Hsum, init_totalCount by done. lia.
Qed.

Lemma multi_find_partition data threshold ps :
  MultiLocationEvent.findStrongWindPeriods data threshold = Some ps ->
  concat (map MultiLocationEvent.readings ps)
  = List.filter (fun d => geq (windSpeedKmh d) threshold) data
  /\ Forall (fun p => MultiLocationEvent.readings p <> []) ps.
Proof.
  set (this := {| WindAnalysisService.strongWindThreshold := threshold;
                  WindAnalysisService.extremeWindThreshold := threshold |}).
  change threshold with (WindAnalysisService.strongWindThreshold this) at 1.
  rewrite multi_find_agrees.
  destruct (WindAnalysisService.findStrongWindPeriods this data) as [qs|] eqn:Hqs;
    [|done].
  intros [= <-]. split.
  - change (List.filter (fun d => geq (windSpeedKmh d) threshold) data)
      with (List.filter (WindAnalysisService.isStrongWind this) data).
    rewrite <- (ref_find_partition this data qs Hqs).
    f_equal. rewrite map_map. done.
  - apply Forall_fmap.
    eapply Forall_impl;
      [exact (RefDetector.ref_findStrongWindPeriods_sound this data qs Hqs)|].
    by intros p (suf & (_ & Hne & _) & _).
Qed.

(** X16.  The analysis of a farm during an event.  Without readings the
    result is the marker of the farm with its error text.  With readings,
    none of a negative direction, the analysis is returned.  Every analysis
    returned is of the farm asked for, counts at least one reading and at
    most as many strong readings as readings, says that the farm has strong
    winds exactly when it lists a period, and its periods hold as many
    readings as it counts strong ones; the counts of its hourly buckets and
    of its sectors add up to the number of readings. *)
Theorem farm_event_analysis lt fetch farm startDate endDate threshold :
  let data := MultiLocationEvent.getWindDataForPeriod (fetch farm) in
  let result :=
    MultiLocationEvent.analyzeWindFarmDuringEvent lt fetch farm startDate
      endDate threshold in
  (data = [] ->
   result = Some (MultiLocationEvent.Marker farm
                    "No wind data available for this period"))
  /\ (data <> [] -> Forall (fun r => (0 <= windDirection r)%Q) data ->
      exists a, result = Some (MultiLocationEvent.Analysed a))
  /\ forall a,
      result = Some (MultiLocationEvent.Analysed a) ->
      MultiLocationEvent.ea_farm a = farm
      /\ 0 < MultiLocationEvent.ea_totalReadings a
      /\ 0 <= MultiLocationEvent.ea_strongWindReadings a
         <= MultiLocationEvent.ea_totalReadings a
      /\ (MultiLocationEvent.ea_hasStrongWinds a = true
          <-> MultiLocationEvent.ea_strongWindPeriods a <> [])
      /\ Z.of_nat (length (concat (map MultiLocationEvent.readings
                                     (MultiLocationEvent.ea_strongWindPeriods a))))
         = MultiLocationEvent.ea_strongWindReadings a
      /\ totalCount (fun b => MultiLocationEvent.h_count
                                (MultiLocationEvent.h_stats b))
           (MultiLocationEvent.ea_hourlyDistribution a)
         = MultiLocationEvent.ea_totalReadings a
      /\ totalCount (fun b => MultiLocationEvent.r_count
                                (MultiLocationEvent.r_stats b))
           (MultiLocationEvent.ea_windRose a)
         = MultiLocationEvent.ea_totalReadings a.
Proof.
  cbv zeta. unfold MultiLocationEvent.analyzeWindFarmDuringEvent.
  set (data := MultiLocationEvent.getWindDataForPeriod (fetch farm)).
  split; [by intros ->|].
  destruct (Nat.eqb_spec (length data) 0) as [Hlen|Hlen].
  { apply nil_length_inv in Hlen. split; [done|]. by intros a. }
  assert (Hne : data <> []) by (by intros ->).
  destruct (multi_hourly_scan lt data) as (hourly & Hhourly & Hhsum).
  rewrite Hhourly. split.
  - intros _ Hdirs.
    destruct (MultiLocationEvent.findStrongWindPeriods data threshold)
      as [ps|] eqn:Hps.
    + destruct (multi_rose_scan data Hdirs) as (rose & -> & _).
      simpl. by eexists.
    + exfalso.
      pose proof (multi_find_agrees
                    {| WindAnalysisService.strongWindThreshold := threshold;
                       WindAnalysisService.extremeWindThreshold := threshold |}
                    data) as Hagree.
      simpl in Hagree. rewrite Hps in Hagree.
      destruct (RefDetector.ref_findStrongWindPeriods_total
                  {| WindAnalysisService.strongWindThreshold := threshold;
                     WindAnalysisService.extremeWindThreshold := threshold |}
                  data) as [qs Hqs].
      by rewrite Hqs in Hagree.
  - intros a Ha.
    destruct (MultiLocationEvent.findStrongWindPeriods data threshold)
      as [ps|] eqn:Hps; [|done].
    destruct (MultiLocationEvent.calculateWindRose data) as [rose|] eqn:Hrose;
      [|done].
    simpl in Ha. injection Ha as <-. simpl.
    destruct (multi_find_partition data threshold ps Hps) as [Hcat Hreadings].
    pose proof (countIf_nonneg (fun d => geq (windSpeedKmh d) threshold) data)
      as Hnonneg.
    pose proof (countIf_le_length (fun d => geq (windSpeedKmh d) threshold) data)
      as Hle.
    pose proof (length_pos data Hne) as Hpos.
    assert (Hcount : Z.of_nat (length (concat (map MultiLocationEvent.readings ps)))
                     = countIf (fun d => geq (windSpeedKmh d) threshold) data)
      by (by rewrite Hcat).
    split; [done|]. split; [done|]. split; [done|]. split; [|split; [done|]].
    + rewrite Z.ltb_lt, <- Hcount. split.
      * intros Hsome ->. simpl in Hsome. lia.
      * intros Hps'. destruct ps as [|p ps]; [done|].
        apply Forall_cons in Hreadings as [Hp _]. simpl.
        rewrite length_app. destruct (MultiLocationEvent.readings p); [done|].
        simpl. lia.
    + split; [done|].
      revert Hrose. unfold MultiLocationEvent.calculateWindRose.
      set (zero := {| MultiLocationEvent.r_count := 0;
                      MultiLocationEvent.r_totalSpeed := 0 |}).
      destruct (forEachM MultiLocationEvent.roseStep data _) as [m|] eqn:Hrun;
        [|done].
      intros [= <-]. rewrite totalCount_fmap.
      change (forEachM
                (bucketStep
                   (fun r => MultiLocationAnalysisService.getWindDirection
                               (windDirection r))
                   (fun b reading =>
                      {| MultiLocationEvent.r_count :=
                           MultiLocationEvent.r_count b + 1;
                         MultiLocationEvent.r_totalSpeed :=
                           (MultiLocationEvent.r_totalSpeed b
                            + windSpeedKmh reading)%Q |}))
                data
                (fold_left (fun acc key => <[key := zero]> acc)
                   MultiLocationAnalysisService.directionNames ∅) = Some m)
        in Hrun.
      pose proof (bucket_scan_flagged MultiLocationEvent.r_count
                    (fun r => MultiLocationAnalysisService.getWindDirection
                                (windDirection r))
                    (fun b reading =>
                       {| MultiLocationEvent.r_count :=
                            MultiLocationEvent.r_count b + 1;
                          MultiLocationEvent.r_totalSpeed :=
                            (MultiLocationEvent.r_totalSpeed b
                             + windSpeedKmh reading)%Q |})
                    (fun _ => true) (fun b x => eq_refl) _ _ _ Hrun) as Hsum.
      rewrite init_totalCount in Hsum by done.
      change (totalCount MultiLocationEvent.r_count m = Z.of_nat (length data)).
      rewrite Hsum, countIf_all; [lia|]. by apply Forall_forall.
Qed.

(** ** The event across the farms *)

Lemma numDiffSign_total (a b : Num) :
  numDiffSign a b <= 0 \/ numDiffSign b a <= 0.
Proof.
  destruct a as [|x|], b as [|y|]; simpl; try lia.
  rewrite !qsign_diff_le.
  destruct (Qlt_le_dec y x) as [Hlt|Hle]; [right; lra|by left].
Qed.

Lemma numDiffSign_nonpos (a b : Num) :
  numDiffSign a b <= 0 -> numGt a b = false.
Proof.
  destruct a as [|x|], b as [|y|]; simpl; try done; try lia.
  rewrite qsign_diff_le. apply gt_false.
Qed.

Lemma Sorted_impl_rel {A} (R R' : A -> A -> Prop) (l : list A) :
  (forall a b, R a b -> R' a b) -> Sorted R l -> Sorted R' l.
Proof.
  intros Himp. induction 1 as [|x l Hs IH Hhd]; constructor; [done|].
  destruct Hhd; constructor. by apply Himp.
Qed.

Lemma map_imap_const {A B C} (g : B -> C) (f : nat -> A -> B) (h : A -> C)
    (l : list A) :
  (forall i x, g (f i x) = h x) -> map g (imap f l) = map h l.
Proof.
  intros Hgf. apply list_eq. intros i.
  rewrite !list_lookup_fmap, list_lookup_imap.
  destruct (l !! i); simpl; [|done]. by rewrite Hgf.
Qed.

(** X17.  The ranking of an event is the results without an error, each
    once, from the highest maximum speed to the lowest: the entry at each
    place carries the name, the region, the capacity, the maximum and the
    average speed of the result at that place of this order, and the
    entries are numbered from 1. *)
Theorem ranking_is_ordered (analysisResults : list MultiLocationEvent.FarmResult) :
  let valid :=
    List.filter (fun result =>
                   negb (truthy (MultiLocationEvent.errorOf result)))
                analysisResults in
  let ranked := MultiLocationEvent.ranking analysisResults in
  exists order,
    order ≡ₚ valid
    /\ Sorted (fun a b =>
                 numGt (MultiLocationEvent.maxWindSpeedOf b)
                       (MultiLocationEvent.maxWindSpeedOf a) = false) order
    /\ Forall2 ranks ranked order
    /\ (forall i entry, ranked !! i = Some entry ->
          MultiLocationEvent.rank entry = Z.of_nat i + 1)
    /\ Sorted (fun a b => numGt b a = false)
         (map MultiLocationEvent.rk_maxWindSpeed ranked).
Proof.
  cbv zeta. unfold MultiLocationEvent.ranking.
  set (valid := List.filter _ analysisResults).
  set (order :=
         sortBy (fun a b => numDiffSign (MultiLocationEvent.maxWindSpeedOf b)
                              (MultiLocationEvent.maxWindSpeedOf a)) valid).
  assert (Hsorted :
    Sorted (fun a b => numDiffSign (MultiLocationEvent.maxWindSpeedOf b)
                         (MultiLocationEvent.maxWindSpeedOf a) <= 0) order).
  { apply (sortBy_Sorted
             (fun a b => numDiffSign (MultiLocationEvent.maxWindSpeedOf b)
                           (MultiLocationEvent.maxWindSpeedOf a))).
    intros a b. apply numDiffSign_total. }
  exists order. split; [apply sortBy_Permutation|]. split; [|split; [|split]].
  - eapply Sorted_impl_rel; [|exact Hsorted].
    intros a b. apply numDiffSign_nonpos.
  - apply Forall2_same_length_lookup. split; [by rewrite length_imap|].
    intros i entry result Hentry Hresult.
    rewrite list_lookup_imap, Hresult in Hentry. simpl in Hentry.
    injection Hentry as <-. by repeat split.
  - intros i entry Hentry. rewrite list_lookup_imap in Hentry.
    destruct (_ !! i); [|done]. by injection Hentry as <-.
  - rewrite (map_imap_const _ _ MultiLocationEvent.maxWindSpeedOf) by done.
    apply (Sorted_map
             (fun a b => numDiffSign (MultiLocationEvent.maxWindSpeedOf b)
                           (MultiLocationEvent.maxWindSpeedOf a) <= 0));
      [|exact Hsorted].
    intros a b. apply numDiffSign_nonpos.
Qed.

Lemma farm_result_shape lt fetch farm startDate endDate threshold result :
  MultiLocationEvent.analyzeWindFarmDuringEvent lt fetch farm startDate endDate
    threshold = Some result ->
  MultiLocationEvent.farmOf result = farm
  /\ exists m, MultiLocationEvent.maxWindSpeedOf result = Fin m.
Proof.
  unfold MultiLocationEvent.analyzeWindFarmDuringEvent.
  set (data := MultiLocationEvent.getWindDataForPeriod (fetch farm)).
  destruct (Nat.eqb_spec (length data) 0) as [Hlen|Hlen].
  { intros [= <-]. split; [done|]. by exists 0%Q. }
  destruct (MultiLocationEvent.findStrongWindPeriods data threshold); [|done].
  destruct (MultiLocationEvent.calculateHourlyDistribution lt data); [|done].
  destruct (MultiLocationEvent.calculateWindRose data); [|done].
  simpl. intros [= <-]. split; [done|]. simpl.
  destruct (maxOf_greatest (map windSpeedKmh data)) as (m & Hm & _).
  { intros Hnil%fmap_nil_inv. by rewrite Hnil in Hlen. }
  by exists m.
Qed.

Lemma event_scan lt fetch message startDate endDate threshold
    (farms : list WindFarm) :
  let run :=
    fold_left (MultiLocationEvent.visit lt fetch message startDate endDate
                 threshold) farms
      {| MultiLocationEvent.analysisResults := [];
         MultiLocationEvent.run_farmsAnalyzed := 0;
         MultiLocationEvent.run_farmsWithStrongWinds := 0;
         MultiLocationEvent.run_maxWindSpeed := Fin 0;
         MultiLocationEvent.run_maxWindSpeedLocation := None;
         MultiLocationEvent.run_averageWindSpeeds := [] |} in
  map MultiLocationEvent.farmOf (MultiLocationEvent.analysisResults run) = farms
  /\ 0 <= MultiLocationEvent.run_farmsWithStrongWinds run
  /\ MultiLocationEvent.run_farmsWithStrongWinds run
     <= MultiLocationEvent.run_farmsAnalyzed run
  /\ MultiLocationEvent.run_farmsAnalyzed run <= Z.of_nat (length farms)
  /\ (exists m, MultiLocationEvent.run_maxWindSpeed run = Fin m /\ (0 <= m)%Q)
  /\ Forall (fun result =>
               numGt (MultiLocationEvent.maxWindSpeedOf result)
                     (MultiLocationEvent.run_maxWindSpeed run) = false)
            (MultiLocationEvent.analysisResults run)
  /\ (MultiLocationEvent.run_maxWindSpeedLocation run = None
      <-> MultiLocationEvent.run_maxWindSpeed run = Fin 0).
Proof.
  cbv zeta. induction farms as [|farm farms IH] using rev_ind.
  { simpl. split_and!; try done. by exists 0%Q. }
  rewrite fold_left_app. cbn [fold_left].
  destruct IH as (Hfarms & Hstrong0 & Hstrong & Hanalyzed & (m & Hmax & Hm)
                  & Hbound & Hloc).
  set (run := fold_left _ farms _) in *.
  rewrite length_app. simpl length. unfold MultiLocationEvent.visit.
  destruct (MultiLocationEvent.analyzeWindFarmDuringEvent _ _ _ _ _ _)
    as [result|] eqn:Hresult; simpl.
  - destruct (farm_result_shape _ _ _ _ _ _ _ Hresult) as [Hfarm [m' Hm']].
    rewrite Hm', Hmax in *. simpl.
    split; [by rewrite map_app, Hfarms; simpl; rewrite Hfarm|].
    split; [destruct (MultiLocationEvent.hasStrongWinds result); lia|].
    split; [destruct (MultiLocationEvent.hasStrongWinds result); lia|].
    split; [lia|].
    destruct (gt m' m) eqn:Hgt.
    + apply gt_true in Hgt. split; [exists m'; split; [done|lra]|]. split.
      * apply Forall_app. split.
        -- eapply Forall_impl; [exact Hbound|]. intros old Hold.
           simpl in Hold |- *. revert Hold.
           destruct (MultiLocationEvent.maxWindSpeedOf old) as [|y|];
             simpl; try done.
           rewrite !gt_false. lra.
        -- constructor; [|constructor]. rewrite Hm'. simpl.
           apply gt_false. lra.
      * split; [done|]. intros [= ->]. lra.
    + split; [by exists m|]. split; [|done].
      apply Forall_app. split; [done|].
      constructor; [|constructor]. by rewrite Hm'.
  - split; [by rewrite map_app, Hfarms|].
    split; [done|]. split; [done|]. split; [lia|].
    rewrite Hmax in *. split; [by exists m|]. split; [|done].
    apply Forall_app. split; [done|]. constructor; [|constructor].
    simpl. by apply gt_false.
Qed.

(** X18.  When the list of farms is there, cached or read, the event
    analysis returns: it has one result for each farm, in the order of the
    list, also for a farm whose analysis threw; the farms with strong winds
    are at most the farms analysed, and these at most the farms; the
    maximum speed of the event is at least 0 and at least the maximum of
    every result, and it is 0 exactly when no location is named for it. *)
Theorem event_counts_are_consistent lt mathSqrt toFixed1 fetch message
    cached onDisk startDate endDate threshold farms :
  match cached with Some known => Some known | None => onDisk end = Some farms ->
  exists result,
    MultiLocationEvent.analyzeStrongWindEvent lt mathSqrt toFixed1 fetch
      message cached onDisk startDate endDate threshold = Some (farms, result)
    /\ map MultiLocationEvent.farmOf (MultiLocationEvent.farmResults result)
       = farms
    /\ MultiLocationEvent.es_totalFarms (MultiLocationEvent.eventSummary result)
       = Z.of_nat (length farms)
    /\ 0 <= MultiLocationEvent.farmsWithStrongWinds
              (MultiLocationEvent.eventSummary result)
    /\ MultiLocationEvent.farmsWithStrongWinds
         (MultiLocationEvent.eventSummary result)
       <= MultiLocationEvent.farmsAnalyzed
            (MultiLocationEvent.eventSummary result)
    /\ MultiLocationEvent.farmsAnalyzed (MultiLocationEvent.eventSummary result)
       <= MultiLocationEvent.es_totalFarms
            (MultiLocationEvent.eventSummary result)
    /\ (exists m,
          MultiLocationEvent.es_maxWindSpeed
            (MultiLocationEvent.eventSummary result) = Fin m /\ (0 <= m)%Q)
    /\ Forall (fun one =>
                 numGt (MultiLocationEvent.maxWindSpeedOf one)
                       (MultiLocationEvent.es_maxWindSpeed
                          (MultiLocationEvent.eventSummary result)) = false)
              (MultiLocationEvent.farmResults result)
    /\ (MultiLocationEvent.maxWindSpeedLocation
          (MultiLocationEvent.eventSummary result) = None
        <-> MultiLocationEvent.es_maxWindSpeed
              (MultiLocationEvent.eventSummary result) = Fin 0).
Proof.
  intros Hfarms. unfold MultiLocationEvent.analyzeStrongWindEvent.
  rewrite Hfarms. simpl.
  destruct (event_scan lt fetch message startDate endDate threshold farms)
    as (H1 & H2 & H3 & H4 & H5 & H6 & H7).
  destruct (MultiLocationEvent.calculateMedian _) as [median sorted].
  eexists. split; [reflexivity|]. simpl. split_and!; done.
Qed.

(** X18 on one cached farm whose fetch fails. *)
Lemma event_counts_are_consistent_witness :
  match Some [Samples.farmA] with
  | Some known => Some known
  | None => None
  end = Some [Samples.farmA]
  /\ exists result,
       MultiLocationEvent.analyzeStrongWindEvent Utc.clock (fun q => q)
         (fun _ => EmptyString) (fun _ => None) "failed"
         (Some [Samples.farmA]) None "2024-01-01" "2024-01-02" 60
       = Some ([Samples.farmA], result)
       /\ map MultiLocationEvent.farmOf (MultiLocationEvent.farmResults result)
          = [Samples.farmA].
Proof.
  assert (H : match Some [Samples.farmA] with
              | Some known => Some known
              | None => None
              end = Some [Samples.farmA]) by reflexivity.
  split; [exact H|].
  destruct (event_counts_are_consistent Utc.clock (fun q => q)
              (fun _ => EmptyString) (fun _ => None) "failed"
              (Some [Samples.farmA]) None "2024-01-01" "2024-01-02" 60
              [Samples.farmA] H) as (result & Hresult & Hfarms & _).
  by exists result.
Defined.

(** ** The table of the time periods *)

(** X19.  When the list of farms is there, cached or read, the
    time-periods analysis returns a table with one row for each farm, in
    the order of the list and under the name of the farm, and each row has
    one cell for each time period and no error: a window without data
    leaves a null cell and never removes a row.  The summary counts every
    farm as a farm with data. *)
Theorem time_table_is_rectangular fetch cached onDisk timePeriods farms :
  match cached with Some known => Some known | None => onDisk end = Some farms ->
  exists result,
    TimePeriodsAnalysisService.analyzeTimePeriods fetch cached onDisk
      timePeriods = Some (farms, result)
    /\ map (fun row => TimePeriodsAnalysisService.fr_name
                         (TimePeriodsAnalysisService.row_result row))
           (TimePeriodsAnalysisService.farms result)
       = map name farms
    /\ Forall (fun row =>
                 length (TimePeriodsAnalysisService.averageSpeeds
                           (TimePeriodsAnalysisService.row_result row))
                 = length timePeriods
                 /\ TimePeriodsAnalysisService.row_error row = None)
              (TimePeriodsAnalysisService.farms result)
    /\ TimePeriodsAnalysisService.totalFarms
         (TimePeriodsAnalysisService.ta_summary result)
       = Z.of_nat (length farms)
    /\ TimePeriodsAnalysisService.farmsWithData
         (TimePeriodsAnalysisService.ta_summary result)
       = Z.of_nat (length farms)
    /\ TimePeriodsAnalysisService.totalTimePeriods
         (TimePeriodsAnalysisService.ta_summary result)
       = Z.of_nat (length timePeriods).
Proof.
  intros Hfarms. unfold TimePeriodsAnalysisService.analyzeTimePeriods.
  rewrite Hfarms. simpl. eexists. split; [reflexivity|]. simpl.
  rewrite (fold_left_snoc_map
             (fun farm =>
                {| TimePeriodsAnalysisService.row_result :=
                     TimePeriodsAnalysisService.analyzeWindFarmForTimePeriods
                       fetch farm timePeriods;
                   TimePeriodsAnalysisService.row_error := None |})).
  simpl. split; [by rewrite map_map|]. split; [|split; [|split; [|done]]].
  - apply Forall_fmap, Forall_forall. intros farm _. simpl. split; [|done].
    rewrite (fold_left_snoc_map
               (fun period =>
                  TimePeriodsAnalysisService.averageFor
                    (TimePeriodsAnalysisService.getWindDataForPeriod
                       (fetch farm period)
                       (TimePeriodsAnalysisService.tp_start period)
                       (TimePeriodsAnalysisService.tp_end period)))).
    simpl. by rewrite length_map.
  - by rewrite length_map.
  - rewrite <- countIf_length, countIf_all; [by rewrite length_map|].
    by apply Forall_fmap, Forall_forall.
Qed.

(** X19 on two cached farms and one window. *)
Lemma time_table_is_rectangular_witness :
  match Some [Samples.farmA; Samples.farmB] with
  | Some known => Some known
  | None => None
  end = Some [Samples.farmA; Samples.farmB]
  /\ exists result,
       TimePeriodsAnalysisService.analyzeTimePeriods Samples.fetch
         (Some [Samples.farmA; Samples.farmB]) None [Samples.firstTwoHours]
       = Some ([Samples.farmA; Samples.farmB], result)
       /\ TimePeriodsAnalysisService.totalFarms
            (TimePeriodsAnalysisService.ta_summary result) = 2.
Proof.
  assert (H : match Some [Samples.farmA; Samples.farmB] with
              | Some known => Some known
              | None => None
              end = Some [Samples.farmA; Samples.farmB]) by reflexivity.
  split; [exact H|].
  destruct (time_table_is_rectangular Samples.fetch
              (Some [Samples.farmA; Samples.farmB]) None
              [Samples.firstTwoHours] [Samples.farmA; Samples.farmB] H)
    as (result & Hresult & _ & _ & Htotal & _).
  by exists result.
Defined.

(** ** The aggregation over the sites *)

Lemma pushUnder_concat d p (g : list (string * list StrongWindPeriodsService.Period)) :
  concat (map snd (StrongWindPeriodsService.pushUnder d p g))
  ≡ₚ concat (map snd g) ++ [p].
Proof.
  induction g as [|[d' ps] g IH]; simpl; [done|].
  destruct (decide (d' = d)); simpl.
  - rewrite <- !app_assoc. apply Permutation_app_head.
    apply Permutation_app_comm.
  - by rewrite IH, app_assoc.
Qed.

Lemma group_concat lt (periods : list StrongWindPeriodsService.Period) :
  concat (map snd (StrongWindPeriodsService.groupPeriodsByDate lt periods))
  ≡ₚ periods.
Proof.
  induction periods as [|p periods IH] using rev_ind; [done|].
  by rewrite Aggregation.group_snoc, pushUnder_concat, IH.
Qed.

Lemma aggregate_scan this getWindData (farms : list WindFarm) :
  let acc :=
    fold_left (StrongWindPeriodsService.analyzeFarm this getWindData) farms
      ([], []) in
  Forall (fun fa =>
            StrongWindPeriodsService.fa_windFarm fa ∈ farms
            /\ StrongWindPeriodsService.fa_periods fa
               = periodsOf this getWindData
                   (StrongWindPeriodsService.fa_windFarm fa)
            /\ StrongWindPeriodsService.fa_periods fa <> []
            /\ StrongWindPeriodsService.fa_totalPeriods fa
               = Z.of_nat (length (StrongWindPeriodsService.fa_periods fa)))
         (fst acc)
  /\ (length (fst acc) <= length farms)%nat
  /\ length (snd acc)
     = length (concat (map StrongWindPeriodsService.fa_periods (fst acc))).
Proof.
  cbv zeta. induction farms as [|farm farms IH] using rev_ind.
  { simpl. split; [constructor|]. split; [lia|done]. }
  rewrite fold_left_app. cbn [fold_left].
  destruct (fold_left _ farms _) as [analysis collected].
  destruct IH as (Hall & Hlen & Hsum). simpl in Hall, Hlen, Hsum.
  assert (Hold : Forall (fun fa =>
            StrongWindPeriodsService.fa_windFarm fa ∈ farms ++ [farm]
            /\ StrongWindPeriodsService.fa_periods fa
               = periodsOf this getWindData
                   (StrongWindPeriodsService.fa_windFarm fa)
            /\ StrongWindPeriodsService.fa_periods fa <> []
            /\ StrongWindPeriodsService.fa_totalPeriods fa
               = Z.of_nat (length (StrongWindPeriodsService.fa_periods fa)))
         analysis).
  { eapply Forall_impl; [exact Hall|]. intros fa (Hin & ? & ? & ?).
    split; [|done]. apply elem_of_app. by left. }
  rewrite length_app. simpl length.
  unfold StrongWindPeriodsService.analyzeFarm.
  destruct (getWindData farm ≫= _) as [periods|] eqn:Hperiods;
    [|simpl; split; [done|split; [lia|done]]].
  destruct (0 <? Z.of_nat (length periods)) eqn:Hsome;
    [|simpl; split; [done|split; [lia|done]]].
  apply Z.ltb_lt in Hsome. simpl. split; [|split].
  - apply Forall_app. split; [done|]. constructor; [|constructor]. simpl.
    split; [apply elem_of_app; right; by apply list_elem_of_singleton|].
    split; [unfold periodsOf; by rewrite Hperiods|].
    split; [|done]. intros ->. simpl in Hsome. lia.
  - rewrite length_app. simpl. lia.
  - rewrite map_app, concat_app, !length_app, length_map, Hsum. simpl.
    by rewrite app_nil_r.
Qed.

Lemma periodsOf_long_enough this getWindData farm p :
  p ∈ periodsOf this getWindData farm ->
  (StrongWindPeriodsService.minimumDurationHours this
   <= StrongWindPeriodsService.durationHours p)%Q.
Proof.
  unfold periodsOf. destruct (getWindData farm) as [hist|]; simpl;
    [|by intros ?%elem_of_nil].
  destruct (StrongWindPeriodsService.findStrongWindPeriods this hist farm)
    as [ps|] eqn:Hps; [|by intros ?%elem_of_nil].
  intros Hp. pose proof (hub_find_state this farm hist ps Hps) as Hstate.
  rewrite Forall_forall in Hstate.
  destruct (Hstate p Hp) as (first & rest & e & -> & Hlong).
  by apply geq_true.
Qed.

(** X20.  The aggregation over the sites lists the periods of all farms by
    start time; every period is at least as long as the minimum duration;
    a farm is listed with its periods only when it has one, and the periods
    of the listed farms are as many as the periods of the country; the
    farms with strong winds are at most the farms; and the groups by date
    hold the periods of the country, each once. *)
Theorem aggregate_is_consistent lt this getWindData :
  let a :=
    StrongWindPeriodsService.analyzeStrongWindPeriods lt this getWindData in
  Sorted Z.le (map StrongWindPeriodsService.startTime
                 (StrongWindPeriodsService.nzStrongWindPeriods a))
  /\ Forall (fun p =>
               (StrongWindPeriodsService.minimumDurationHours this
                <= StrongWindPeriodsService.durationHours p)%Q)
            (StrongWindPeriodsService.nzStrongWindPeriods a)
  /\ Forall (fun fa =>
               StrongWindPeriodsService.fa_windFarm fa
                 ∈ StrongWindPeriodsService.windFarms this
               /\ StrongWindPeriodsService.fa_periods fa
                  = periodsOf this getWindData
                      (StrongWindPeriodsService.fa_windFarm fa)
               /\ StrongWindPeriodsService.fa_periods fa <> []
               /\ StrongWindPeriodsService.fa_totalPeriods fa
                  = Z.of_nat (length (StrongWindPeriodsService.fa_periods fa)))
            (StrongWindPeriodsService.windFarmAnalysis a)
  /\ StrongWindPeriodsService.totalStrongWindPeriods
       (StrongWindPeriodsService.summary a)
     = Z.of_nat (length (concat (map StrongWindPeriodsService.fa_periods
                                   (StrongWindPeriodsService.windFarmAnalysis a))))
  /\ StrongWindPeriodsService.windFarmsWithStrongWinds
       (StrongWindPeriodsService.summary a)
     <= StrongWindPeriodsService.totalWindFarms
          (StrongWindPeriodsService.summary a)
  /\ concat (map snd (StrongWindPeriodsService.periodsByDate a))
     ≡ₚ StrongWindPeriodsService.nzStrongWindPeriods a.
Proof.
  cbv zeta. unfold StrongWindPeriodsService.analyzeStrongWindPeriods.
  pose proof (aggregate_scan this getWindData
                (StrongWindPeriodsService.windFarms this)) as Hscan.
  pose proof (Aggregation.collected_elem this getWindData
                (StrongWindPeriodsService.windFarms this)) as Helem.
  cbv zeta in Hscan.
  destruct (fold_left _ (StrongWindPeriodsService.windFarms this) _)
    as [analysis collected].
  destruct Hscan as (Hall & Hlen & Hsum). simpl in Hall, Hlen, Hsum, Helem.
  simpl. split_and!.
  - apply (Sorted_map
             (fun a b => diffMillis (StrongWindPeriodsService.startTime a)
                           (StrongWindPeriodsService.startTime b) <= 0)).
    + unfold diffMillis. intros a b. lia.
    + apply sortBy_Sorted. unfold diffMillis. intros a b. lia.
  - apply Forall_forall. intros p Hp. apply sortBy_elem in Hp.
    apply Helem in Hp as (j & farm & q & _ & Hq & ->).
    exact (periodsOf_long_enough this getWindData farm q Hq).
  - done.
  - by rewrite sortBy_length, Hsum.
  - lia.
  - apply group_concat.
Qed.

(** ** The regions of an event *)

Lemma tally_keys region result stats k :
  k ∈ map fst (MultiLocationEvent.tally region result stats)
  <-> k = region \/ k ∈ map fst stats.
Proof.
  induction stats as [|[r s] stats IH]; simpl.
  - rewrite list_elem_of_singleton. split; [by left|].
    by intros [?|?%elem_of_nil].
  - destruct (decide (r = region)) as [->|Hne]; simpl.
    + rewrite elem_of_cons. tauto.
    + rewrite !elem_of_cons, IH. tauto.
Qed.

Lemma tally_NoDup region result stats :
  NoDup (map fst stats) ->
  NoDup (map fst (MultiLocationEvent.tally region result stats)).
Proof.
  induction stats as [|[r s] stats IH]; simpl; intros Hnd.
  - apply NoDup_singleton.
  - apply NoDup_cons in Hnd as [Hr Hnd].
    destruct (decide (r = region)) as [->|Hne]; simpl.
    + by apply NoDup_cons.
    + apply NoDup_cons. split; [|by apply IH].
      rewrite tally_keys. by intros [?|?].
Qed.

Lemma regionAdd_ok s result :
  0 <= MultiLocationEvent.rg_farms s ->
  0 <= MultiLocationEvent.rg_farmsWithStrongWinds s ->
  MultiLocationEvent.rg_farmsWithStrongWinds s
  <= MultiLocationEvent.rg_farms s ->
  regionOk (MultiLocationEvent.regionAdd s result).
Proof.
  intros H0 H1 H2. unfold regionOk, MultiLocationEvent.regionAdd. simpl.
  destruct (MultiLocationEvent.hasStrongWinds result); lia.
Qed.

Lemma tally_ok region result stats :
  Forall (fun entry => regionOk (snd entry)) stats ->
  Forall (fun entry => regionOk (snd entry))
    (MultiLocationEvent.tally region result stats).
Proof.
  induction stats as [|[r s] stats IH]; simpl; intros Hall.
  - constructor; [|constructor]. by apply regionAdd_ok.
  - apply Forall_cons in Hall as [(H1 & H2 & H3) Hall]. simpl in *.
    destruct (decide (r = region)); constructor; try done.
    + apply regionAdd_ok; lia.
    + by apply IH.
Qed.

Lemma tally_sum region result stats :
  sumZ (map (fun entry => MultiLocationEvent.rg_farms (snd entry))
          (MultiLocationEvent.tally region result stats))
  = sumZ (map (fun entry => MultiLocationEvent.rg_farms (snd entry)) stats) + 1.
Proof.
  induction stats as [|[r s] stats IH]; simpl; [done|].
  destruct (decide (r = region)); simpl; [lia|]. rewrite IH. lia.
Qed.

Lemma ownKeysOrder_Permutation {V} (entries : list (string * V)) :
  ownKeysOrder entries ≡ₚ entries.
Proof.
  unfold ownKeysOrder. rewrite sortBy_Permutation.
  induction entries as [|entry entries IH]; [done|]. simpl.
  destruct (arrayIndex (fst entry)); simpl.
  - by rewrite IH.
  - by rewrite <- Permutation_middle, IH.
Qed.

Lemma sumZ_Permutation (xs ys : list Z) : xs ≡ₚ ys -> sumZ xs = sumZ ys.
Proof.
  induction 1 as [|x xs ys _ IH|x y xs|xs ys zs _ IH1 _ IH2]; simpl;
    unfold sumZ in *; simpl; lia.
Qed.

Lemma regions_scan (results : list MultiLocationEvent.FarmResult) stats :
  NoDup (map fst stats) ->
  Forall (fun entry => regionOk (snd entry)) stats ->
  let final :=
    fold_left (fun stats result =>
                 if truthy (MultiLocationEvent.errorOf result) then stats
                 else if bool_decide (region (MultiLocationEvent.farmOf result)
                                      ∈ MultiLocationEvent.objectPrototypeNames)
                      then stats
                 else MultiLocationEvent.tally
                        (region (MultiLocationEvent.farmOf result)) result stats)
              results stats in
  NoDup (map fst final)
  /\ Forall (fun entry => regionOk (snd entry)) final
  /\ sumZ (map (fun entry => MultiLocationEvent.rg_farms (snd entry)) final)
     = sumZ (map (fun entry => MultiLocationEvent.rg_farms (snd entry)) stats)
       + countIf countedInRegion results.
Proof.
  cbv zeta. revert stats.
  induction results as [|result results IH]; intros stats Hnd Hall.
  { simpl. split; [done|]. split; [done|]. unfold countIf. simpl. lia. }
  cbn [fold_left]. rewrite countIf_cons. unfold countedInRegion at 1.
  destruct (truthy _); simpl.
  { destruct (IH stats Hnd Hall) as (? & ? & ->). split_and!; [done..|lia]. }
  destruct (bool_decide _); simpl.
  { destruct (IH stats Hnd Hall) as (? & ? & ->). split_and!; [done..|lia]. }
  destruct (IH (MultiLocationEvent.tally
                  (region (MultiLocationEvent.farmOf result)) result stats))
    as (? & ? & ->); [by apply tally_NoDup|by apply tally_ok|].
  rewrite tally_sum. split_and!; [done..|lia].
Qed.

(** The names that are array indices come first, by index; "01" is not
    one. *)
Example own_keys_order_sample :
  map fst (ownKeysOrder [("b", 1); ("10", 2); ("a", 3); ("2", 4); ("01", 5)]%string)
  = ["2"; "10"; "b"; "a"; "01"]%string.
Proof. vm_compute. reflexivity. Qed.

(** X21.  The regional statistics of an event name each region once; a
    region has at least one farm and at most as many farms with strong
    winds as farms; and the farms of the regions are as many as the results
    that have no error and whose region is not a name that every object
    inherits, such as "constructor": a farm of such a region is in no
    region. *)
Theorem regions_count_each_farm_once
    (farmResults : list MultiLocationEvent.FarmResult) :
  let regions := MultiLocationEvent.analyzeRegionalImpact farmResults in
  NoDup (map fst regions)
  /\ Forall (fun entry => regionOk (MultiLocationEvent.rg_stats (snd entry)))
            regions
  /\ sumZ (map (fun entry => MultiLocationEvent.rg_farms
                               (MultiLocationEvent.rg_stats (snd entry)))
               regions)
     = countIf countedInRegion farmResults.
Proof.
  cbv zeta. unfold MultiLocationEvent.analyzeRegionalImpact.
  destruct (regions_scan farmResults []) as (Hnd & Hall & Hsum);
    [constructor|constructor|].
  cbv zeta in Hnd, Hall, Hsum. rewrite !map_map. simpl.
  set (final := fold_left _ farmResults []) in *.
  pose proof (ownKeysOrder_Permutation final) as Hperm. split_and!.
  - by rewrite Hperm.
  - apply Forall_fmap. by rewrite Hperm.
  - etrans; [apply sumZ_Permutation, fmap_Permutation, Hperm|].
    etrans; [exact Hsum|]. simpl. lia.
Qed.
